(** * courier-sync-forge: the fiscal-document pipeline

    A shallow embedding of

      - [src/lib/cufeGenerator.ts]      ([generateCUFE]),
      - [src/lib/qrGenerator.ts]        ([generateInvoiceQR], [generateInvoiceQRBuffer]),
      - [src/hooks/useInvoiceEmission.ts] ([emitInvoice]),
      - [src/components/PasswordRecovery.tsx] ([onSubmitEmail], [onSubmitCode]),

    together with the parts of the JavaScript runtime these functions call
    (string padding, number formatting, the [Date] getters, UTF-8 encoding
    and the SHA-384 digest of the Web Crypto API).

    Conventions of the embedding.

      - A JavaScript string is the [string] of its UTF-8 bytes; this is what
        [TextEncoder.encode] produces, and the operations applied to
        arbitrary strings here (concatenation, deleting the ASCII characters
        '.' and '-', deleting a final ASCII digit, equality) commute with
        that encoding.  The [length] of a string counts UTF-16 code units
        and is computed from the bytes ([JS.length]).
      - A JavaScript number holding an amount is a [JS.number]: the rational
        [Q] that a finite number denotes exactly (the two zeros are one), or
        NaN, or one of the infinities.  What [Math.round] returns is a
        [JS.integral].  The formatting functions are the ECMAScript
        algorithms, exponent notation included.
      - A [Date] is a [Date.date]: a time value, a [Z] of milliseconds since
        the epoch, or the invalid date.  The local-time getters read the
        host's time zone, which is an explicit argument [tz] (the offset in
        milliseconds to add to a UTC time value).
      - A function that can throw returns [exn + A]; an [async] function
        that rejects is the same.  Effects (toasts, logs, storage, calls
        of the QR library) are threaded explicitly. *)

From Stdlib Require Import ZArith QArith Qabs Qround Lia Ascii String.
From stdpp Require Import gmap strings list.

Local Open Scope Z_scope.

#[local] Arguments String.append !s1 s2 : simpl nomatch.

(** ** The JavaScript runtime *)

Module JS.

(** An exception is represented by its [message]. *)
Definition exn := string.

Definition ascii_of_Z (n : Z) : ascii := Ascii.ascii_of_N (Z.to_N n).
Definition Z_of_ascii (c : ascii) : Z := Z.of_N (Ascii.N_of_ascii c).

(** [Array.prototype.join]. *)
Fixpoint join (sep : string) (l : list string) : string :=
  match l with
  | [] => ""
  | [x] => x
  | x :: l' => x +:+ sep +:+ join sep l'
  end.

(** [String.prototype.repeat] for a one-character string. *)
Fixpoint repeat_char (c : ascii) (n : nat) : string :=
  match n with
  | O => ""
  | S n' => String c (repeat_char c n')
  end.

(** The UTF-16 code units that a byte of a UTF-8 string stands for: a code
    point is one unit, or two when its encoding has four bytes (it is then
    beyond the Basic Multilingual Plane); the units are counted at the first
    byte of the code point and the bytes that continue it count for none. *)
Definition code_units (c : ascii) : nat :=
  let n := Z_of_ascii c in
  if n <? 128 then 1 else if n <? 192 then 0 else if n <? 240 then 1 else 2.

(** [s.length]. *)
Fixpoint length (s : string) : nat :=
  match s with
  | EmptyString => O
  | String c s' => (code_units c + length s')%nat
  end.

(** [s.padStart(n, c)] for a one-character filler [c]. *)
Definition padStart (n : nat) (c : ascii) (s : string) : string :=
  repeat_char c (n - length s) +:+ s.

(** Digit of a value below the radix, lowercase as [Number.prototype.toString]
    prints it. *)
Definition digit_char (d : Z) : ascii :=
  if d <? 10 then ascii_of_Z (48 + d) else ascii_of_Z (87 + d).

(** The digits of a non-negative integer in [radix], most significant first.
    The recursion is on [fuel]; [digits] supplies enough of it. *)
Fixpoint digits_fuel (fuel : nat) (radix n : Z) (acc : string) : string :=
  match fuel with
  | O => acc
  | S fuel' =>
      let acc' := String (digit_char (n mod radix)) acc in
      if n <? radix then acc' else digits_fuel fuel' radix (n / radix) acc'
  end.

Definition digits (radix n : Z) : string :=
  digits_fuel (S (Z.to_nat (Z.log2 n))) radix n "".

(** [Number.prototype.toString(radix)] on an integer below 2^53 in
    magnitude (here: on a byte). *)
Definition toString_radix (radix n : Z) : string :=
  if n <? 0 then "-" +:+ digits radix (- n) else digits radix n.

(** A number: a finite one, given by the rational that the number holds
    exactly (both zeros are [Finite 0]), or NaN, or an infinity. *)
Inductive number :=
| Finite (q : Q)
| NaN
| PosInfinity
| NegInfinity.

(** A number that is integral or not finite: an integer-valued number, as
    the getters of [Date], [length] and [Math.round] return, or what
    [Math.round] returns on a number that is not finite.  In [Integer n],
    [n] is an integer that a number holds: any integer below 2^53 in
    magnitude, and from there on one with a significand of 53 bits. *)
Inductive integral :=
| Integer (n : Z)
| Integral_NaN
| Integral_PosInfinity
| Integral_NegInfinity.

(** [Math.round]: the nearest integer, ties towards +infinity. *)
Definition Math_round (x : number) : integral :=
  match x with
  | Finite q => Integer (Qfloor (q + (1 # 2))%Q)
  | NaN => Integral_NaN
  | PosInfinity => Integral_PosInfinity
  | NegInfinity => Integral_NegInfinity
  end.

(** The number value of a non-negative integer [v]: the nearest integer with
    a significand of 53 bits, the one with the even significand on a tie
    (below the overflow threshold of 2^1024). *)
Definition nearest_double (v : Z) : Z :=
  let e := Z.log2 v - 52 in
  if e <=? 0 then v
  else
    let q := v / 2 ^ e in
    let r := v mod 2 ^ e in
    let half := 2 ^ (e - 1) in
    (if (half <? r) || ((r =? half) && Z.odd q) then q + 1 else q) * 2 ^ e.

(** Number::toString, step 5: the decimal [s * 10^(n-k)] with the fewest
    digits [k] whose number value is [x], the closest to [x] if there are
    several, the one with [s] even if two are as close.  The candidates
    with at most [k] digits are the multiples of [10^p] on either side of
    [x], for [p] the number of digits of [x] less [k]; [p] goes down from
    the number of digits less one. *)
Fixpoint shortest_fuel (fuel : nat) (p : Z) (x : Z) : Z :=
  match fuel with
  | O => x
  | S fuel' =>
      let unit := 10 ^ p in
      let lo := x / unit * unit in
      let hi := lo + unit in
      let lo_is_x := nearest_double lo =? x in
      let hi_is_x := nearest_double hi =? x in
      if lo_is_x && hi_is_x then
        if x - lo <? hi - x then lo
        else if hi - x <? x - lo then hi
        else if Z.even (lo / unit) then lo else hi
      else if lo_is_x then lo
      else if hi_is_x then hi
      else shortest_fuel fuel' (p - 1) x
  end.

Definition shortest (x : Z) : Z :=
  let n := String.length (digits 10 x) in
  shortest_fuel n (Z.of_nat n - 1) x.

Fixpoint strip_trailing_zeros (s : string) : string :=
  match s with
  | EmptyString => EmptyString
  | String c s' =>
      match strip_trailing_zeros s' with
      | EmptyString => if Ascii.eqb c "0" then EmptyString else String c EmptyString
      | r => String c r
      end
  end.

(** Number::toString, steps 9 to 12: exponent notation for the decimal [v]
    of [n] digits, [k] of them significant: the first digit, a point and
    the other significant digits if there are any, then [e+] and [n - 1]. *)
Definition exponential (v : Z) : string :=
  let ds := digits 10 v in
  let n := Z.of_nat (String.length ds) in
  match strip_trailing_zeros ds with
  | EmptyString => EmptyString
  | String d EmptyString => String d EmptyString +:+ "e+" +:+ digits 10 (n - 1)
  | String d s => String d EmptyString +:+ "." +:+ s +:+ "e+" +:+ digits 10 (n - 1)
  end.

(** Number::toString on a non-negative integer-valued number [x].  Below
    2^53 every integer is a number and is its own shortest decimal; from
    there on the shortest decimal is printed, with its zeros when it is
    below 10^21 and in exponent notation otherwise. *)
Definition toString_magnitude (x : Z) : string :=
  if x <? 2 ^ 53 then digits 10 x
  else
    let v := shortest x in
    if v <? 10 ^ 21 then digits 10 v else exponential v.

(** [String(x)] / [x.toString()] / [`${x}`] on an integral number. *)
Definition toString (x : integral) : string :=
  match x with
  | Integer n => if n <? 0 then "-" +:+ toString_magnitude (- n) else toString_magnitude n
  | Integral_NaN => "NaN"
  | Integral_PosInfinity => "Infinity"
  | Integral_NegInfinity => "-Infinity"
  end.

(** [s.slice(0, n)] and [s.slice(n)] on an ASCII string. *)
Definition take (n : nat) (s : string) : string := String.substring 0 n s.
Definition drop (n : nat) (s : string) : string :=
  String.substring n (String.length s - n) s.

(** [Number.prototype.toFixed(f)], steps of ECMAScript 21.1.3.3: a number
    that is not finite is printed by [toString]; the sign is split off; a
    magnitude from 10^21 on (an integer, as every number from 2^53 on) is
    printed by [toString]; otherwise [n] is the integer nearest to
    [x * 10^f] (the larger one on a tie), its digits are left-padded with
    zeros to [f + 1] characters and the point is inserted before the last
    [f]. *)
Definition toFixed (f : nat) (x : number) : string :=
  match x with
  | NaN => toString Integral_NaN
  | PosInfinity => toString Integral_PosInfinity
  | NegInfinity => toString Integral_NegInfinity
  | Finite x =>
      let s := if Qlt_le_dec x 0 then "-" else "" in
      let x := Qabs x in
      let m :=
        if Qlt_le_dec x (inject_Z (10 ^ 21)) then
          let n := Qfloor (x * inject_Z (10 ^ Z.of_nat f) + (1 # 2))%Q in
          let m := digits 10 n in
          match f with
          | O => m
          | _ =>
              let k := String.length m in
              let m := if (k <=? f)%nat then repeat_char "0" (f + 1 - k) +:+ m else m in
              let k := String.length m in
              take (k - f) m +:+ "." +:+ drop (k - f) m
          end
        else toString (Integer (Qfloor x)) in
      s +:+ m
  end.

(** [String.prototype.toUpperCase] on an ASCII string. *)
Definition upper_char (c : ascii) : ascii :=
  let n := Z_of_ascii c in
  if (97 <=? n) && (n <=? 122) then ascii_of_Z (n - 32) else c.

Fixpoint toUpperCase (s : string) : string :=
  match s with
  | EmptyString => EmptyString
  | String c s' => String (upper_char c) (toUpperCase s')
  end.

(** [new TextEncoder().encode(s)]: the UTF-8 bytes. *)
Fixpoint encode (s : string) : list Z :=
  match s with
  | EmptyString => []
  | String c s' => Z_of_ascii c :: encode s'
  end.

(** [s.split(sep)] for a one-character separator: the pieces between the
    occurrences of [sep]; the empty string gives one empty piece. *)
Fixpoint split (sep : ascii) (s : string) : list string :=
  match s with
  | EmptyString => [EmptyString]
  | String c s' =>
      if Ascii.eqb c sep then EmptyString :: split sep s'
      else match split sep s' with
           | piece :: pieces => String c piece :: pieces
           | [] => [String c EmptyString]
           end
  end.

End JS.


(** ** SHA-384 (FIPS 180-4), as [crypto.subtle.digest('SHA-384', data)]

    Bytes and 64-bit words are [Z]; every addition is reduced modulo 2^64. *)

Module SHA384.

Definition w64 (x : Z) : Z := x mod 2 ^ 64.
Definition add64 (x y : Z) : Z := w64 (x + y).
Definition rotr (n x : Z) : Z :=
  Z.lor (Z.shiftr x n) (w64 (Z.shiftl x (64 - n))).
Definition shr (n x : Z) : Z := Z.shiftr x n.

Definition Ch (x y z : Z) : Z :=
  Z.lxor (Z.land x y) (Z.land (w64 (Z.lnot x)) z).
Definition Maj (x y z : Z) : Z :=
  Z.lxor (Z.lxor (Z.land x y) (Z.land x z)) (Z.land y z).
Definition Sigma0 (x : Z) : Z :=
  Z.lxor (Z.lxor (rotr 28 x) (rotr 34 x)) (rotr 39 x).
Definition Sigma1 (x : Z) : Z :=
  Z.lxor (Z.lxor (rotr 14 x) (rotr 18 x)) (rotr 41 x).
Definition sigma0 (x : Z) : Z :=
  Z.lxor (Z.lxor (rotr 1 x) (rotr 8 x)) (shr 7 x).
Definition sigma1 (x : Z) : Z :=
  Z.lxor (Z.lxor (rotr 19 x) (rotr 61 x)) (shr 6 x).

Definition K : list Z :=
  [ 0x428a2f98d728ae22; 0x7137449123ef65cd; 0xb5c0fbcfec4d3b2f; 0xe9b5dba58189dbbc;
    0x3956c25bf348b538; 0x59f111f1b605d019; 0x923f82a4af194f9b; 0xab1c5ed5da6d8118;
    0xd807aa98a3030242; 0x12835b0145706fbe; 0x243185be4ee4b28c; 0x550c7dc3d5ffb4e2;
    0x72be5d74f27b896f; 0x80deb1fe3b1696b1; 0x9bdc06a725c71235; 0xc19bf174cf692694;
    0xe49b69c19ef14ad2; 0xefbe4786384f25e3; 0x0fc19dc68b8cd5b5; 0x240ca1cc77ac9c65;
    0x2de92c6f592b0275; 0x4a7484aa6ea6e483; 0x5cb0a9dcbd41fbd4; 0x76f988da831153b5;
    0x983e5152ee66dfab; 0xa831c66d2db43210; 0xb00327c898fb213f; 0xbf597fc7beef0ee4;
    0xc6e00bf33da88fc2; 0xd5a79147930aa725; 0x06ca6351e003826f; 0x142929670a0e6e70;
    0x27b70a8546d22ffc; 0x2e1b21385c26c926; 0x4d2c6dfc5ac42aed; 0x53380d139d95b3df;
    0x650a73548baf63de; 0x766a0abb3c77b2a8; 0x81c2c92e47edaee6; 0x92722c851482353b;
    0xa2bfe8a14cf10364; 0xa81a664bbc423001; 0xc24b8b70d0f89791; 0xc76c51a30654be30;
    0xd192e819d6ef5218; 0xd69906245565a910; 0xf40e35855771202a; 0x106aa07032bbd1b8;
    0x19a4c116b8d2d0c8; 0x1e376c085141ab53; 0x2748774cdf8eeb99; 0x34b0bcb5e19b48a8;
    0x391c0cb3c5c95a63; 0x4ed8aa4ae3418acb; 0x5b9cca4f7763e373; 0x682e6ff3d6b2b8a3;
    0x748f82ee5defb2fc; 0x78a5636f43172f60; 0x84c87814a1f0ab72; 0x8cc702081a6439ec;
    0x90befffa23631e28; 0xa4506cebde82bde9; 0xbef9a3f7b2c67915; 0xc67178f2e372532b;
    0xca273eceea26619c; 0xd186b8c721c0c207; 0xeada7dd6cde0eb1e; 0xf57d4f7fee6ed178;
    0x06f067aa72176fba; 0x0a637dc5a2c898a6; 0x113f9804bef90dae; 0x1b710b35131c471b;
    0x28db77f523047d84; 0x32caab7b40c72493; 0x3c9ebe0a15c9bebc; 0x431d67c49c100d4c;
    0x4cc5d4becb3e42b6; 0x597f299cfc657e2a; 0x5fcb6fab3ad6faec; 0x6c44198c4a475817 ].

Definition H0 : list Z :=
  [ 0xcbbb9d5dc1059ed8; 0x629a292a367cd507; 0x9159015a3070dd17; 0x152fecd8f70e5939;
    0x67332667ffc00b31; 0x8eb44a8768581511; 0xdb0c2e0d64f98fa7; 0x47b5481dbefa4fa4 ].

(** Big-endian conversions. *)
Fixpoint be_of_bytes (bs : list Z) (acc : Z) : Z :=
  match bs with
  | [] => acc
  | b :: bs' => be_of_bytes bs' (acc * 256 + b)
  end.

Fixpoint bytes_of_be (n : nat) (x : Z) : list Z :=
  match n with
  | O => []
  | S n' => (x / 256 ^ Z.of_nat n') mod 256 :: bytes_of_be n' x
  end.

(** Padding: a 1 bit, zeros up to 112 modulo 128 bytes, the bit length on
    128 bits. *)
Definition pad (msg : list Z) : list Z :=
  let len := Z.of_nat (length msg) in
  let zeros := Z.to_nat ((111 - len) mod 128) in
  msg ++ 128 :: repeat 0 zeros ++ bytes_of_be 16 (8 * len).

Fixpoint chunks (fuel : nat) (size : nat) (l : list Z) : list (list Z) :=
  match fuel with
  | O => []
  | S fuel' =>
      match l with
      | [] => []
      | _ => firstn size l :: chunks fuel' size (skipn size l)
      end
  end.

Definition words_of_block (block : list Z) : list Z :=
  map (fun bs => be_of_bytes bs 0) (chunks 16 8 block).

(** The message schedule; [rev_w] holds W_{t-1}, W_{t-2}, ... *)
Fixpoint extend (n : nat) (rev_w : list Z) : list Z :=
  match n with
  | O => rev_w
  | S n' =>
      let w := add64 (add64 (sigma1 (nth 1 rev_w 0)) (nth 6 rev_w 0))
                     (add64 (sigma0 (nth 14 rev_w 0)) (nth 15 rev_w 0)) in
      extend n' (w :: rev_w)
  end.

Definition schedule (block : list Z) : list Z :=
  rev (extend 64 (rev (words_of_block block))).

Record regs := Regs { ra : Z; rb : Z; rc : Z; rd : Z; re : Z; rf : Z; rg : Z; rh : Z }.

Definition round (s : regs) (kw : Z * Z) : regs :=
  let '(k, w) := kw in
  let t1 := add64 (add64 (add64 (rh s) (Sigma1 (re s))) (Ch (re s) (rf s) (rg s)))
                  (add64 k w) in
  let t2 := add64 (Sigma0 (ra s)) (Maj (ra s) (rb s) (rc s)) in
  Regs (add64 t1 t2) (ra s) (rb s) (rc s) (add64 (rd s) t1) (re s) (rf s) (rg s).

Definition regs_of_list (h : list Z) : regs :=
  Regs (nth 0 h 0) (nth 1 h 0) (nth 2 h 0) (nth 3 h 0)
       (nth 4 h 0) (nth 5 h 0) (nth 6 h 0) (nth 7 h 0).

Definition list_of_regs (s : regs) : list Z :=
  [ra s; rb s; rc s; rd s; re s; rf s; rg s; rh s].

Definition compress (h : list Z) (block : list Z) : list Z :=
  let s := fold_left round (combine K (schedule block)) (regs_of_list h) in
  map (fun p => add64 (fst p) (snd p)) (combine h (list_of_regs s)).

Definition hash_words (msg : list Z) : list Z :=
  let p := pad msg in
  fold_left compress (chunks (length p) 128 p) H0.

(** The digest: the first six words of the final state, 48 bytes. *)
Definition digest (msg : list Z) : list Z :=
  let h := hash_words msg in
  bytes_of_be 8 (nth 0 h 0) ++ bytes_of_be 8 (nth 1 h 0) ++
  bytes_of_be 8 (nth 2 h 0) ++ bytes_of_be 8 (nth 3 h 0) ++
  bytes_of_be 8 (nth 4 h 0) ++ bytes_of_be 8 (nth 5 h 0).

End SHA384.

(** ** [Date]

    A valid date holds a time value [t] (milliseconds since
    1970-01-01T00:00:00Z).  The getters without [UTC] in their name work on
    the local time [t + tz t], where [tz] is the host's offset at [t];
    [toISOString] works on [t] itself.  The functions below are those of a
    valid date, given its time value. *)

Module Date.

(** A [Date] object: valid, with its time value (an integer of at most
    8.64e15 in magnitude; nothing below relies on the bound), or the
    invalid date that [new Date(NaN)] and [new Date('no date')] make. *)
Inductive date :=
| Valid (t : Z)
| Invalid.

(** The message of the [RangeError] that [toISOString] throws on the
    invalid date. *)
Definition invalid_time_value : JS.exn := "Invalid time value".

Definition msPerDay : Z := 86400000.

Definition Day (t : Z) : Z := t / msPerDay.
Definition TimeWithinDay (t : Z) : Z := t mod msPerDay.

(** Year, month (1..12) and day of the month of a day number, in the
    proleptic Gregorian calendar.  Days are counted from 0000-03-01 in eras
    of 400 years (146097 days), so that the leap day comes last in a year;
    [doe] is the day within the era. *)
Definition civil_of_era (era doe : Z) : Z * Z * Z :=
  let yoe := (doe - doe / 1460 + doe / 36524 - doe / 146096) / 365 in
  let doy := doe - (365 * yoe + yoe / 4 - yoe / 100) in
  let mp := (5 * doy + 2) / 153 in
  let d := doy - (153 * mp + 2) / 5 + 1 in
  let m := if mp <? 10 then mp + 3 else mp - 9 in
  let y := yoe + era * 400 + (if m <=? 2 then 1 else 0) in
  (y, m, d).

Definition civil (days : Z) : Z * Z * Z :=
  let z := days + 719468 in
  let era := z / 146097 in
  civil_of_era era (z - era * 146097).

Definition YearFromTime (t : Z) : Z := fst (fst (civil (Day t))).
(** [MonthFromTime] counts from 0, as [getMonth] does. *)
Definition MonthFromTime (t : Z) : Z := snd (fst (civil (Day t))) - 1.
Definition DateFromTime (t : Z) : Z := snd (civil (Day t)).
Definition HourFromTime (t : Z) : Z := (TimeWithinDay t / 3600000) mod 24.
Definition MinFromTime (t : Z) : Z := (TimeWithinDay t / 60000) mod 60.
Definition SecFromTime (t : Z) : Z := (TimeWithinDay t / 1000) mod 60.
Definition msFromTime (t : Z) : Z := TimeWithinDay t mod 1000.

Section Local.
(** The host's local time zone adjustment. *)
Variable tz : Z -> Z.

Definition LocalTime (t : Z) : Z := t + tz t.

Definition getFullYear (t : Z) : Z := YearFromTime (LocalTime t).
Definition getMonth (t : Z) : Z := MonthFromTime (LocalTime t).
Definition getDate (t : Z) : Z := DateFromTime (LocalTime t).
Definition getHours (t : Z) : Z := HourFromTime (LocalTime t).
Definition getMinutes (t : Z) : Z := MinFromTime (LocalTime t).
Definition getSeconds (t : Z) : Z := SecFromTime (LocalTime t).
End Local.

(** [Date.prototype.toISOString]: [YYYY-MM-DDTHH:mm:ss.sssZ] in UTC; a year
    outside 0..9999 is printed with a sign and six digits. *)
Definition iso_year (y : Z) : string :=
  if (0 <=? y) && (y <=? 9999) then JS.padStart 4 "0" (JS.toString (JS.Integer y))
  else (if y <? 0 then "-" else "+")
       +:+ JS.padStart 6 "0" (JS.toString (JS.Integer (Z.abs y))).

Definition toISOString (t : Z) : string :=
  iso_year (YearFromTime t) +:+ "-" +:+
  JS.padStart 2 "0" (JS.toString (JS.Integer (MonthFromTime t + 1))) +:+ "-" +:+
  JS.padStart 2 "0" (JS.toString (JS.Integer (DateFromTime t))) +:+ "T" +:+
  JS.padStart 2 "0" (JS.toString (JS.Integer (HourFromTime t))) +:+ ":" +:+
  JS.padStart 2 "0" (JS.toString (JS.Integer (MinFromTime t))) +:+ ":" +:+
  JS.padStart 2 "0" (JS.toString (JS.Integer (SecFromTime t))) +:+ "." +:+
  JS.padStart 3 "0" (JS.toString (JS.Integer (msFromTime t))) +:+ "Z".

End Date.

(** ** The DTOs of [@/types]

    Only the fields read or written by the functions below are kept; the
    spread [{...invoice}] copies the others unchanged.  An optional field
    ([cufe?: string]) is an [option], [None] being [undefined]. *)

Record InvoiceItem := { descripcion : string }.

Record Invoice := {
  inv_id : string;
  inv_issueDate : string;
  inv_status : string;
  inv_cufe : option string;
  inv_emissionTimestamp : option string;
  inv_pdfGeneratedAt : option string;
  inv_clientNit : string;
  inv_clientSegment : string;
  inv_subtotal : JS.number;
  inv_taxAmount : JS.number;
  inv_total : JS.number;
  inv_items : list InvoiceItem
}.

Record CompanyInfo := { nit : string }.

Record PDFTemplate := {
  tpl_segment : string;
  companyInfo : CompanyInfo;
  technicalKey : option string
}.

Record Shipment := { shp_id : string; shp_estado : string }.

(** JavaScript truthiness of an optional string: [undefined] and the empty
    string are falsy. *)
Definition truthy (o : option string) : bool :=
  match o with
  | Some (String _ _) => true
  | _ => false
  end.

(** [o || d] for an optional string [o]. *)
Definition or_default (o : option string) (d : string) : string :=
  match o with
  | Some (String c s) => String c s
  | _ => d
  end.

(** ** [src/lib/cufeGenerator.ts] *)

Module Cufe.

Record CUFEData := { cufe : string; timestamp : string }.

Definition is_digit (c : ascii) : bool :=
  let n := JS.Z_of_ascii c in (48 <=? n) && (n <=? 57).

(** [s.replace(/[.-]/g, '')] *)
Fixpoint remove_dots_hyphens (s : string) : string :=
  match s with
  | EmptyString => EmptyString
  | String c s' =>
      if (Ascii.eqb c "." || Ascii.eqb c "-")%bool then remove_dots_hyphens s'
      else String c (remove_dots_hyphens s')
  end.

(** [s.replace(/\d$/, '')]: the pattern matches one ASCII digit at the very
    end of the input. *)
Fixpoint remove_final_digit (s : string) : string :=
  match s with
  | EmptyString => EmptyString
  | String c EmptyString => if is_digit c then EmptyString else s
  | String c s' => String c (remove_final_digit s')
  end.

Definition default_technical_key : string := "CourierSync2025ElectronicInvoicing".

(** The callback of [hashArray.map]: [b => b.toString(16).padStart(2, '0')]. *)
Definition hex_of_byte (b : Z) : string :=
  JS.padStart 2 "0" (JS.toString_radix 16 b).

Section Generate.
Variable tz : Z -> Z.

(** The date field (lines 17 to 25), for a valid date of time value
    [emissionTimestamp]. *)
Definition fechaHora (emissionTimestamp : Z) : string :=
  let year := Date.getFullYear tz emissionTimestamp in
  let month :=
    JS.padStart 2 "0" (JS.toString (JS.Integer (Date.getMonth tz emissionTimestamp + 1))) in
  let day :=
    JS.padStart 2 "0" (JS.toString (JS.Integer (Date.getDate tz emissionTimestamp))) in
  let hours :=
    JS.padStart 2 "0" (JS.toString (JS.Integer (Date.getHours tz emissionTimestamp))) in
  let minutes :=
    JS.padStart 2 "0" (JS.toString (JS.Integer (Date.getMinutes tz emissionTimestamp))) in
  let seconds :=
    JS.padStart 2 "0" (JS.toString (JS.Integer (Date.getSeconds tz emissionTimestamp))) in
  JS.toString (JS.Integer year) +:+ month +:+ day +:+ hours +:+ minutes +:+ seconds.

(** The string that is hashed (lines 17 to 55), for a valid date of time
    value [emissionTimestamp]. *)
Definition datosParaCUFE (invoice : Invoice) (template : PDFTemplate)
    (emissionTimestamp : Z) : string :=
  let fechaHora := fechaHora emissionTimestamp in
  let valorTotal := JS.padStart 15 "0" (JS.toString (JS.Math_round (inv_total invoice))) in
  let valorImpuesto := JS.padStart 15 "0" (JS.toString (JS.Math_round (inv_taxAmount invoice))) in
  let valorSubtotal := JS.padStart 15 "0" (JS.toString (JS.Math_round (inv_subtotal invoice))) in
  let nitEmisor := remove_final_digit (remove_dots_hyphens (nit (companyInfo template))) in
  let nitAdquirente := remove_final_digit (remove_dots_hyphens (inv_clientNit invoice)) in
  let claveTecnica := or_default (technicalKey template) default_technical_key in
  JS.join ""
    [ inv_id invoice;
      fechaHora;
      valorTotal;
      "01";
      valorImpuesto;
      "04";
      "000000000000000";
      "03";
      "000000000000000";
      valorTotal;
      nitEmisor;
      "31";
      nitAdquirente;
      claveTecnica ].

(** [generateCUFE].  On the invalid date the getters return NaN, a string
    that nobody sees is hashed, and [toISOString] throws at line 66: the
    function rejects with that [RangeError]. *)
Definition generateCUFE (invoice : Invoice) (template : PDFTemplate)
    (emissionTimestamp : Date.date) : JS.exn + CUFEData :=
  match emissionTimestamp with
  | Date.Invalid => inl Date.invalid_time_value
  | Date.Valid t =>
      let datosParaCUFE := datosParaCUFE invoice template t in
      let data := JS.encode datosParaCUFE in
      let hashBuffer := SHA384.digest data in
      let hashArray := hashBuffer in
      let hash :=
        JS.toUpperCase (JS.join "" (map hex_of_byte hashArray)) in
      inr {| cufe := hash; timestamp := Date.toISOString t |}
  end.
End Generate.

(** [isCUFEUnique] *)
Definition isCUFEUnique (cufe : string) (existingInvoices : list Invoice) : bool :=
  negb (existsb (fun inv => match inv_cufe inv with
                            | Some c => String.eqb c cufe
                            | None => false
                            end) existingInvoices).

End Cufe.

(** ** [src/lib/qrGenerator.ts] *)

Module QR.

(** The options object handed to the [qrcode] library. *)
Record QROptions := {
  errorCorrectionLevel : string;
  type : string;
  width : Z;
  margin : Z;
  color : option (string * string)
}.

(** What the function does besides returning: calls of the library and of
    [console.error], in order. *)
Inductive Event :=
| ToDataURL (content : string) (options : QROptions)
| ToBuffer (content : string) (options : QROptions)
| ConsoleError (message : string).

(** An optional string inside a template literal. *)
Definition interpolate (o : option string) : string :=
  match o with
  | Some s => s
  | None => "undefined"
  end.

Definition missing_cufe_message : string :=
  "La factura debe tener un CUFE generado antes de crear el QR".
Definition render_failed_message : string :=
  "No se pudo generar el código QR de la factura".

(** The options of the two library calls. *)
Definition toDataURL_options : QROptions :=
  {| errorCorrectionLevel := "M"; type := "image/png"; width := 300; margin := 2;
     color := Some ("#000000", "#FFFFFF") |}.
Definition toBuffer_options : QROptions :=
  {| errorCorrectionLevel := "M"; type := "png"; width := 300; margin := 2;
     color := None |}.

Section Generate.
(** [new Date(s).toLocaleTimeString('es-CO', { hour12: false })], left to
    the host's locale data. *)
Variable toLocaleTimeString : string -> string.
(** [QRCode.toDataURL] and [QRCode.toBuffer]; [inl] when they reject. *)
Variable QRCode_toDataURL : string -> QROptions -> JS.exn + string.
Variable QRCode_toBuffer : string -> QROptions -> JS.exn + list Z.

Definition generateInvoiceQR_content (invoice : Invoice) (template : PDFTemplate) : string :=
  JS.join (String "010" "")
    [ "NumFac: " +:+ inv_id invoice;
      "FecFac: " +:+ inv_issueDate invoice;
      "HorFac: " +:+ (if truthy (inv_emissionTimestamp invoice)
                      then toLocaleTimeString (interpolate (inv_emissionTimestamp invoice))
                      else "");
      "NitFac: " +:+ nit (companyInfo template);
      "DocAdq: " +:+ inv_clientNit invoice;
      "ValFac: " +:+ JS.toFixed 2 (inv_subtotal invoice);
      "ValIva: " +:+ JS.toFixed 2 (inv_taxAmount invoice);
      "ValOtroIm: 0.00";
      "ValTotalFac: " +:+ JS.toFixed 2 (inv_total invoice);
      "CUFE: " +:+ interpolate (inv_cufe invoice) ].

Definition generateInvoiceQR (invoice : Invoice) (template : PDFTemplate)
    : (JS.exn + string) * list Event :=
  if negb (truthy (inv_cufe invoice)) then (inl missing_cufe_message, [])
  else
    let qrContent := generateInvoiceQR_content invoice template in
    let options := toDataURL_options in
    match QRCode_toDataURL qrContent options with
    | inr qrDataURL => (inr qrDataURL, [ToDataURL qrContent options])
    | inl error =>
        (inl render_failed_message,
         [ToDataURL qrContent options; ConsoleError "Error generando código QR:"])
    end.

Definition generateInvoiceQRBuffer_content (invoice : Invoice) (template : PDFTemplate) : string :=
  JS.join (String "010" "")
    [ "NumFac: " +:+ inv_id invoice;
      "FecFac: " +:+ inv_issueDate invoice;
      "HorFac: " +:+ (if truthy (inv_emissionTimestamp invoice)
                      then toLocaleTimeString (interpolate (inv_emissionTimestamp invoice))
                      else "");
      "NitFac: " +:+ nit (companyInfo template);
      "DocAdq: " +:+ inv_clientNit invoice;
      "ValFac: " +:+ JS.toFixed 2 (inv_subtotal invoice);
      "ValIva: " +:+ JS.toFixed 2 (inv_taxAmount invoice);
      "ValOtroIm: 0.00";
      "ValTotalFac: " +:+ JS.toFixed 2 (inv_total invoice);
      "CUFE: " +:+ interpolate (inv_cufe invoice) ].

Definition generateInvoiceQRBuffer (invoice : Invoice) (template : PDFTemplate)
    : (JS.exn + list Z) * list Event :=
  if negb (truthy (inv_cufe invoice)) then (inl missing_cufe_message, [])
  else
    let qrContent := generateInvoiceQRBuffer_content invoice template in
    let options := toBuffer_options in
    match QRCode_toBuffer qrContent options with
    | inr buffer => (inr buffer, [ToBuffer qrContent options])
    | inl error =>
        (inl render_failed_message,
         [ToBuffer qrContent options; ConsoleError "Error generando buffer QR:"])
    end.
End Generate.

End QR.

(** ** [src/hooks/useInvoiceEmission.ts] *)

Module Emission.

Record ValidationResult := {
  isValid : bool;
  errors : list string;
  warnings : list string
}.

Record FiscalFolio := { folio_id : string }.

Record EmissionResult := {
  success : bool;
  res_invoice : option Invoice;
  res_errors : option (list string);
  res_warnings : option (list string)
}.

Inductive ToastKind := ToastError | ToastWarning | ToastSuccess.

Record Toast := {
  toast_kind : ToastKind;
  toast_title : string;
  toast_description : string
}.

Record PDFLogEntry := {
  log_invoiceId : string;
  log_action : string;
  log_templateId : option string;
  log_error : option string
}.

(** The state the hook acts on: the browser's [localStorage], the toasts
    shown so far (oldest first) and the three [useState] cells. *)
Record World := {
  localStorage : gmap string string;
  toasts : list Toast;
  isEmitting : bool;
  validationErrors : list string;
  validationWarnings : list string
}.

Definition set_localStorage (f : gmap string string -> gmap string string) (w : World) : World :=
  {| localStorage := f (localStorage w); toasts := toasts w; isEmitting := isEmitting w;
     validationErrors := validationErrors w; validationWarnings := validationWarnings w |}.
Definition add_toast (t : Toast) (w : World) : World :=
  {| localStorage := localStorage w; toasts := toasts w ++ [t]; isEmitting := isEmitting w;
     validationErrors := validationErrors w; validationWarnings := validationWarnings w |}.
Definition setIsEmitting (b : bool) (w : World) : World :=
  {| localStorage := localStorage w; toasts := toasts w; isEmitting := b;
     validationErrors := validationErrors w; validationWarnings := validationWarnings w |}.
Definition setValidationErrors (l : list string) (w : World) : World :=
  {| localStorage := localStorage w; toasts := toasts w; isEmitting := isEmitting w;
     validationErrors := l; validationWarnings := validationWarnings w |}.
Definition setValidationWarnings (l : list string) (w : World) : World :=
  {| localStorage := localStorage w; toasts := toasts w; isEmitting := isEmitting w;
     validationErrors := validationErrors w; validationWarnings := l |}.

(** Code inside the [try] block: it reads and writes the world and either
    throws or yields a value. *)
Definition M (A : Type) : Type := World -> (JS.exn + A) * World.

Definition ret {A} (a : A) : M A := fun w => (inr a, w).
Definition throw {A} (message : string) : M A := fun w => (inl message, w).
Definition bind {A B} (m : M A) (k : A -> M B) : M B :=
  fun w => match m w with
           | (inr a, w') => k a w'
           | (inl e, w') => (inl e, w')
           end.
Definition modify (f : World -> World) : M unit := fun w => (inr tt, f w).
Definition gets {A} (f : World -> A) : M A := fun w => (inr (f w), w).
Definition lift {A} (r : JS.exn + A) : M A := fun w => (r, w).

Notation "x <- m ;; k" := (bind m (fun x => k))
  (at level 90, m at level 80, right associativity).
Notation "m ;;; k" := (bind m (fun _ => k))
  (at level 90, right associativity).

Definition status_message : string :=
  "Solo se pueden emitir facturas en estado " +:+ String "034" "Borrador" +:+ String "034" "".

(** The first match of [/\d+/] at the head of [s]. *)
Fixpoint leading_digits (s : string) : string :=
  match s with
  | String c s' => if Cufe.is_digit c then String c (leading_digits s') else ""
  | EmptyString => ""
  end.

(** [s.match(/ENV-\d+/)]: the leftmost match, [None] for [null]. *)
Fixpoint match_ENV (s : string) : option string :=
  match s with
  | EmptyString => None
  | String c s' =>
      match s with
      | String "E" (String "N" (String "V" (String "-" rest))) =>
          match leading_digits rest with
          | EmptyString => match_ENV s'
          | ds => Some ("ENV-" +:+ ds)
          end
      | _ => match_ENV s'
      end
  end.

Definition includes (l : list string) (x : string) : bool :=
  existsb (String.eqb x) l.

(** What the hook imports and what it takes from the host. *)
Record Imports := {
  (** [STORAGE_KEYS] of [@/types]. *)
  STORAGE_KEYS_INVOICES : string;
  STORAGE_KEYS_SHIPMENTS : string;
  (** [JSON.parse] and [JSON.stringify] at the two types stored; the empty
      text is no JSON text, on it [JSON.parse] throws a [SyntaxError]. *)
  JSON_parse_invoices : string -> JS.exn + list Invoice;
  JSON_parse_invoices_empty : forall invoices, JSON_parse_invoices "" <> inr invoices;
  JSON_stringify_invoices : list Invoice -> string;
  JSON_parse_shipments : string -> JS.exn + list Shipment;
  JSON_stringify_shipments : list Shipment -> string;
  (** [@/lib/invoiceValidator], [@/lib/fiscalFolioGenerator],
      [@/data/mockData]. *)
  validateInvoiceForEmission : Invoice -> ValidationResult;
  generateFiscalFolio : list Invoice -> FiscalFolio;
  defaultTemplates : list PDFTemplate;
  (** [@/lib/pdfLogger]: what logging an entry does to the storage. *)
  logPDFAction : PDFLogEntry -> gmap string string -> gmap string string;
  (** The host's time zone, and the message of the [TypeError] raised by
      reading a property of [undefined]. *)
  tz : Z -> Z;
  TypeError_message : string
}.

Section Hook.
Variable I : Imports.

Definition toast_error (title description : string) : M unit :=
  modify (add_toast {| toast_kind := ToastError; toast_title := title;
                       toast_description := description |}).
Definition toast_warning (title description : string) : M unit :=
  modify (add_toast {| toast_kind := ToastWarning; toast_title := title;
                       toast_description := description |}).
Definition toast_success (title description : string) : M unit :=
  modify (add_toast {| toast_kind := ToastSuccess; toast_title := title;
                       toast_description := description |}).
Definition log (e : PDFLogEntry) : M unit :=
  modify (set_localStorage (logPDFAction I e)).
Definition getItem (key : string) : M (option string) :=
  gets (fun w => localStorage w !! key).
Definition setItem (key value : string) : M unit :=
  modify (set_localStorage (insert key value)).

Fixpoint forEach {A} (f : A -> M unit) (l : list A) : M unit :=
  match l with
  | [] => ret tt
  | x :: l' => f x ;;; forEach f l'
  end.

(** The body of the [try] block (lines 28 to 137); [now] is the time value
    of [new Date()] at step 4, the reading of the host's clock.  The tests
    [!savedInvoices] and [savedShipments] are tests of truthiness: a key
    that is absent and a key that holds the empty text are treated alike. *)
Definition emitInvoice_try (invoiceId : string) (now : Z) : M EmissionResult :=
  savedInvoices <- getItem (STORAGE_KEYS_INVOICES I) ;;
  match savedInvoices with
  | None | Some EmptyString => throw "No se encontraron facturas"
  | Some (String _ _ as savedInvoices) =>
  invoices <- lift (JSON_parse_invoices I savedInvoices) ;;
  match find (fun inv => String.eqb (inv_id inv) invoiceId) invoices with
  | None => throw "Factura no encontrada"
  | Some invoice =>
  if negb (String.eqb (inv_status invoice) "Borrador") then throw status_message else
  let validation := validateInvoiceForEmission I invoice in
  if negb (isValid validation) then
    modify (setValidationErrors (errors validation)) ;;;
    modify (setValidationWarnings (warnings validation)) ;;;
    toast_error "Validación fallida"
      ("Se encontraron " +:+ JS.toString (JS.Integer (Z.of_nat (length (errors validation))))
         +:+ " errores que impiden la emisión.") ;;;
    ret {| success := false; res_invoice := None;
           res_errors := Some (errors validation);
           res_warnings := Some (warnings validation) |}
  else
  let fiscalFolio := generateFiscalFolio I invoices in
  log {| log_invoiceId := inv_id invoice; log_action := "generation_started";
         log_templateId := Some ("fiscal_folio_" +:+ folio_id fiscalFolio);
         log_error := None |} ;;;
  let emissionTimestamp := Date.Valid now in
  let template :=
    match find (fun t => String.eqb (tpl_segment t) (inv_clientSegment invoice))
               (defaultTemplates I) with
    | Some t => Some t
    | None => head (defaultTemplates I)
    end in
  match template with
  | None => throw (TypeError_message I)
  | Some template =>
  cufeData <- lift (Cufe.generateCUFE (tz I) invoice template emissionTimestamp) ;;
  let updatedInvoice :=
    {| inv_id := folio_id fiscalFolio;
       inv_issueDate := inv_issueDate invoice;
       inv_status := "Emitida";
       inv_cufe := Some (Cufe.cufe cufeData);
       inv_emissionTimestamp := Some (Cufe.timestamp cufeData);
       inv_pdfGeneratedAt := None;
       inv_clientNit := inv_clientNit invoice;
       inv_clientSegment := inv_clientSegment invoice;
       inv_subtotal := inv_subtotal invoice;
       inv_taxAmount := inv_taxAmount invoice;
       inv_total := inv_total invoice;
       inv_items := inv_items invoice |} in
  let updatedInvoices :=
    map (fun inv => if String.eqb (inv_id inv) invoiceId then updatedInvoice else inv)
        invoices in
  setItem (STORAGE_KEYS_INVOICES I) (JSON_stringify_invoices I updatedInvoices) ;;;
  savedShipments <- getItem (STORAGE_KEYS_SHIPMENTS I) ;;
  match savedShipments with
   | None | Some EmptyString => ret tt
   | Some (String _ _ as savedShipments) =>
       shipments <- lift (JSON_parse_shipments I savedShipments) ;;
       let shipmentIds :=
         omap (fun item => match_ENV (descripcion item)) (inv_items invoice) in
       let updatedShipments :=
         map (fun shipment =>
                if includes shipmentIds (shp_id shipment)
                then {| shp_id := shp_id shipment; shp_estado := "Facturado" |}
                else shipment) shipments in
       setItem (STORAGE_KEYS_SHIPMENTS I) (JSON_stringify_shipments I updatedShipments)
   end ;;;
  (if (0 <? length (warnings validation))%nat then
     modify (setValidationWarnings (warnings validation)) ;;;
     forEach (fun warning => toast_warning "Advertencia" warning) (warnings validation)
   else ret tt) ;;;
  toast_success "Factura emitida exitosamente"
    ("Folio fiscal: " +:+ folio_id fiscalFolio) ;;;
  log {| log_invoiceId := folio_id fiscalFolio; log_action := "generation_success";
         log_templateId := Some ("fiscal_folio_" +:+ folio_id fiscalFolio);
         log_error := None |} ;;;
  ret {| success := true; res_invoice := Some updatedInvoice;
         res_errors := None; res_warnings := Some (warnings validation) |}
  end end end.

(** The [catch] block (lines 139 to 156). *)
Definition emitInvoice_catch (invoiceId : string) (errorMessage : string) : M EmissionResult :=
  toast_error "Error al emitir factura" errorMessage ;;;
  log {| log_invoiceId := invoiceId; log_action := "generation_error";
         log_templateId := None; log_error := Some errorMessage |} ;;;
  ret {| success := false; res_invoice := None;
         res_errors := Some [errorMessage]; res_warnings := None |}.

(** [emitInvoice]: the three state resets, [try], [catch], [finally]. *)
Definition emitInvoice (invoiceId : string) (now : Z) (w : World)
    : (JS.exn + EmissionResult) * World :=
  let w := setIsEmitting true w in
  let w := setValidationErrors [] w in
  let w := setValidationWarnings [] w in
  let '(r, w) :=
    match emitInvoice_try invoiceId now w with
    | (inr result, w') => (inr result, w')
    | (inl errorMessage, w') => emitInvoice_catch invoiceId errorMessage w'
    end in
  (r, setIsEmitting false w).
End Hook.

(** The values built in steps 4 to 7 of [emitInvoice], under names of their
    own. *)

(** [defaultTemplates.find(t => t.segment === invoice.clientSegment) || defaultTemplates[0]] *)
Definition template_for (defaultTemplates : list PDFTemplate) (invoice : Invoice)
    : option PDFTemplate :=
  match find (fun t => String.eqb (tpl_segment t) (inv_clientSegment invoice))
             defaultTemplates with
  | Some t => Some t
  | None => head defaultTemplates
  end.

(** [updatedInvoice] (lines 78 to 85). *)
Definition updatedInvoice (fiscalFolio : FiscalFolio) (cufeData : Cufe.CUFEData)
    (invoice : Invoice) : Invoice :=
  {| inv_id := folio_id fiscalFolio;
     inv_issueDate := inv_issueDate invoice;
     inv_status := "Emitida";
     inv_cufe := Some (Cufe.cufe cufeData);
     inv_emissionTimestamp := Some (Cufe.timestamp cufeData);
     inv_pdfGeneratedAt := None;
     inv_clientNit := inv_clientNit invoice;
     inv_clientSegment := inv_clientSegment invoice;
     inv_subtotal := inv_subtotal invoice;
     inv_taxAmount := inv_taxAmount invoice;
     inv_total := inv_total invoice;
     inv_items := inv_items invoice |}.

(** [updatedInvoices] (lines 88 to 90). *)
Definition updatedInvoices (invoiceId : string) (updated : Invoice)
    (invoices : list Invoice) : list Invoice :=
  map (fun inv => if String.eqb (inv_id inv) invoiceId then updated else inv) invoices.

(** [shipmentIds] (lines 99 to 104). *)
Definition shipmentIds (invoice : Invoice) : list string :=
  omap (fun item => match_ENV (descripcion item)) (inv_items invoice).

(** [updatedShipments] (lines 106 to 110). *)
Definition updatedShipments (invoice : Invoice) (shipments : list Shipment)
    : list Shipment :=
  map (fun shipment =>
         if includes (shipmentIds invoice) (shp_id shipment)
         then {| shp_id := shp_id shipment; shp_estado := "Facturado" |}
         else shipment) shipments.

End Emission.

(** ** [src/components/PasswordRecovery.tsx] *)

Module Recovery.

Inductive Step := StepEmail | StepCode.

(** The component's [useState] cells and the values held by its two forms. *)
Record State := {
  step : Step;
  isSending : bool;
  isVerifying : bool;
  email : string;
  emailForm : string;
  codeForm : string
}.

(** What a handler does to the outside of the component, in order: timers,
    toasts, the [onOpenChange] callback of the parent, and requests sent
    over the network. *)
Inductive Effect :=
| SetTimeout (ms : Z)
| ToastShown (title description : string) (destructive : bool)
| OnOpenChange (open : bool)
| Request (url : string).

Definition is_request (e : Effect) : bool :=
  match e with
  | Request _ => true
  | _ => false
  end.

(** [codeSchema]: [z.string().min(6).max(6)], a string whose [length] is
    six. *)
Definition codeSchema (code : string) : bool :=
  ((6 <=? JS.length code) && (JS.length code <=? 6))%nat.

Definition handleClose (st : State) : State * list Effect :=
  ({| step := StepEmail; isSending := isSending st; isVerifying := isVerifying st;
      email := ""; emailForm := ""; codeForm := "" |},
   [OnOpenChange false]).

Definition onSubmitEmail (data : string) (st : State) : State * list Effect :=
  let st := {| step := step st; isSending := true; isVerifying := isVerifying st;
               email := email st; emailForm := emailForm st; codeForm := codeForm st |} in
  let st := {| step := StepCode; isSending := isSending st; isVerifying := isVerifying st;
               email := data; emailForm := emailForm st; codeForm := codeForm st |} in
  ({| step := step st; isSending := false; isVerifying := isVerifying st;
      email := email st; emailForm := emailForm st; codeForm := codeForm st |},
   [ SetTimeout 1500;
     ToastShown "Código enviado"
       ("Se ha enviado un código de recuperación a " +:+ data) false ]).

Definition verified_toast : Effect :=
  ToastShown "Código verificado"
    "Tu contraseña ha sido restablecida. Puedes iniciar sesión con cualquier contraseña."
    false.

Definition rejected_toast : Effect :=
  ToastShown "Código incorrecto"
    "El código ingresado no es válido. Intenta nuevamente." true.

Definition onSubmitCode (data : string) (st : State) : State * list Effect :=
  let st := {| step := step st; isSending := isSending st; isVerifying := true;
               email := email st; emailForm := emailForm st; codeForm := codeForm st |} in
  let '(st, effects) :=
    if String.eqb data "123456" then
      let '(st', closing) := handleClose st in
      (st', ([SetTimeout 1000; verified_toast] ++ closing)%list)
    else (st, [SetTimeout 1000; rejected_toast]) in
  ({| step := step st; isSending := isSending st; isVerifying := false;
      email := email st; emailForm := emailForm st; codeForm := codeForm st |},
   effects).

(** [codeForm.handleSubmit(onSubmitCode)]: the handler runs only on a value
    accepted by the schema. *)
Definition submitCode (st : State) : State * list Effect :=
  if codeSchema (codeForm st) then onSubmitCode (codeForm st) st else (st, []).

(** The [onChange] of the OTP input: [val.replace(/\D/g, "").slice(0, 6)]. *)
Fixpoint remove_non_digits (s : string) : string :=
  match s with
  | EmptyString => EmptyString
  | String c s' =>
      if Cufe.is_digit c then String c (remove_non_digits s') else remove_non_digits s'
  end.

Definition otp_onChange (val : string) (st : State) : State :=
  {| step := step st; isSending := isSending st; isVerifying := isVerifying st;
     email := email st; emailForm := emailForm st;
     codeForm := JS.take 6 (remove_non_digits val) |}.

(** The [onOpenChange] of the dialog: [(next) => { if (!next) handleClose(); }]. *)
Definition dialog_onOpenChange (next : bool) (st : State) : State * list Effect :=
  if negb next then handleClose st else (st, []).

(** The button "Atras": [() => setStep('email')]. *)
Definition back (st : State) : State :=
  {| step := StepEmail; isSending := isSending st; isVerifying := isVerifying st;
     email := email st; emailForm := emailForm st; codeForm := codeForm st |}.

End Recovery.

(** ** The documented behaviour, written from the specification's words

    These definitions do not follow the code; the theorems below compare
    them with the functions above. *)

Module Spec.

(** An uppercase hexadecimal digit. *)
Definition is_upper_hex (c : ascii) : bool :=
  let n := JS.Z_of_ascii c in
  ((48 <=? n) && (n <=? 57)) || ((65 <=? n) && (n <=? 70)).

Definition upper_hex_digit (d : Z) : ascii :=
  if d <? 10 then JS.ascii_of_Z (48 + d) else JS.ascii_of_Z (55 + d).

(** A byte as two uppercase hexadecimal characters. *)
Definition byte_hex (b : Z) : string :=
  String (upper_hex_digit (b / 16)) (String (upper_hex_digit (b mod 16)) "").

(** A byte sequence rendered as hexadecimal. *)
Fixpoint hex (bs : list Z) : string :=
  match bs with
  | [] => ""
  | b :: bs' => byte_hex b +:+ hex bs'
  end.

Fixpoint all_chars (p : ascii -> bool) (s : string) : bool :=
  match s with
  | EmptyString => true
  | String c s' => p c && all_chars p s'
  end.

(** A NIT normalized: without its dots and hyphens, and without the
    character that is left at the end when that character is a digit. *)
Definition without_dots_hyphens (s : string) : string :=
  string_of_list_ascii
    (filter (fun c => c <> "."%char /\ c <> "-"%char) (list_ascii_of_string s)).

Definition nit_normalized (s : string) : string :=
  let l := list_ascii_of_string (without_dots_hyphens s) in
  match last l with
  | Some c => if Cufe.is_digit c then string_of_list_ascii (removelast l)
              else string_of_list_ascii l
  | None => ""
  end.

(** A number below 100 on two decimal digits. *)
Definition two_digits (n : Z) : string :=
  String (JS.digit_char (n / 10)) (String (JS.digit_char (n mod 10)) "").

(** [p] holds of [z], [z + 1], ..., [z + fuel - 1]. *)
Fixpoint all_from (fuel : nat) (z : Z) (p : Z -> bool) : bool :=
  match fuel with
  | O => true
  | S fuel' => if p z then all_from fuel' (z + 1) p else false
  end.

(** An amount rounded and zero-padded to 15 digits. *)
Definition amount15 (x : JS.number) : string :=
  JS.padStart 15 "0" (JS.toString (JS.Math_round x)).

Definition fifteen_zeros : string := JS.repeat_char "0" 15.

(** The technical key as the claim words it: the template's key, the
    default when the key is absent. *)
Definition technical_key_when_absent (template : PDFTemplate) : string :=
  match technicalKey template with
  | Some k => k
  | None => Cufe.default_technical_key
  end.

(** The technical key with the empty key counted as no key. *)
Definition technical_key_when_absent_or_empty (template : PDFTemplate) : string :=
  match technicalKey template with
  | None => Cufe.default_technical_key
  | Some k => if String.eqb k "" then Cufe.default_technical_key else k
  end.

Section Cufe.
Variable tz : Z -> Z.
Variable key : PDFTemplate -> string.

(** [YYYYMMDDHHmmss] of the local time: the year, then month, day, hour,
    minute and second on two digits each. *)
Definition timestamp14 (t : Z) : string :=
  JS.toString (JS.Integer (Date.getFullYear tz t)) +:+
  two_digits (Date.getMonth tz t + 1) +:+
  two_digits (Date.getDate tz t) +:+
  two_digits (Date.getHours tz t) +:+
  two_digits (Date.getMinutes tz t) +:+
  two_digits (Date.getSeconds tz t).

(** The fixed concatenation. *)
Definition concatenation (invoice : Invoice) (template : PDFTemplate) (t : Z) : string :=
  inv_id invoice +:+ timestamp14 t +:+ amount15 (inv_total invoice) +:+ "01" +:+
  amount15 (inv_taxAmount invoice) +:+ "04" +:+ fifteen_zeros +:+ "03" +:+
  fifteen_zeros +:+ amount15 (inv_total invoice) +:+
  nit_normalized (nit (companyInfo template)) +:+ "31" +:+
  nit_normalized (inv_clientNit invoice) +:+ key template.

Definition cufe_data (invoice : Invoice) (template : PDFTemplate) (t : Z) : Cufe.CUFEData :=
  {| Cufe.cufe := hex (SHA384.digest (JS.encode (concatenation invoice template t)));
     Cufe.timestamp := Date.toISOString t |}.
End Cufe.

(** Two hosts read the same local time, to the second, off a date. *)
Definition same_local_second (tz1 tz2 : Z -> Z) (d : Date.date) : Prop :=
  match d with
  | Date.Valid t => (t + tz1 t) / 1000 = (t + tz2 t) / 1000
  | Date.Invalid => True
  end.

(** An amount with exactly two decimal places: the sign, the integer part
    and the two digits of the nearest number of hundredths of its
    magnitude. *)
Definition hundredths (x : Q) : Z := Qfloor (Qabs x * 100 + (1 # 2))%Q.

Definition two_decimals (x : Q) : string :=
  let n := hundredths x in
  (if Qlt_le_dec x 0 then "-" else "") +:+ JS.digits 10 (n / 100) +:+ "." +:+
  String (JS.digit_char (n / 10 mod 10)) (String (JS.digit_char (n mod 10)) "").

Definition newline : string := String "010" "".


Fixpoint joined_by_newlines (lines : list string) : string :=
  match lines with
  | [] => ""
  | [l] => l
  | l :: ls => l +:+ newline +:+ joined_by_newlines ls
  end.


(** The text of the [HorFac] line: the local time of the emission when the
    invoice has one. *)
Definition hour_text (toLocaleTimeString : string -> string) (invoice : Invoice) : string :=
  match inv_emissionTimestamp invoice with
  | None => ""
  | Some s => if String.eqb s "" then "" else toLocaleTimeString s
  end.

(** An emission that must fail: the invoice is not in the stored list, or
    is not a draft, or does not pass the fiscal validation. *)
Definition blocked (I : Emission.Imports) (invoiceId : string) (invoices : list Invoice) : Prop :=
  match find (fun inv => String.eqb (inv_id inv) invoiceId) invoices with
  | None => True
  | Some invoice =>
      inv_status invoice <> "Borrador" \/
      Emission.isValid (Emission.validateInvoiceForEmission I invoice) = false
  end.

(** The messages such a failure reports. *)
Definition failure_messages (I : Emission.Imports) (invoiceId : string)
    (invoices : list Invoice) : list string :=
  match find (fun inv => String.eqb (inv_id inv) invoiceId) invoices with
  | None => ["Factura no encontrada"]
  | Some invoice =>
      if decide (inv_status invoice = "Borrador")
      then Emission.errors (Emission.validateInvoiceForEmission I invoice)
      else [Emission.status_message]
  end.

(** A string without line breaks. *)
Definition no_newline (s : string) : bool :=
  all_chars (fun c => negb (Ascii.eqb c "010")) s.

(** The shipments read back from a stored text. *)
Definition parsed_shipments (I : Emission.Imports) (savedShipments : string) : list Shipment :=
  match Emission.JSON_parse_shipments I savedShipments with
  | inr shipments => shipments
  | inl _ => []
  end.

(** Whether a string starts with a decimal digit. *)
Definition starts_with_digit (s : string) : bool :=
  match s with
  | String c _ => Cufe.is_digit c
  | EmptyString => false
  end.

(** A reference [ENV-] followed by digits at the very start of a string:
    the reference with all the digits that follow, if there is one. *)
Definition reference_at_start (s : string) : option string :=
  if String.prefix "ENV-" s
  then match Emission.leading_digits (JS.drop 4 s) with
       | EmptyString => None
       | ds => Some ("ENV-" +:+ ds)
       end
  else None.

(** The toasts of steps 8 and 9: one warning each, then the success. *)
Definition success_toasts (fiscalFolio : Emission.FiscalFolio) (warnings : list string)
    : list Emission.Toast :=
  map (fun warning => {| Emission.toast_kind := Emission.ToastWarning;
                         Emission.toast_title := "Advertencia";
                         Emission.toast_description := warning |}) warnings
  ++ [ {| Emission.toast_kind := Emission.ToastSuccess;
          Emission.toast_title := "Factura emitida exitosamente";
          Emission.toast_description := "Folio fiscal: " +:+ Emission.folio_id fiscalFolio |} ].

(** Submitting one code after the other, the effects in order. *)
Fixpoint submit_codes (codes : list string) (st : Recovery.State)
    : Recovery.State * list Recovery.Effect :=
  match codes with
  | [] => (st, [])
  | code :: codes' =>
      let '(st1, effects1) := Recovery.onSubmitCode code st in
      let '(st2, effects2) := submit_codes codes' st1 in
      (st2, (effects1 ++ effects2)%list)
  end.

End Spec.

(** ** Sample data *)

Module Examples.

(** Bogota is five hours behind UTC all year; [utc] is a host set to UTC. *)
Definition bogota (t : Z) : Z := -18000000.
Definition utc (t : Z) : Z := 0.

(** New York in 2025: four hours behind UTC from 2025-03-09T07:00Z to
    2025-11-02T06:00Z, five hours behind otherwise. *)
Definition new_york (t : Z) : Z :=
  if (1741503600000 <=? t) && (t <? 1762063200000) then -14400000 else -18000000.

(** 2025-01-01T00:00:00.000Z *)
Definition new_year : Z := 1735689600000.

Definition draft : Invoice :=
  {| inv_id := "FAC-2025-0001";
     inv_issueDate := "2025-01-01";
     inv_status := "Borrador";
     inv_cufe := None;
     inv_emissionTimestamp := None;
     inv_pdfGeneratedAt := None;
     inv_clientNit := "800.123.456-7";
     inv_clientSegment := "Corporativo";
     inv_subtotal := JS.Finite 100000;
     inv_taxAmount := JS.Finite 19000;
     inv_total := JS.Finite 119000;
     inv_items := [ {| descripcion := "Flete ENV-1001 Bogota-Cali" |} ] |}.

(** A company NIT written without dots, hyphen or verification digit. *)
Definition corporate : PDFTemplate :=
  {| tpl_segment := "Corporativo";
     companyInfo := {| nit := "900123456" |};
     technicalKey := None |}.

Definition corporate_empty_key : PDFTemplate :=
  {| tpl_segment := "Corporativo";
     companyInfo := {| nit := "900123456" |};
     technicalKey := Some "" |}.

(** An emitted invoice. *)
Definition emitted : Invoice :=
  {| inv_id := "FE-0001";
     inv_issueDate := "2025-01-01";
     inv_status := "Emitida";
     inv_cufe := Some "133C5AE8";
     inv_emissionTimestamp := Some "2025-01-01T00:00:00.000Z";
     inv_pdfGeneratedAt := None;
     inv_clientNit := "800.123.456-7";
     inv_clientSegment := "Corporativo";
     inv_subtotal := JS.Finite 100000;
     inv_taxAmount := JS.Finite 19000;
     inv_total := JS.Finite 119000;
     inv_items := [] |}.


(** A draft that names no client. *)
Definition draft_without_client : Invoice :=
  {| inv_id := "FAC-2025-0002";
     inv_issueDate := "2025-01-02";
     inv_status := "Borrador";
     inv_cufe := None;
     inv_emissionTimestamp := None;
     inv_pdfGeneratedAt := None;
     inv_clientNit := "";
     inv_clientSegment := "Corporativo";
     inv_subtotal := JS.Finite 5000;
     inv_taxAmount := JS.Finite 950;
     inv_total := JS.Finite 5950;
     inv_items := [] |}.

Definition stored : list Invoice := [draft; draft_without_client; emitted].

(** Stand-ins for what the hook imports, enough to run it: a storage that
    holds one known list, a validator that asks for a client NIT, a folio
    numbered after the length of the list, a logger that keeps the last
    action under a key of its own. *)
Definition imports : Emission.Imports :=
  {| Emission.STORAGE_KEYS_INVOICES := "invoices";
     Emission.STORAGE_KEYS_SHIPMENTS := "shipments";
     Emission.JSON_parse_invoices :=
       fun s => if String.eqb s "stored" then inr stored else inl "Unexpected token";
     Emission.JSON_parse_invoices_empty := ltac:(discriminate);
     Emission.JSON_stringify_invoices := fun _ => "updated";
     Emission.JSON_parse_shipments := fun _ => inr [];
     Emission.JSON_stringify_shipments := fun _ => "[]";
     Emission.validateInvoiceForEmission :=
       fun inv =>
         if String.eqb (inv_clientNit inv) ""
         then {| Emission.isValid := false;
                 Emission.errors := ["El NIT del cliente es obligatorio"];
                 Emission.warnings := [] |}
         else {| Emission.isValid := true; Emission.errors := []; Emission.warnings := [] |};
     Emission.generateFiscalFolio :=
       fun invoices =>
         {| Emission.folio_id :=
              "FE-" +:+ JS.toString (JS.Integer (Z.of_nat (length invoices))) |};
     Emission.defaultTemplates := [corporate];
     Emission.logPDFAction := fun e ls => <["pdf_logs" := Emission.log_action e]> ls;
     Emission.tz := bogota;
     Emission.TypeError_message := "Cannot read properties of undefined" |}.

Definition world : Emission.World :=
  {| Emission.localStorage := {["invoices" := "stored"]};
     Emission.toasts := [];
     Emission.isEmitting := false;
     Emission.validationErrors := [];
     Emission.validationWarnings := [] |}.

(** The same invoice with a subtotal of its own, cents in the amounts, a
    later status and a client NIT written without dots. *)
Definition draft_rewritten : Invoice :=
  {| inv_id := "FAC-2025-0001";
     inv_issueDate := "2025-02-01";
     inv_status := "Anulada";
     inv_cufe := Some "00";
     inv_emissionTimestamp := None;
     inv_pdfGeneratedAt := Some "2025-02-01T10:00:00.000Z";
     inv_clientNit := "800123456-7";
     inv_clientSegment := "PYME";
     inv_subtotal := JS.Finite 1;
     inv_taxAmount := JS.Finite (189996 # 10);
     inv_total := JS.Finite (1190004 # 10);
     inv_items := [] |}.

(** Two emitter and client NITs that differ, with the same digits in a
    row once the code 31 stands between them. *)
Definition emitter_900123 : PDFTemplate :=
  {| tpl_segment := "Corporativo"; companyInfo := {| nit := "900.123-0" |};
     technicalKey := None |}.
Definition client_3145 : Invoice :=
  {| inv_id := "FAC-2025-0003"; inv_issueDate := "2025-01-03"; inv_status := "Borrador";
     inv_cufe := None; inv_emissionTimestamp := None; inv_pdfGeneratedAt := None;
     inv_clientNit := "31.456-7"; inv_clientSegment := "Corporativo";
     inv_subtotal := JS.Finite 1000; inv_taxAmount := JS.Finite 190;
     inv_total := JS.Finite 1190; inv_items := [] |}.
Definition emitter_90012331 : PDFTemplate :=
  {| tpl_segment := "Corporativo"; companyInfo := {| nit := "900.123.31-0" |};
     technicalKey := None |}.
Definition client_456 : Invoice :=
  {| inv_id := "FAC-2025-0003"; inv_issueDate := "2025-01-03"; inv_status := "Borrador";
     inv_cufe := None; inv_emissionTimestamp := None; inv_pdfGeneratedAt := None;
     inv_clientNit := "456-7"; inv_clientSegment := "Corporativo";
     inv_subtotal := JS.Finite 1000; inv_taxAmount := JS.Finite 190;
     inv_total := JS.Finite 1190; inv_items := [] |}.

(** A second set of stand-ins, with shipments in the storage and a list of
    invoices that is read back as it was written. *)
Definition fleet : list Shipment :=
  [ {| shp_id := "ENV-1001"; shp_estado := "Entregado" |};
    {| shp_id := "ENV-2002"; shp_estado := "Entregado" |} ].

(** What [generateCUFE] gives for the draft at [new_year] on a host in
    Bogota. *)
Definition draft_cufe : Cufe.CUFEData :=
  {| Cufe.cufe :=
       "48277F90E5D0F50D6446F5A37837F5139D4F3C25644A935C398AA60AADD75461CB34169E5695F106C0373F7E0065F36B";
     Cufe.timestamp := "2025-01-01T00:00:00.000Z" |}.

Definition draft_emitted : Invoice :=
  Emission.updatedInvoice {| Emission.folio_id := "FE-3" |} draft_cufe draft.

Definition imports_with_shipments : Emission.Imports :=
  {| Emission.STORAGE_KEYS_INVOICES := "invoices";
     Emission.STORAGE_KEYS_SHIPMENTS := "shipments";
     Emission.JSON_parse_invoices :=
       fun s => if String.eqb s "stored" then inr stored
                else if String.eqb s "updated"
                     then inr (Emission.updatedInvoices "FAC-2025-0001" draft_emitted stored)
                     else inl "Unexpected token";
     Emission.JSON_parse_invoices_empty := ltac:(discriminate);
     Emission.JSON_stringify_invoices := fun _ => "updated";
     Emission.JSON_parse_shipments :=
       fun s => if String.eqb s "fleet" then inr fleet
                else inl "Unexpected end of JSON input";
     Emission.JSON_stringify_shipments := fun _ => "fleet, updated";
     Emission.validateInvoiceForEmission := Emission.validateInvoiceForEmission imports;
     Emission.generateFiscalFolio := Emission.generateFiscalFolio imports;
     Emission.defaultTemplates := [corporate];
     Emission.logPDFAction := Emission.logPDFAction imports;
     Emission.tz := bogota;
     Emission.TypeError_message := "Cannot read properties of undefined" |}.

Definition world_with_shipments : Emission.World :=
  {| Emission.localStorage := {["invoices" := "stored"; "shipments" := "fleet"]};
     Emission.toasts := [];
     Emission.isEmitting := false;
     Emission.validationErrors := [];
     Emission.validationWarnings := [] |}.

Definition world_with_broken_shipments : Emission.World :=
  {| Emission.localStorage := {["invoices" := "stored"; "shipments" := "[{"]};
     Emission.toasts := [];
     Emission.isEmitting := false;
     Emission.validationErrors := [];
     Emission.validationWarnings := [] |}.

Definition world_with_empty_shipments : Emission.World :=
  {| Emission.localStorage := {["invoices" := "stored"; "shipments" := ""]};
     Emission.toasts := [];
     Emission.isEmitting := false;
     Emission.validationErrors := [];
     Emission.validationWarnings := [] |}.

Definition world_with_empty_invoices : Emission.World :=
  {| Emission.localStorage := {["invoices" := ""; "shipments" := "fleet"]};
     Emission.toasts := [];
     Emission.isEmitting := false;
     Emission.validationErrors := [];
     Emission.validationWarnings := [] |}.

Definition world_without_invoices : Emission.World :=
  {| Emission.localStorage := {["shipments" := "fleet"]};
     Emission.toasts := [];
     Emission.isEmitting := false;
     Emission.validationErrors := [];
     Emission.validationWarnings := [] |}.

End Examples.

(** * Properties *)

(** ** Strings *)

Section Strings.

Lemma append_nil_r (s : string) : s +:+ "" = s.
Proof. induction s as [|c s IH]; simpl; [reflexivity | now rewrite IH]. Qed.

Lemma append_assoc (a b c : string) : (a +:+ b) +:+ c = a +:+ (b +:+ c).
Proof. induction a as [|x a IH]; simpl; [reflexivity | now rewrite IH]. Qed.

Lemma length_append (a b : string) :
  String.length (a +:+ b) = (String.length a + String.length b)%nat.
Proof. induction a as [|x a IH]; simpl; [reflexivity | now rewrite IH]. Qed.

Lemma length_repeat_char (c : ascii) (n : nat) : String.length (JS.repeat_char c n) = n.
Proof. induction n as [|n IH]; simpl; [reflexivity | now rewrite IH]. Qed.

Lemma join_empty_cons (x : string) (l : list string) :
  JS.join "" (x :: l) = x +:+ JS.join "" l.
Proof. destruct l as [|y l]; simpl; [now rewrite append_nil_r | reflexivity]. Qed.

Lemma toUpperCase_append (a b : string) :
  JS.toUpperCase (a +:+ b) = JS.toUpperCase a +:+ JS.toUpperCase b.
Proof. induction a as [|x a IH]; simpl; [reflexivity | now rewrite IH]. Qed.

Lemma all_chars_append (p : ascii -> bool) (a b : string) :
  Spec.all_chars p (a +:+ b) = Spec.all_chars p a && Spec.all_chars p b.
Proof.
  induction a as [|x a IH]; simpl; [reflexivity |].
  now rewrite IH, andb_assoc.
Qed.

End Strings.

(** ** Checks by exhaustion of a finite range *)

Lemma all_from_spec (fuel : nat) (z : Z) (p : Z -> bool) :
  Spec.all_from fuel z p = true ->
  forall x, z <= x < z + Z.of_nat fuel -> p x = true.
Proof.
  revert z. induction fuel as [|fuel IH]; intros z H x Hx; [lia |].
  cbn [Spec.all_from] in H. destruct (p z) eqn:Hz; [|discriminate].
  destruct (Z.eq_dec x z) as [->|Hne]; [exact Hz |].
  apply (IH (z + 1) H). lia.
Qed.

(** Reads a fact about one number off a table that was checked by
    computation. *)
Ltac by_table T := apply (all_from_spec _ _ _ T); simpl; lia.

(** ** Hexadecimal rendering of the digest *)

Section Hex.

Lemma hex_of_byte_table :
  Spec.all_from 256 0
    (fun b => String.eqb (JS.toUpperCase (Cufe.hex_of_byte b)) (Spec.byte_hex b)) = true.
Proof. vm_compute. reflexivity. Qed.

Lemma hex_of_byte_spec (b : Z) :
  0 <= b < 256 -> JS.toUpperCase (Cufe.hex_of_byte b) = Spec.byte_hex b.
Proof. intros Hb. apply String.eqb_eq. by_table hex_of_byte_table. Qed.

Lemma byte_hex_upper_table :
  Spec.all_from 256 0
    (fun b => Spec.all_chars Spec.is_upper_hex (Spec.byte_hex b)) = true.
Proof. vm_compute. reflexivity. Qed.

Lemma byte_hex_upper (b : Z) :
  0 <= b < 256 -> Spec.all_chars Spec.is_upper_hex (Spec.byte_hex b) = true.
Proof. intros Hb. by_table byte_hex_upper_table. Qed.

Lemma source_hex_spec (bs : list Z) :
  Forall (fun b => 0 <= b < 256) bs ->
  JS.toUpperCase (JS.join "" (map Cufe.hex_of_byte bs)) = Spec.hex bs.
Proof.
  induction 1 as [|b bs Hb _ IH]; [reflexivity |].
  rewrite map_cons, join_empty_cons, toUpperCase_append, IH.
  change (Spec.hex (b :: bs)) with (Spec.byte_hex b +:+ Spec.hex bs).
  f_equal. now apply hex_of_byte_spec.
Qed.

Lemma length_hex (bs : list Z) : String.length (Spec.hex bs) = (2 * length bs)%nat.
Proof. induction bs as [|b bs IH]; simpl; [reflexivity | rewrite IH; lia]. Qed.

Lemma hex_upper (bs : list Z) :
  Forall (fun b => 0 <= b < 256) bs ->
  Spec.all_chars Spec.is_upper_hex (Spec.hex bs) = true.
Proof.
  induction 1 as [|b bs Hb _ IH]; [reflexivity |].
  change (Spec.hex (b :: bs)) with (Spec.byte_hex b +:+ Spec.hex bs).
  now rewrite all_chars_append, byte_hex_upper, IH.
Qed.

Lemma bytes_of_be_range (n : nat) (x : Z) :
  Forall (fun b => 0 <= b < 256) (SHA384.bytes_of_be n x).
Proof.
  induction n as [|n IH]; simpl; constructor; [|exact IH].
  apply Z.mod_pos_bound. lia.
Qed.

Lemma length_bytes_of_be (n : nat) (x : Z) : length (SHA384.bytes_of_be n x) = n.
Proof. induction n as [|n IH]; simpl; [reflexivity | now rewrite IH]. Qed.

Lemma digest_range (msg : list Z) :
  Forall (fun b => 0 <= b < 256) (SHA384.digest msg).
Proof.
  unfold SHA384.digest. cbv zeta.
  repeat (apply Forall_app; split); apply bytes_of_be_range.
Qed.

Lemma length_digest (msg : list Z) : length (SHA384.digest msg) = 48%nat.
Proof.
  unfold SHA384.digest. cbv zeta.
  rewrite !length_app, !length_bytes_of_be. reflexivity.
Qed.

(** On a valid date [generateCUFE] returns, and this is what it returns. *)
Lemma generateCUFE_Valid (tz : Z -> Z) (invoice : Invoice) (template : PDFTemplate) (t : Z) :
  Cufe.generateCUFE tz invoice template (Date.Valid t)
  = inr {| Cufe.cufe :=
             Spec.hex (SHA384.digest (JS.encode (Cufe.datosParaCUFE tz invoice template t)));
           Cufe.timestamp := Date.toISOString t |}.
Proof.
  unfold Cufe.generateCUFE. cbv zeta.
  now rewrite (source_hex_spec _ (digest_range _)).
Qed.

End Hex.

(** C8. For every invoice, template and (valid) emission timestamp,
    [generateCUFE] returns, and the [cufe] it returns is the digest's 48
    bytes, each rendered as two uppercase hexadecimal characters: it is 96
    characters long and every character is one of 0-9, A-F. *)
Theorem generateCUFE_cufe_is_96_upper_hex
    (tz : Z -> Z) (invoice : Invoice) (template : PDFTemplate) (t : Z) :
  exists data,
    Cufe.generateCUFE tz invoice template (Date.Valid t) = inr data /\
    let bytes := SHA384.digest (JS.encode (Cufe.datosParaCUFE tz invoice template t)) in
    let c := Cufe.cufe data in
    length bytes = 48%nat /\
    c = Spec.hex bytes /\
    String.length c = 96%nat /\
    Spec.all_chars Spec.is_upper_hex c = true.
Proof.
  eexists. split; [apply generateCUFE_Valid |].
  cbv zeta. cbn [Cufe.cufe].
  split; [apply length_digest |].
  split; [reflexivity |].
  split; [rewrite length_hex, length_digest; reflexivity |].
  apply hex_upper, digest_range.
Qed.

(** ** NIT normalization *)

Section Nit.

Lemma remove_dots_hyphens_spec (s : string) :
  Cufe.remove_dots_hyphens s = Spec.without_dots_hyphens s.
Proof.
  unfold Spec.without_dots_hyphens.
  induction s as [|c s IH]; [reflexivity |].
  cbn [Cufe.remove_dots_hyphens list_ascii_of_string].
  rewrite filter_cons.
  destruct (Ascii.eqb_spec c ".") as [->|Hdot]; cbn [orb].
  - rewrite decide_False by (intros [? _]; congruence). exact IH.
  - destruct (Ascii.eqb_spec c "-") as [->|Hhyp].
    + rewrite decide_False by (intros [_ ?]; congruence). exact IH.
    + rewrite decide_True by (split; assumption).
      cbn [string_of_list_ascii]. now rewrite IH.
Qed.

Lemma remove_final_digit_spec (s : string) :
  Cufe.remove_final_digit s =
  match last (list_ascii_of_string s) with
  | Some c => if Cufe.is_digit c
              then string_of_list_ascii (removelast (list_ascii_of_string s))
              else s
  | None => ""
  end.
Proof.
  induction s as [|c s IH]; [reflexivity |].
  destruct s as [|c' s].
  - cbn. destruct (Cufe.is_digit c); reflexivity.
  - change (Cufe.remove_final_digit (String c (String c' s)))
      with (String c (Cufe.remove_final_digit (String c' s))).
    rewrite IH.
    change (list_ascii_of_string (String c (String c' s)))
      with (c :: list_ascii_of_string (String c' s)).
    change (list_ascii_of_string (String c' s)) with (c' :: list_ascii_of_string s).
    rewrite last_cons_cons.
    destruct (last (c' :: list_ascii_of_string s)) as [x|] eqn:E.
    + destruct (Cufe.is_digit x); reflexivity.
    + now apply last_None in E.
Qed.

Lemma normalize_spec (s : string) :
  Cufe.remove_final_digit (Cufe.remove_dots_hyphens s) = Spec.nit_normalized s.
Proof.
  rewrite remove_final_digit_spec, remove_dots_hyphens_spec.
  unfold Spec.nit_normalized. cbv zeta.
  destruct (last _) as [c|]; [|reflexivity].
  destruct (Cufe.is_digit c); [reflexivity |].
  now rewrite string_of_list_ascii_of_string.
Qed.

Lemma string_of_list_ascii_app (l1 l2 : list ascii) :
  string_of_list_ascii (l1 ++ l2) = string_of_list_ascii l1 +:+ string_of_list_ascii l2.
Proof. induction l1 as [|c l1 IH]; simpl; [reflexivity | now rewrite IH]. Qed.

Lemma list_ascii_of_string_app (a b : string) :
  list_ascii_of_string (a +:+ b) = (list_ascii_of_string a ++ list_ascii_of_string b)%list.
Proof. induction a as [|c a IH]; simpl; [reflexivity | now rewrite IH]. Qed.

(** When the NIT without dots and hyphens ends in a digit, normalizing it
    leaves exactly what precedes that digit. *)
Lemma nit_normalized_final_digit (s body : string) (d : ascii) :
  Spec.without_dots_hyphens s = body +:+ String d "" ->
  Cufe.is_digit d = true ->
  Spec.nit_normalized s = body.
Proof.
  intros Hs Hd. unfold Spec.nit_normalized. cbv zeta.
  rewrite Hs, list_ascii_of_string_app.
  change (list_ascii_of_string (String d "")) with [d].
  rewrite last_snoc, Hd, removelast_last.
  apply string_of_list_ascii_of_string.
Qed.

Lemma without_dots_hyphens_clean (s : string) :
  Forall (fun c => c <> "."%char /\ c <> "-"%char)
         (list_ascii_of_string (Spec.without_dots_hyphens s)).
Proof.
  unfold Spec.without_dots_hyphens.
  rewrite list_ascii_of_string_of_list_ascii.
  apply list.Forall_forall. intros c Hc.
  apply list_elem_of_filter in Hc. tauto.
Qed.

End Nit.

(** ** Calendar fields *)

Section Calendar.

Lemma day_of_year_range (doe : Z) :
  0 <= doe < 146097 ->
  let yoe := (doe - doe / 1460 + doe / 36524 - doe / 146096) / 365 in
  0 <= doe - (365 * yoe + yoe / 4 - yoe / 100) <= 365.
Proof. intros H. cbv zeta. Z.div_mod_to_equations. lia. Qed.

Lemma month_day_range (doy : Z) :
  0 <= doy <= 365 ->
  let mp := (5 * doy + 2) / 153 in
  1 <= (if mp <? 10 then mp + 3 else mp - 9) <= 12 /\
  1 <= doy - (153 * mp + 2) / 5 + 1 <= 31.
Proof.
  intros H. cbv zeta.
  destruct (Z.ltb_spec ((5 * doy + 2) / 153) 10); Z.div_mod_to_equations; lia.
Qed.

Lemma civil_range (days : Z) :
  let '(_, m, d) := Date.civil days in 1 <= m <= 12 /\ 1 <= d <= 31.
Proof.
  unfold Date.civil, Date.civil_of_era. cbv zeta.
  set (z := days + 719468). set (era := z / 146097).
  assert (Hdoe : 0 <= z - era * 146097 < 146097).
  { subst era. pose proof (Z.mod_pos_bound z 146097 ltac:(lia)) as Hm.
    rewrite Z.mod_eq in Hm by lia. lia. }
  exact (month_day_range _ (day_of_year_range _ Hdoe)).
Qed.

Lemma two_digits_table :
  Spec.all_from 100 0
    (fun n => String.eqb (JS.padStart 2 "0" (JS.toString (JS.Integer n)))
                         (Spec.two_digits n)) = true.
Proof. vm_compute. reflexivity. Qed.

Lemma padStart_2_spec (n : Z) :
  0 <= n <= 99 -> JS.padStart 2 "0" (JS.toString (JS.Integer n)) = Spec.two_digits n.
Proof.
  intros Hn. apply String.eqb_eq. by_table two_digits_table.
Qed.

Lemma MonthFromTime_range (t : Z) : 0 <= Date.MonthFromTime t + 1 <= 99.
Proof.
  unfold Date.MonthFromTime. pose proof (civil_range (Date.Day t)) as H.
  destruct (Date.civil (Date.Day t)) as [[y m] d]. simpl. lia.
Qed.

Lemma DateFromTime_range (t : Z) : 0 <= Date.DateFromTime t <= 99.
Proof.
  unfold Date.DateFromTime. pose proof (civil_range (Date.Day t)) as H.
  destruct (Date.civil (Date.Day t)) as [[y m] d]. simpl. lia.
Qed.

Lemma HourFromTime_range (t : Z) : 0 <= Date.HourFromTime t <= 99.
Proof. unfold Date.HourFromTime. pose proof (Z.mod_pos_bound (Date.TimeWithinDay t / 3600000) 24). lia. Qed.

Lemma MinFromTime_range (t : Z) : 0 <= Date.MinFromTime t <= 99.
Proof. unfold Date.MinFromTime. pose proof (Z.mod_pos_bound (Date.TimeWithinDay t / 60000) 60). lia. Qed.

Lemma SecFromTime_range (t : Z) : 0 <= Date.SecFromTime t <= 99.
Proof. unfold Date.SecFromTime. pose proof (Z.mod_pos_bound (Date.TimeWithinDay t / 1000) 60). lia. Qed.

(** The date field of the hashed string is the local year followed by five
    two-digit fields. *)
Lemma fechaHora_spec (tz : Z -> Z) (t : Z) : Cufe.fechaHora tz t = Spec.timestamp14 tz t.
Proof.
  unfold Cufe.fechaHora, Spec.timestamp14. cbv zeta.
  unfold Date.getMonth, Date.getDate, Date.getHours, Date.getMinutes, Date.getSeconds.
  rewrite (padStart_2_spec _ (MonthFromTime_range _)).
  rewrite (padStart_2_spec _ (DateFromTime_range _)).
  rewrite (padStart_2_spec _ (HourFromTime_range _)).
  rewrite (padStart_2_spec _ (MinFromTime_range _)).
  rewrite (padStart_2_spec _ (SecFromTime_range _)).
  reflexivity.
Qed.

End Calendar.

(** ** [generateCUFE] *)

Section GenerateCUFE.

Lemma or_default_spec (template : PDFTemplate) :
  or_default (technicalKey template) Cufe.default_technical_key
  = Spec.technical_key_when_absent_or_empty template.
Proof.
  unfold Spec.technical_key_when_absent_or_empty.
  destruct (technicalKey template) as [[|c k]|]; reflexivity.
Qed.

Lemma datosParaCUFE_spec (tz : Z -> Z) (invoice : Invoice) (template : PDFTemplate) (t : Z) :
  Cufe.datosParaCUFE tz invoice template t
  = Spec.concatenation tz Spec.technical_key_when_absent_or_empty invoice template t.
Proof.
  unfold Cufe.datosParaCUFE, Spec.concatenation. cbv zeta.
  rewrite !normalize_spec, or_default_spec, fechaHora_spec.
  reflexivity.
Qed.

End GenerateCUFE.

(** C1, as amended.  For every invoice, every template and every valid
    emission timestamp, [generateCUFE] returns the SHA-384 digest, in
    hexadecimal, of the concatenation of: the invoice id, the local time as
    YYYYMMDDHHmmss, the rounded total on 15 digits, 01, the rounded tax on
    15 digits, 04, fifteen zeros, 03, fifteen zeros, the rounded total
    again, the emitter NIT normalized, 31, the client NIT normalized, and
    the template's technical key, the default key taking its place when the
    key is absent or empty; the timestamp field is the ISO string.  On the
    invalid date nothing is returned: the function rejects. *)
Theorem generateCUFE_is_digest_of_concatenation
    (tz : Z -> Z) (invoice : Invoice) (template : PDFTemplate)
    (emissionTimestamp : Date.date) :
  Cufe.generateCUFE tz invoice template emissionTimestamp
  = match emissionTimestamp with
    | Date.Valid t =>
        inr (Spec.cufe_data tz Spec.technical_key_when_absent_or_empty invoice template t)
    | Date.Invalid => inl "Invalid time value"
    end.
Proof.
  destruct emissionTimestamp as [t|]; [|reflexivity].
  rewrite generateCUFE_Valid, datosParaCUFE_spec. reflexivity.
Qed.

(** C1, as stated, fails on a template whose technical key is the empty
    string: the key is present, yet the default key is hashed. *)
Lemma generateCUFE_empty_key_uses_default :
  Cufe.generateCUFE Examples.bogota Examples.draft Examples.corporate_empty_key
                    (Date.Valid Examples.new_year)
  <> inr (Spec.cufe_data Examples.bogota Spec.technical_key_when_absent Examples.draft
                         Examples.corporate_empty_key Examples.new_year).
Proof.
  intros H.
  apply (f_equal (fun r => match r with inr data => Cufe.cufe data | inl _ => "" end)) in H.
  revert H. apply String.eqb_neq. vm_compute. reflexivity.
Qed.

(** C9.  Both NITs enter the hashed string without their dots and hyphens
    and without the digit these leave at the end, whether or not the NIT
    had a hyphen or a verification digit. *)
Theorem datosParaCUFE_drops_final_digit_of_both_nits
    (tz : Z -> Z) (invoice : Invoice) (template : PDFTemplate) (t : Z)
    (emitter acquirer : string) (d1 d2 : ascii) :
  Spec.without_dots_hyphens (nit (companyInfo template)) = emitter +:+ String d1 "" ->
  Cufe.is_digit d1 = true ->
  Spec.without_dots_hyphens (inv_clientNit invoice) = acquirer +:+ String d2 "" ->
  Cufe.is_digit d2 = true ->
  Cufe.datosParaCUFE tz invoice template t
  = inv_id invoice +:+ Cufe.fechaHora tz t +:+
    Spec.amount15 (inv_total invoice) +:+ "01" +:+
    Spec.amount15 (inv_taxAmount invoice) +:+ "04" +:+ "000000000000000" +:+ "03" +:+
    "000000000000000" +:+ Spec.amount15 (inv_total invoice) +:+
    emitter +:+ "31" +:+ acquirer +:+
    or_default (technicalKey template) Cufe.default_technical_key.
Proof.
  intros He Hd1 Ha Hd2.
  unfold Cufe.datosParaCUFE. cbv zeta.
  rewrite !normalize_spec.
  rewrite (nit_normalized_final_digit _ _ _ He Hd1).
  rewrite (nit_normalized_final_digit _ _ _ Ha Hd2).
  reflexivity.
Qed.

(** A NIT given as nine digits, without verification digit, is hashed as
    its first eight digits; one given with dots, hyphen and verification
    digit is hashed as its nine digits. *)
Lemma datosParaCUFE_drops_final_digit_witness :
  Cufe.datosParaCUFE Examples.bogota Examples.draft Examples.corporate Examples.new_year
  = "FAC-2025-0001" +:+ "20241231190000" +:+
    "000000000119000" +:+ "01" +:+ "000000000019000" +:+ "04" +:+
    "000000000000000" +:+ "03" +:+ "000000000000000" +:+ "000000000119000" +:+
    "90012345" +:+ "31" +:+ "800123456" +:+ "CourierSync2025ElectronicInvoicing".
Proof.
  apply (datosParaCUFE_drops_final_digit_of_both_nits
           Examples.bogota Examples.draft Examples.corporate Examples.new_year
           "90012345" "800123456" "6" "7");
    vm_compute; reflexivity.
Defined.

(** ** Decimal digits and [toFixed] *)

Section Digits.

Lemma digits_fuel_acc (fuel : nat) (radix n : Z) (acc : string) :
  JS.digits_fuel fuel radix n acc = JS.digits_fuel fuel radix n "" +:+ acc.
Proof.
  revert n acc. induction fuel as [|fuel IH]; intros n acc; [reflexivity |].
  cbn [JS.digits_fuel]. cbv zeta.
  destruct (n <? radix); [reflexivity |].
  rewrite IH, (IH _ (String _ "")), append_assoc. reflexivity.
Qed.

(** Past the number of binary digits of [n], more fuel changes nothing. *)
Lemma digits_fuel_enough (f1 f2 : nat) (radix n : Z) (acc : string) :
  2 <= radix -> 0 <= n ->
  n < 2 ^ Z.of_nat (S f1) -> n < 2 ^ Z.of_nat (S f2) ->
  JS.digits_fuel (S f1) radix n acc = JS.digits_fuel (S f2) radix n acc.
Proof.
  intros Hr. revert f2 n acc.
  induction f1 as [|f1 IH]; intros f2 n acc Hn H1 H2.
  - cbn [JS.digits_fuel]. cbv zeta.
    destruct (Z.ltb_spec n radix); [reflexivity |].
    change (2 ^ Z.of_nat 1) with 2 in H1. lia.
  - destruct f2 as [|f2].
    + change (2 ^ Z.of_nat 1) with 2 in H2.
      cbn [JS.digits_fuel]. cbv zeta.
      destruct (Z.ltb_spec n radix); [reflexivity | lia].
    + remember (S f1) as g1. remember (S f2) as g2.
      cbn [JS.digits_fuel]. cbv zeta.
      destruct (Z.ltb_spec n radix); [reflexivity |].
      subst g1 g2.
      assert (Hdiv : forall k : nat, n < 2 ^ Z.of_nat (S (S k)) ->
                                     n / radix < 2 ^ Z.of_nat (S k)).
      { intros k Hk. apply Z.div_lt_upper_bound; [lia |].
        rewrite (Nat2Z.inj_succ (S k)), Z.pow_succ_r in Hk by lia.
        assert (0 < 2 ^ Z.of_nat (S k)) by (apply Z.pow_pos_nonneg; lia).
        nia. }
      apply IH; [apply Z.div_pos; lia | now apply Hdiv | now apply Hdiv].
Qed.

Lemma lt_pow2_fuel (n : Z) : 0 <= n -> n < 2 ^ Z.of_nat (S (Z.to_nat (Z.log2 n))).
Proof.
  intros Hn.
  rewrite Nat2Z.inj_succ, Z2Nat.id by apply Z.log2_nonneg.
  destruct (Z.eq_dec n 0) as [->|Hz]; [reflexivity |].
  apply Z.log2_spec. lia.
Qed.

Lemma digits_small (radix n : Z) :
  0 <= n < radix -> JS.digits radix n = String (JS.digit_char n) "".
Proof.
  intros [Hn Hlt]. unfold JS.digits. cbn [JS.digits_fuel]. cbv zeta.
  destruct (Z.ltb_spec n radix); [|lia].
  now rewrite Z.mod_small by lia.
Qed.

Lemma digits_big (radix n : Z) :
  2 <= radix <= n ->
  JS.digits radix n
  = JS.digits radix (n / radix) +:+ String (JS.digit_char (n mod radix)) "".
Proof.
  intros [Hr Hn]. unfold JS.digits.
  assert (Hlog : 1 <= Z.log2 n) by (apply Z.log2_le_pow2; [lia | simpl; lia]).
  replace (Z.to_nat (Z.log2 n)) with (S (Z.to_nat (Z.log2 n - 1)))
    by (rewrite <- Z2Nat.inj_succ by lia; f_equal; lia).
  remember (S (Z.to_nat (Z.log2 n - 1))) as g.
  cbn [JS.digits_fuel]. cbv zeta.
  destruct (Z.ltb_spec n radix); [lia |].
  rewrite digits_fuel_acc. f_equal. subst g.
  assert (0 <= n / radix) by (apply Z.div_pos; lia).
  apply digits_fuel_enough; [lia | lia | | now apply lt_pow2_fuel].
  rewrite Nat2Z.inj_succ, Z2Nat.id by lia.
  apply Z.div_lt_upper_bound; [lia |].
  pose proof (Z.log2_spec n ltac:(lia)) as [_ Hup].
  replace (Z.succ (Z.log2 n)) with (Z.succ (Z.succ (Z.log2 n - 1))) in Hup by lia.
  rewrite Z.pow_succ_r in Hup by lia.
  replace (Z.succ (Z.log2 n - 1)) with (Z.log2 n) in * by lia.
  assert (0 < 2 ^ Z.log2 n) by (apply Z.pow_pos_nonneg; lia).
  nia.
Qed.

Lemma digits_nonempty (radix n : Z) :
  2 <= radix -> 0 <= n -> (1 <= String.length (JS.digits radix n))%nat.
Proof.
  intros Hr Hn. destruct (Z_lt_le_dec n radix).
  - rewrite digits_small by lia. simpl. lia.
  - rewrite digits_big by lia. rewrite length_append. simpl. lia.
Qed.

Lemma take_append (a b : string) : JS.take (String.length a) (a +:+ b) = a.
Proof.
  unfold JS.take. induction a as [|c a IH]; simpl.
  - destruct b; reflexivity.
  - now rewrite IH.
Qed.

Lemma substring_all (s : string) : substring 0 (String.length s) s = s.
Proof. induction s as [|c s IH]; simpl; [reflexivity | now rewrite IH]. Qed.

Lemma drop_append (a b : string) : JS.drop (String.length a) (a +:+ b) = b.
Proof.
  unfold JS.drop. rewrite length_append.
  replace (String.length a + String.length b - String.length a)%nat
    with (String.length b) by lia.
  induction a as [|c a IH]; simpl; [apply substring_all | exact IH].
Qed.

Lemma hundredths_nonneg (x : Q) : 0 <= Spec.hundredths x.
Proof.
  unfold Spec.hundredths.
  change 0 with (Qfloor 0). apply Qfloor_resp_le.
  pose proof (Qabs_nonneg x) as H.
  assert (0 <= Qabs x * 100)%Q by (apply Qmult_le_0_compat; [exact H | discriminate]).
  apply (Qle_trans _ (Qabs x * 100)); [assumption |].
  rewrite <- (Qplus_0_r (Qabs x * 100)) at 1.
  apply Qplus_le_r. discriminate.
Qed.

(** Below 10^21 in magnitude, [toFixed(2)] prints the integer part, a
    point and two digits. *)
Lemma toFixed_2_spec (x : Q) :
  (Qabs x < inject_Z (10 ^ 21))%Q -> JS.toFixed 2 (JS.Finite x) = Spec.two_decimals x.
Proof.
  intros Hlt. unfold JS.toFixed, Spec.two_decimals. cbv zeta.
  destruct (Qlt_le_dec (Qabs x) (inject_Z (10 ^ 21))) as [_|Hge];
    [|exfalso; exact (Qlt_not_le _ _ Hlt Hge)].
  change (Qfloor (Qabs x * inject_Z (10 ^ Z.of_nat 2) + (1 # 2))) with (Spec.hundredths x).
  pose proof (hundredths_nonneg x) as Hn.
  set (n := Spec.hundredths x) in *.
  f_equal.
  assert (Hq : 0 <= n / 100) by (apply Z.div_pos; lia).
  destruct (Z_lt_le_dec n 10) as [H10|H10].
  - rewrite (digits_small 10 n) by lia.
    rewrite (Z.div_small n 100), (Z.div_small n 10), (Z.mod_small n 10) by lia.
    reflexivity.
  - destruct (Z_lt_le_dec n 100) as [H100|H100].
    + rewrite (digits_big 10 n) by lia.
      rewrite (digits_small 10 (n / 10))
        by (split; [apply Z.div_pos; lia | apply Z.div_lt_upper_bound; lia]).
      rewrite (Z.div_small n 100) by lia.
      rewrite (Z.mod_small (n / 10) 10)
        by (split; [apply Z.div_pos; lia | apply Z.div_lt_upper_bound; lia]).
      reflexivity.
    + rewrite (digits_big 10 n) by lia.
      rewrite (digits_big 10 (n / 10))
        by (split; [lia | apply Z.div_le_lower_bound; lia]).
      rewrite Z.div_div by lia. change (10 * 10) with 100.
      rewrite append_assoc.
      change (String ?a "" +:+ String ?b "") with (String a (String b "")).
      set (hi := JS.digits 10 (n / 100)).
      set (lo := String (JS.digit_char (n / 10 mod 10)) (String (JS.digit_char (n mod 10)) "")).
      pose proof (digits_nonempty 10 (n / 100) ltac:(lia) Hq) as Hlen. fold hi in Hlen.
      rewrite length_append. change (String.length lo) with 2%nat.
      destruct (Nat.leb_spec (String.length hi + 2) 2); [lia |].
      rewrite length_append. change (String.length lo) with 2%nat.
      replace (String.length hi + 2 - 2)%nat with (String.length hi) by lia.
      now rewrite take_append, drop_append.
Qed.

End Digits.

(** ** Lengths and characters of the decimal fields *)

Section DecimalFields.

Lemma digit_code_units (c : ascii) : Cufe.is_digit c = true -> JS.code_units c = 1%nat.
Proof.
  unfold Cufe.is_digit, JS.code_units. cbv zeta.
  rewrite andb_true_iff, Z.leb_le, Z.leb_le. intros [_ H].
  destruct (Z.ltb_spec (JS.Z_of_ascii c) 128); [reflexivity | lia].
Qed.

(** A string of digits has as many code units as bytes. *)
Lemma length_digit_string (s : string) :
  Spec.all_chars Cufe.is_digit s = true -> JS.length s = String.length s.
Proof.
  induction s as [|c s IH]; [reflexivity |].
  cbn [Spec.all_chars JS.length String.length]. rewrite andb_true_iff. intros [Hc Hs].
  now rewrite (digit_code_units _ Hc), IH.
Qed.

Lemma length_padStart (n : nat) (c : ascii) (s : string) :
  JS.length s = String.length s ->
  String.length (JS.padStart n c s) = Nat.max n (String.length s).
Proof.
  intros Hs. unfold JS.padStart. rewrite length_append, length_repeat_char, Hs. lia.
Qed.

Lemma all_chars_repeat_char (p : ascii -> bool) (c : ascii) (n : nat) :
  p c = true -> Spec.all_chars p (JS.repeat_char c n) = true.
Proof. intros Hc. induction n as [|n IH]; simpl; [reflexivity | now rewrite Hc, IH]. Qed.

Lemma digit_char_table :
  Spec.all_from 10 0 (fun d => Cufe.is_digit (JS.digit_char d)) = true.
Proof. vm_compute. reflexivity. Qed.

Lemma digit_char_is_digit (d : Z) : 0 <= d < 10 -> Cufe.is_digit (JS.digit_char d) = true.
Proof. intros Hd. by_table digit_char_table. Qed.

(** A number below 10^(k+1) has at most k+1 digits, all of them digits. *)
Lemma digits_below_pow10 (k : nat) (n : Z) :
  0 <= n < 10 ^ Z.of_nat (S k) ->
  (String.length (JS.digits 10 n) <= S k)%nat /\
  Spec.all_chars Cufe.is_digit (JS.digits 10 n) = true.
Proof.
  revert n. induction k as [|k IH]; intros n Hn.
  - change (10 ^ Z.of_nat 1) with 10 in Hn.
    rewrite digits_small by lia. simpl. rewrite digit_char_is_digit by lia. split; [lia | reflexivity].
  - destruct (Z_lt_le_dec n 10) as [Hs|Hb].
    + rewrite digits_small by lia. simpl. rewrite digit_char_is_digit by lia.
      split; [lia | reflexivity].
    + rewrite digits_big by lia.
      assert (Hq : 0 <= n / 10 < 10 ^ Z.of_nat (S k)).
      { split; [apply Z.div_pos; lia |].
        apply Z.div_lt_upper_bound; [lia |].
        rewrite (Nat2Z.inj_succ (S k)), Z.pow_succ_r in Hn by lia. lia. }
      destruct (IH _ Hq) as [Hlen Hall].
      rewrite length_append, all_chars_append, Hall. simpl.
      rewrite digit_char_is_digit by (apply Z.mod_pos_bound; lia).
      split; [lia | reflexivity].
Qed.

(** The digits of a number are digits. *)
Lemma digits_all_digit (n : Z) : Spec.all_chars Cufe.is_digit (JS.digits 10 n) = true.
Proof.
  destruct (Z_lt_le_dec n 0) as [Hneg|Hpos].
  - unfold JS.digits. rewrite Z.log2_nonpos by lia.
    cbn [Z.to_nat JS.digits_fuel]. cbv zeta.
    destruct (Z.ltb_spec n 10); [|lia].
    cbn [Spec.all_chars]. rewrite digit_char_is_digit by (apply Z.mod_pos_bound; lia).
    reflexivity.
  - destruct (digits_below_pow10 (Z.to_nat n) n) as [_ Hd]; [|exact Hd].
    split; [assumption |].
    rewrite Nat2Z.inj_succ, Z2Nat.id by assumption.
    apply (Z.lt_le_trans _ (10 ^ n)).
    + apply Z.pow_gt_lin_r; lia.
    + apply Z.pow_le_mono_r; lia.
Qed.

(** A number from 10^k on has at least k+1 digits. *)
Lemma digits_from_pow10 (k : nat) (n : Z) :
  10 ^ Z.of_nat k <= n -> (S k <= String.length (JS.digits 10 n))%nat.
Proof.
  revert n. induction k as [|k IH]; intros n Hn.
  - change (10 ^ Z.of_nat 0) with 1 in Hn.
    pose proof (digits_nonempty 10 n ltac:(lia) ltac:(lia)). lia.
  - rewrite Nat2Z.inj_succ, Z.pow_succ_r in Hn by lia.
    assert (0 < 10 ^ Z.of_nat k) by (apply Z.pow_pos_nonneg; lia).
    rewrite digits_big by lia.
    rewrite length_append. simpl.
    assert (10 ^ Z.of_nat k <= n / 10) by (apply Z.div_le_lower_bound; lia).
    specialize (IH _ H0). lia.
Qed.

(** Below 2^53 an integer is printed with all its digits. *)
Lemma toString_safe (n : Z) :
  0 <= n < 2 ^ 53 -> JS.toString (JS.Integer n) = JS.digits 10 n.
Proof.
  intros Hn. unfold JS.toString, JS.toString_magnitude.
  destruct (Z.ltb_spec n 0); [lia |].
  destruct (Z.ltb_spec n (2 ^ 53)); [reflexivity | lia].
Qed.

Lemma two_digits_digit_table :
  Spec.all_from 100 0 (fun n => Spec.all_chars Cufe.is_digit (Spec.two_digits n)) = true.
Proof. vm_compute. reflexivity. Qed.

Lemma two_digits_all_digit (n : Z) :
  0 <= n <= 99 -> Spec.all_chars Cufe.is_digit (Spec.two_digits n) = true.
Proof. intros Hn. by_table two_digits_digit_table. Qed.

(** The date field for a local year of four digits. *)
Lemma timestamp14_shape (tz : Z -> Z) (t : Z) :
  1000 <= Date.getFullYear tz t <= 9999 ->
  String.length (JS.digits 10 (Date.getFullYear tz t)) = 4%nat /\
  Spec.timestamp14 tz t
  = JS.digits 10 (Date.getFullYear tz t) +:+
    Spec.two_digits (Date.getMonth tz t + 1) +:+
    Spec.two_digits (Date.getDate tz t) +:+
    Spec.two_digits (Date.getHours tz t) +:+
    Spec.two_digits (Date.getMinutes tz t) +:+
    Spec.two_digits (Date.getSeconds tz t).
Proof.
  intros Hy. unfold Spec.timestamp14.
  rewrite toString_safe by lia.
  destruct (digits_below_pow10 3 (Date.getFullYear tz t)
              ltac:(change (10 ^ Z.of_nat 4) with 10000; lia)) as [Hle _].
  pose proof (digits_from_pow10 3 (Date.getFullYear tz t)
                ltac:(change (10 ^ Z.of_nat 3) with 1000; lia)) as Hge.
  split; [lia | reflexivity].
Qed.

End DecimalFields.

(** ** The host's time zone in [generateCUFE] *)

Section LocalSecond.

Lemma yoe_range (doe : Z) :
  0 <= doe < 146097 ->
  0 <= (doe - doe / 1460 + doe / 36524 - doe / 146096) / 365 <= 399.
Proof. intros H. Z.div_mod_to_equations. lia. Qed.

(** The calendar date tells the day. *)
Lemma civil_of_era_inj (era1 doe1 era2 doe2 : Z) :
  0 <= doe1 < 146097 -> 0 <= doe2 < 146097 ->
  Date.civil_of_era era1 doe1 = Date.civil_of_era era2 doe2 ->
  era1 = era2 /\ doe1 = doe2.
Proof.
  intros H1 H2. unfold Date.civil_of_era. cbv zeta.
  pose proof (yoe_range doe1 H1) as Hy1. pose proof (yoe_range doe2 H2) as Hy2.
  pose proof (day_of_year_range doe1 H1) as Hd1. pose proof (day_of_year_range doe2 H2) as Hd2.
  cbv zeta in Hd1, Hd2.
  set (yoe1 := (doe1 - doe1 / 1460 + doe1 / 36524 - doe1 / 146096) / 365) in *.
  set (yoe2 := (doe2 - doe2 / 1460 + doe2 / 36524 - doe2 / 146096) / 365) in *.
  set (doy1 := doe1 - (365 * yoe1 + yoe1 / 4 - yoe1 / 100)) in *.
  set (doy2 := doe2 - (365 * yoe2 + yoe2 / 4 - yoe2 / 100)) in *.
  pose proof (month_day_range doy1 Hd1) as Hm1. pose proof (month_day_range doy2 Hd2) as Hm2.
  cbv zeta in Hm1, Hm2.
  set (mp1 := (5 * doy1 + 2) / 153) in *. set (mp2 := (5 * doy2 + 2) / 153) in *.
  intros [= Hy Hm Hd].
  assert (Hmp1 : 0 <= mp1 <= 11) by (subst mp1; Z.div_mod_to_equations; lia).
  assert (Hmp2 : 0 <= mp2 <= 11) by (subst mp2; Z.div_mod_to_equations; lia).
  assert (Emp : mp1 = mp2).
  { destruct (Z.ltb_spec mp1 10), (Z.ltb_spec mp2 10); lia. }
  rewrite <- Emp in *.
  assert (Edoy : doy1 = doy2) by lia.
  assert (Eyoe : yoe1 = yoe2 /\ era1 = era2).
  { destruct (Z.ltb_spec mp1 10);
      [destruct (Z.leb_spec (mp1 + 3) 2) | destruct (Z.leb_spec (mp1 - 9) 2)]; lia. }
  destruct Eyoe as [Eyoe Eera]. split; [exact Eera |].
  subst doy1 doy2. rewrite <- Eyoe in Edoy. lia.
Qed.

Lemma civil_inj (days1 days2 : Z) : Date.civil days1 = Date.civil days2 -> days1 = days2.
Proof.
  unfold Date.civil. cbv zeta. intros H.
  apply civil_of_era_inj in H as [He Hd].
  - lia.
  - pose proof (Z.mod_pos_bound (days1 + 719468) 146097 ltac:(lia)) as Hm.
    rewrite Z.mod_eq in Hm by lia. lia.
  - pose proof (Z.mod_pos_bound (days2 + 719468) 146097 ltac:(lia)) as Hm.
    rewrite Z.mod_eq in Hm by lia. lia.
Qed.

(** The getters read the local time to the second. *)
Lemma local_second_fields (u1 u2 : Z) :
  u1 / 1000 = u2 / 1000 ->
  Date.Day u1 = Date.Day u2 /\
  Date.HourFromTime u1 = Date.HourFromTime u2 /\
  Date.MinFromTime u1 = Date.MinFromTime u2 /\
  Date.SecFromTime u1 = Date.SecFromTime u2.
Proof.
  unfold Date.Day, Date.HourFromTime, Date.MinFromTime, Date.SecFromTime,
    Date.TimeWithinDay, Date.msPerDay.
  intros H. repeat split; Z.div_mod_to_equations; lia.
Qed.

(** The day and the hour, minute and second tell the local time to the
    second. *)
Lemma fields_local_second (u1 u2 : Z) :
  Date.Day u1 = Date.Day u2 ->
  Date.HourFromTime u1 = Date.HourFromTime u2 ->
  Date.MinFromTime u1 = Date.MinFromTime u2 ->
  Date.SecFromTime u1 = Date.SecFromTime u2 ->
  u1 / 1000 = u2 / 1000.
Proof.
  unfold Date.Day, Date.HourFromTime, Date.MinFromTime, Date.SecFromTime,
    Date.TimeWithinDay, Date.msPerDay.
  intros Hd Hh Hm Hs. Z.div_mod_to_equations. lia.
Qed.

End LocalSecond.

Section HashedDate.

Lemma append_inv_head (a b c : string) : a +:+ b = a +:+ c -> b = c.
Proof. induction a as [|x a IH]; simpl; [auto | intros [= H]; auto]. Qed.

Lemma append_inv_length (a a' b b' : string) :
  String.length a = String.length a' -> a +:+ b = a' +:+ b' -> a = a' /\ b = b'.
Proof.
  revert a'. induction a as [|x a IH]; intros [|x' a']; simpl; try discriminate.
  - auto.
  - intros [= Hlen] [= -> H]. destruct (IH _ Hlen H) as [-> ->]. auto.
Qed.

Lemma digit_char_code_table :
  Spec.all_from 10 0 (fun d => JS.Z_of_ascii (JS.digit_char d) =? 48 + d) = true.
Proof. vm_compute. reflexivity. Qed.

Lemma digit_char_inj (a b : Z) :
  0 <= a < 10 -> 0 <= b < 10 -> JS.digit_char a = JS.digit_char b -> a = b.
Proof.
  intros Ha Hb H. apply (f_equal JS.Z_of_ascii) in H.
  assert (Ea : (JS.Z_of_ascii (JS.digit_char a) =? 48 + a) = true)
    by by_table digit_char_code_table.
  assert (Eb : (JS.Z_of_ascii (JS.digit_char b) =? 48 + b) = true)
    by by_table digit_char_code_table.
  apply Z.eqb_eq in Ea, Eb. lia.
Qed.

Lemma two_digits_inj (a b : Z) :
  0 <= a <= 99 -> 0 <= b <= 99 -> Spec.two_digits a = Spec.two_digits b -> a = b.
Proof.
  intros Ha Hb. unfold Spec.two_digits. intros [= H1 H0].
  apply digit_char_inj in H1; [|Z.div_mod_to_equations; lia..].
  apply digit_char_inj in H0; [|Z.div_mod_to_equations; lia..].
  Z.div_mod_to_equations. lia.
Qed.

Lemma digits_4 (y : Z) :
  1000 <= y <= 9999 ->
  JS.digits 10 y
  = String (JS.digit_char (y / 1000))
      (String (JS.digit_char (y / 100 mod 10))
         (String (JS.digit_char (y / 10 mod 10)) (String (JS.digit_char (y mod 10)) ""))).
Proof.
  intros Hy.
  rewrite (digits_big 10 y) by lia.
  rewrite (digits_big 10 (y / 10)) by (Z.div_mod_to_equations; lia).
  rewrite (digits_big 10 (y / 10 / 10)) by (Z.div_mod_to_equations; lia).
  rewrite (digits_small 10 (y / 10 / 10 / 10)) by (Z.div_mod_to_equations; lia).
  rewrite !Z.div_div by lia. reflexivity.
Qed.

Lemma digits_4_inj (y1 y2 : Z) :
  1000 <= y1 <= 9999 -> 1000 <= y2 <= 9999 ->
  JS.digits 10 y1 = JS.digits 10 y2 -> y1 = y2.
Proof.
  intros H1 H2. rewrite !digits_4 by assumption. intros [= Ha Hb Hc Hd].
  apply digit_char_inj in Ha; [|Z.div_mod_to_equations; lia..].
  apply digit_char_inj in Hb; [|Z.div_mod_to_equations; lia..].
  apply digit_char_inj in Hc; [|Z.div_mod_to_equations; lia..].
  apply digit_char_inj in Hd; [|Z.div_mod_to_equations; lia..].
  Z.div_mod_to_equations. lia.
Qed.

(** The date field tells the local time to the second, when the local year
    has four digits. *)
Lemma fechaHora_inj (tz1 tz2 : Z -> Z) (t : Z) :
  1000 <= Date.getFullYear tz1 t <= 9999 ->
  1000 <= Date.getFullYear tz2 t <= 9999 ->
  Cufe.fechaHora tz1 t = Cufe.fechaHora tz2 t ->
  (t + tz1 t) / 1000 = (t + tz2 t) / 1000.
Proof.
  intros Hy1 Hy2. rewrite !fechaHora_spec.
  destruct (timestamp14_shape tz1 t Hy1) as [Hl1 ->].
  destruct (timestamp14_shape tz2 t Hy2) as [Hl2 ->].
  intros H.
  apply append_inv_length in H as [Hyear H]; [|congruence].
  apply digits_4_inj in Hyear; [|assumption..].
  unfold Spec.two_digits in H. cbn [String.append] in H.
  injection H as M1 M0 D1 D0 h1 h0 m1 m0 s1 s0.
  unfold Date.getFullYear, Date.getMonth, Date.getDate, Date.getHours, Date.getMinutes,
    Date.getSeconds, Date.LocalTime in *.
  set (u1 := t + tz1 t) in *. set (u2 := t + tz2 t) in *.
  pose proof (MonthFromTime_range u1) as RM1. pose proof (MonthFromTime_range u2) as RM2.
  pose proof (DateFromTime_range u1) as RD1. pose proof (DateFromTime_range u2) as RD2.
  pose proof (HourFromTime_range u1) as Rh1. pose proof (HourFromTime_range u2) as Rh2.
  pose proof (MinFromTime_range u1) as Rm1. pose proof (MinFromTime_range u2) as Rm2.
  pose proof (SecFromTime_range u1) as Rs1. pose proof (SecFromTime_range u2) as Rs2.
  assert (EM : Date.MonthFromTime u1 + 1 = Date.MonthFromTime u2 + 1)
    by (apply two_digits_inj; [assumption.. | unfold Spec.two_digits; congruence]).
  assert (ED : Date.DateFromTime u1 = Date.DateFromTime u2)
    by (apply two_digits_inj; [assumption.. | unfold Spec.two_digits; congruence]).
  assert (Eh : Date.HourFromTime u1 = Date.HourFromTime u2)
    by (apply two_digits_inj; [assumption.. | unfold Spec.two_digits; congruence]).
  assert (Em : Date.MinFromTime u1 = Date.MinFromTime u2)
    by (apply two_digits_inj; [assumption.. | unfold Spec.two_digits; congruence]).
  assert (Es : Date.SecFromTime u1 = Date.SecFromTime u2)
    by (apply two_digits_inj; [assumption.. | unfold Spec.two_digits; congruence]).
  apply fields_local_second; try assumption.
  apply civil_inj.
  unfold Date.YearFromTime, Date.MonthFromTime, Date.DateFromTime in Hyear, EM, ED.
  destruct (Date.civil (Date.Day u1)) as [[y1 mo1] d1], (Date.civil (Date.Day u2)) as [[y2 mo2] d2].
  cbn [fst snd] in *. f_equal; [f_equal |]; lia.
Qed.

Lemma fechaHora_local_second (tz1 tz2 : Z -> Z) (t : Z) :
  (t + tz1 t) / 1000 = (t + tz2 t) / 1000 -> Cufe.fechaHora tz1 t = Cufe.fechaHora tz2 t.
Proof.
  intros H. apply local_second_fields in H as (Hd & Hh & Hm & Hs).
  unfold Cufe.fechaHora. cbv zeta.
  unfold Date.getFullYear, Date.getMonth, Date.getDate, Date.getHours, Date.getMinutes,
    Date.getSeconds, Date.LocalTime, Date.YearFromTime, Date.MonthFromTime,
    Date.DateFromTime.
  now rewrite Hd, Hh, Hm, Hs.
Qed.

Lemma length_fechaHora (tz : Z -> Z) (t : Z) :
  1000 <= Date.getFullYear tz t <= 9999 -> String.length (Cufe.fechaHora tz t) = 14%nat.
Proof.
  intros Hy. rewrite fechaHora_spec.
  destruct (timestamp14_shape tz t Hy) as [Hlen ->].
  rewrite length_append. simpl. lia.
Qed.

End HashedDate.

(** C4, as stated, fails: the same invoice, template and instant give one
    CUFE on a host set to UTC and another on a host set to Bogota time. *)
Lemma generateCUFE_depends_on_time_zone :
  ~ (forall (tz1 tz2 : Z -> Z) (invoice : Invoice) (template : PDFTemplate)
            (emissionTimestamp : Date.date),
        Cufe.generateCUFE tz1 invoice template emissionTimestamp
        = Cufe.generateCUFE tz2 invoice template emissionTimestamp).
Proof.
  intros H.
  specialize (H Examples.utc Examples.bogota Examples.draft Examples.corporate
                (Date.Valid Examples.new_year)).
  apply (f_equal (fun r => match r with inr data => Cufe.cufe data | inl _ => "" end)) in H.
  revert H. apply String.eqb_neq. vm_compute. reflexivity.
Qed.

(** C4, as amended.  Two runs on the same invoice, template and emission
    timestamp return the same [CUFEData] on two hosts that read the same
    local time, to the second, off that timestamp, whatever their time
    zones are at other instants; the host enters through nothing else.
    It does enter: when the local year has four digits on both hosts, the
    two hosts hash the same string only if they read the same local time,
    to the second. *)
Theorem generateCUFE_deterministic
    (tz1 tz2 : Z -> Z) (invoice : Invoice) (template : PDFTemplate)
    (emissionTimestamp : Date.date) :
  (Spec.same_local_second tz1 tz2 emissionTimestamp ->
   Cufe.generateCUFE tz1 invoice template emissionTimestamp
   = Cufe.generateCUFE tz2 invoice template emissionTimestamp) /\
  (forall t,
      emissionTimestamp = Date.Valid t ->
      1000 <= Date.getFullYear tz1 t <= 9999 ->
      1000 <= Date.getFullYear tz2 t <= 9999 ->
      Cufe.datosParaCUFE tz1 invoice template t = Cufe.datosParaCUFE tz2 invoice template t ->
      Spec.same_local_second tz1 tz2 emissionTimestamp).
Proof.
  split.
  - destruct emissionTimestamp as [t|]; [|reflexivity].
    cbn [Spec.same_local_second]. intros H.
    unfold Cufe.generateCUFE, Cufe.datosParaCUFE. cbv zeta.
    now rewrite (fechaHora_local_second tz1 tz2 t H).
  - intros t -> Hy1 Hy2 H. cbn [Spec.same_local_second].
    apply fechaHora_inj; [assumption.. |].
    unfold Cufe.datosParaCUFE in H. cbv zeta in H.
    rewrite !join_empty_cons in H.
    apply append_inv_head in H.
    apply append_inv_length in H as [H _]; [exact H |].
    now rewrite !length_fechaHora.
Qed.

Lemma generateCUFE_deterministic_witness :
  Cufe.generateCUFE Examples.bogota Examples.draft Examples.corporate
                    (Date.Valid Examples.new_year)
  = Cufe.generateCUFE Examples.new_york Examples.draft Examples.corporate
                      (Date.Valid Examples.new_year)
  /\
  Cufe.datosParaCUFE Examples.utc Examples.draft Examples.corporate Examples.new_year
  <> Cufe.datosParaCUFE Examples.bogota Examples.draft Examples.corporate Examples.new_year.
Proof.
  split.
  - apply (generateCUFE_deterministic Examples.bogota Examples.new_york Examples.draft
             Examples.corporate (Date.Valid Examples.new_year)).
    reflexivity.
  - intros H.
    apply (proj2 (generateCUFE_deterministic Examples.utc Examples.bogota Examples.draft
                    Examples.corporate (Date.Valid Examples.new_year))
             Examples.new_year eq_refl) in H.
    + discriminate H.
    + vm_compute. split; discriminate.
    + vm_compute. split; discriminate.
Defined.

(** ** [generateInvoiceQR] and [generateInvoiceQRBuffer] *)

Section QRCode.

Variable toLocaleTimeString : string -> string.
Variable QRCode_toDataURL : string -> QR.QROptions -> JS.exn + string.
Variable QRCode_toBuffer : string -> QR.QROptions -> JS.exn + list Z.

Lemma truthy_false (o : option string) :
  truthy o = false <-> o = None \/ o = Some "".
Proof.
  destruct o as [[|c s]|]; simpl; split; intros H; auto; try discriminate;
    destruct H; discriminate.
Qed.

Lemma join_newline_spec (l : list string) :
  JS.join (String "010" "") l = Spec.joined_by_newlines l.
Proof.
  induction l as [|x l IH]; [reflexivity |].
  destruct l as [|y l]; [reflexivity |].
  change (JS.join (String "010" "") (x :: y :: l))
    with (x +:+ String "010" "" +:+ JS.join (String "010" "") (y :: l)).
  rewrite IH. reflexivity.
Qed.

Lemma hour_text_spec (invoice : Invoice) :
  (if truthy (inv_emissionTimestamp invoice)
   then toLocaleTimeString (QR.interpolate (inv_emissionTimestamp invoice))
   else "")
  = Spec.hour_text toLocaleTimeString invoice.
Proof.
  unfold Spec.hour_text.
  destruct (inv_emissionTimestamp invoice) as [[|c s]|]; reflexivity.
Qed.


End QRCode.

(** C2.  When the invoice's [cufe] is missing or empty, both functions
    reject with the same error and the QR library is not called; otherwise
    each hands its content to the library and, when that call succeeds,
    returns what was rendered. *)
Theorem generateInvoiceQR_rejects_iff_cufe_missing
    (toLocaleTimeString : string -> string)
    (QRCode_toDataURL : string -> QR.QROptions -> JS.exn + string)
    (QRCode_toBuffer : string -> QR.QROptions -> JS.exn + list Z)
    (invoice : Invoice) (template : PDFTemplate) :
  let url := QR.generateInvoiceQR toLocaleTimeString QRCode_toDataURL invoice template in
  let buf := QR.generateInvoiceQRBuffer toLocaleTimeString QRCode_toBuffer invoice template in
  let content := QR.generateInvoiceQR_content toLocaleTimeString invoice template in
  if decide (inv_cufe invoice = None \/ inv_cufe invoice = Some "") then
    url = (inl QR.missing_cufe_message, []) /\
    buf = (inl QR.missing_cufe_message, [])
  else
    (forall rendered,
        QRCode_toDataURL content QR.toDataURL_options = inr rendered ->
        url = (inr rendered, [QR.ToDataURL content QR.toDataURL_options])) /\
    (forall rendered,
        QRCode_toBuffer content QR.toBuffer_options = inr rendered ->
        buf = (inr rendered, [QR.ToBuffer content QR.toBuffer_options])).
Proof.
  cbv zeta. unfold QR.generateInvoiceQR, QR.generateInvoiceQRBuffer.
  destruct (decide _) as [Hmissing|Hpresent].
  - apply truthy_false in Hmissing. rewrite Hmissing. split; reflexivity.
  - rewrite <- truthy_false in Hpresent.
    destruct (truthy (inv_cufe invoice)); [|congruence].
    cbn [negb]. cbv zeta.
    split; intros rendered Hr.
    + rewrite Hr. reflexivity.
    + change (QR.generateInvoiceQRBuffer_content toLocaleTimeString invoice template)
        with (QR.generateInvoiceQR_content toLocaleTimeString invoice template).
      rewrite Hr. reflexivity.
Qed.





(** ** [emitInvoice] *)

Section EmitInvoice.

Import Emission.

Variable I : Imports.

(** The logger keeps its records apart from the invoices and shipments. *)
Hypothesis log_keeps_invoices :
  forall e ls, logPDFAction I e ls !! STORAGE_KEYS_INVOICES I = ls !! STORAGE_KEYS_INVOICES I.
Hypothesis log_keeps_shipments :
  forall e ls, logPDFAction I e ls !! STORAGE_KEYS_SHIPMENTS I = ls !! STORAGE_KEYS_SHIPMENTS I.

(** What [catch] and [finally] make of an exception thrown in a world whose
    storage and toasts are those of [w]. *)
Lemma emitInvoice_catch_spec (invoiceId message : string) (w w0 : World) :
  localStorage w0 = localStorage w -> toasts w0 = toasts w ->
  exists result w',
    (let '(r, w1) := emitInvoice_catch I invoiceId message w0 in
     (r, setIsEmitting false w1)) = (inr result, w') /\
    success result = false /\
    res_invoice result = None /\
    res_errors result = Some [message] /\
    localStorage w' !! STORAGE_KEYS_INVOICES I = localStorage w !! STORAGE_KEYS_INVOICES I /\
    localStorage w' !! STORAGE_KEYS_SHIPMENTS I = localStorage w !! STORAGE_KEYS_SHIPMENTS I /\
    (localStorage w' = localStorage w \/
     exists e, localStorage w' = logPDFAction I e (localStorage w)) /\
    (exists t, toasts w' = toasts w ++ [t] /\ toast_kind t = ToastError) /\
    isEmitting w' = false.
Proof.
  intros Hls Hts.
  unfold emitInvoice_catch, bind, toast_error, log, modify, ret.
  cbn [localStorage toasts isEmitting add_toast set_localStorage setIsEmitting].
  eexists _, _. split; [reflexivity |].
  cbn [success res_invoice res_errors localStorage toasts isEmitting
       add_toast set_localStorage setIsEmitting].
  rewrite Hls, Hts, log_keeps_invoices, log_keeps_shipments.
  repeat split; eauto.
Qed.

End EmitInvoice.

Lemma generateCUFE_returns (tz : Z -> Z) (invoice : Invoice) (template : PDFTemplate) (t : Z) :
  exists data, Cufe.generateCUFE tz invoice template (Date.Valid t) = inr data.
Proof. eexists. apply generateCUFE_Valid. Qed.

(** C3.  When the invoice asked for is not in the stored list, or is not
    in status Borrador, or fails the fiscal validation, [emitInvoice]
    returns (it does not throw) a result with [success = false] and the
    error messages; the stored invoices and shipments are what they were,
    the only possible change of the storage being the logger's own record;
    an error toast has been shown. *)
Theorem emitInvoice_failure_leaves_storage
    (I : Emission.Imports) (invoiceId : string) (now : Z) (w : Emission.World)
    (saved : string) (invoices : list Invoice) :
  (forall e ls, Emission.logPDFAction I e ls !! Emission.STORAGE_KEYS_INVOICES I
                = ls !! Emission.STORAGE_KEYS_INVOICES I) ->
  (forall e ls, Emission.logPDFAction I e ls !! Emission.STORAGE_KEYS_SHIPMENTS I
                = ls !! Emission.STORAGE_KEYS_SHIPMENTS I) ->
  Emission.localStorage w !! Emission.STORAGE_KEYS_INVOICES I = Some saved ->
  Emission.JSON_parse_invoices I saved = inr invoices ->
  Spec.blocked I invoiceId invoices ->
  exists result w',
    Emission.emitInvoice I invoiceId now w = (inr result, w') /\
    Emission.success result = false /\
    Emission.res_invoice result = None /\
    Emission.res_errors result = Some (Spec.failure_messages I invoiceId invoices) /\
    Emission.localStorage w' !! Emission.STORAGE_KEYS_INVOICES I
      = Emission.localStorage w !! Emission.STORAGE_KEYS_INVOICES I /\
    Emission.localStorage w' !! Emission.STORAGE_KEYS_SHIPMENTS I
      = Emission.localStorage w !! Emission.STORAGE_KEYS_SHIPMENTS I /\
    (Emission.localStorage w' = Emission.localStorage w \/
     exists e, Emission.localStorage w'
               = Emission.logPDFAction I e (Emission.localStorage w)) /\
    (exists t, Emission.toasts w' = Emission.toasts w ++ [t] /\
               Emission.toast_kind t = Emission.ToastError) /\
    Emission.isEmitting w' = false.
Proof.
  intros Hli Hls Hsaved Hparse Hblocked.
  remember (Emission.localStorage w !! Emission.STORAGE_KEYS_INVOICES I) as before
    eqn:Hbefore in |- *.
  unfold Emission.emitInvoice. cbv zeta.
  unfold Emission.emitInvoice_try, Emission.bind at 1 2, Emission.getItem,
    Emission.gets, Emission.lift.
  cbn [Emission.localStorage Emission.setValidationWarnings
       Emission.setValidationErrors Emission.setIsEmitting].
  rewrite Hsaved.
  destruct saved as [|c saved];
    [now contradiction (Emission.JSON_parse_invoices_empty I invoices) |].
  rewrite Hparse.
  subst before.
  unfold Spec.blocked in Hblocked. unfold Spec.failure_messages.
  destruct (find _ invoices) as [invoice|].
  - destruct (String.eqb_spec (inv_status invoice) "Borrador") as [Hs|Hs]; cbn [negb].
    + destruct Hblocked as [Hb|Hv]; [contradiction |].
      rewrite Hv, decide_True by assumption. cbn [negb].
      unfold Emission.bind, Emission.modify, Emission.toast_error, Emission.ret.
      eexists _, _. split; [reflexivity |].
      cbn [Emission.success Emission.res_invoice Emission.res_errors
           Emission.localStorage Emission.toasts Emission.isEmitting
           Emission.add_toast Emission.setValidationWarnings
           Emission.setValidationErrors Emission.setIsEmitting].
      repeat split; eauto.
    + rewrite decide_False by assumption.
      unfold Emission.throw. cbv beta iota.
      now apply (emitInvoice_catch_spec I Hli Hls).
  - unfold Emission.throw. cbv beta iota.
    now apply (emitInvoice_catch_spec I Hli Hls).
Qed.

Lemma emitInvoice_failure_leaves_storage_witness :
  exists result w',
    Emission.emitInvoice Examples.imports "FAC-2025-0002" Examples.new_year Examples.world
      = (inr result, w') /\
    Emission.success result = false /\
    Emission.res_invoice result = None /\
    Emission.res_errors result = Some ["El NIT del cliente es obligatorio"] /\
    Emission.localStorage w' !! "invoices" = Some "stored" /\
    Emission.localStorage w' !! "shipments" = None /\
    (Emission.localStorage w' = Emission.localStorage Examples.world \/
     exists e, Emission.localStorage w'
               = Emission.logPDFAction Examples.imports e
                   (Emission.localStorage Examples.world)) /\
    (exists t, Emission.toasts w' = [] ++ [t] /\
               Emission.toast_kind t = Emission.ToastError) /\
    Emission.isEmitting w' = false.
Proof.
  apply (emitInvoice_failure_leaves_storage Examples.imports "FAC-2025-0002"
           Examples.new_year Examples.world "stored" Examples.stored).
  - intros e ls. apply lookup_insert_ne. discriminate.
  - intros e ls. apply lookup_insert_ne. discriminate.
  - reflexivity.
  - reflexivity.
  - right. reflexivity.
Defined.

(** The sample draft is emitted under the folio's id, with its CUFE, and
    the stored list is rewritten. *)
Example emitInvoice_emits_draft :
  let '(r, w') :=
    Emission.emitInvoice Examples.imports "FAC-2025-0001" Examples.new_year Examples.world in
  match r with
  | inr result =>
      Emission.success result = true /\
      Emission.res_invoice result = Some Examples.draft_emitted /\
      Emission.localStorage w' !! "invoices" = Some "updated"
  | inl _ => False
  end.
Proof. vm_compute. repeat split. Qed.

(** ** Password recovery *)

Section PasswordRecovery.

Import Recovery.

Lemma onSubmitCode_effects (data : string) (st : State) :
  snd (onSubmitCode data st)
  = if String.eqb data "123456"
    then [SetTimeout 1000; verified_toast; OnOpenChange false]
    else [SetTimeout 1000; rejected_toast].
Proof. unfold onSubmitCode. destruct (String.eqb data "123456"); reflexivity. Qed.

End PasswordRecovery.

(** C6.  Submitting a code reports the password reset (the toast 'Código
    verificado', not destructive) and closes the dialog exactly when the
    code is 123456; every other code gets the destructive toast 'Código
    incorrecto' and leaves the dialog on the code step; neither sending the
    code nor verifying it issues a request. *)
Theorem onSubmitCode_accepts_only_123456
    (data address : string) (st : Recovery.State) :
  let verified :=
    Recovery.ToastShown "Código verificado"
      "Tu contraseña ha sido restablecida. Puedes iniciar sesión con cualquier contraseña."
      false in
  let rejected :=
    Recovery.ToastShown "Código incorrecto"
      "El código ingresado no es válido. Intenta nuevamente." true in
  let effects := snd (Recovery.onSubmitCode data st) in
  (In verified effects /\ In (Recovery.OnOpenChange false) effects <-> data = "123456") /\
  (In rejected effects <-> data <> "123456") /\
  (effects
   = if decide (data = "123456")
     then [Recovery.SetTimeout 1000; verified; Recovery.OnOpenChange false]
     else [Recovery.SetTimeout 1000; rejected]) /\
  (fst (Recovery.onSubmitCode data st)
   = if decide (data = "123456")
     then {| Recovery.step := Recovery.StepEmail; Recovery.isSending := Recovery.isSending st;
             Recovery.isVerifying := false; Recovery.email := "";
             Recovery.emailForm := ""; Recovery.codeForm := "" |}
     else {| Recovery.step := Recovery.step st; Recovery.isSending := Recovery.isSending st;
             Recovery.isVerifying := false; Recovery.email := Recovery.email st;
             Recovery.emailForm := Recovery.emailForm st;
             Recovery.codeForm := Recovery.codeForm st |}) /\
  existsb Recovery.is_request effects = false /\
  existsb Recovery.is_request (snd (Recovery.onSubmitEmail address st)) = false.
Proof.
  cbv zeta. rewrite onSubmitCode_effects. unfold Recovery.onSubmitCode.
  unfold Recovery.verified_toast, Recovery.rejected_toast.
  destruct (String.eqb_spec data "123456") as [->|Hne].
  - rewrite !decide_True by reflexivity.
    split; [split; [reflexivity | intros _; simpl; auto] |].
    split; [split; [|intros H; now contradiction H] |].
    { intros [H|[H|[H|[]]]]; discriminate H. }
    repeat split.
  - rewrite !decide_False by assumption.
    split; [split; [|intros ->; now contradiction Hne] |].
    { intros [[H|[H|[]]] _]; discriminate H. }
    split; [split; [intros _; assumption | intros _; simpl; auto] |].
    repeat split.
Qed.

(** * Further properties of the code *)

(** X1.  When the local year has four digits, the date field of the hashed
    string is exactly fourteen decimal digits. *)
Theorem fechaHora_is_14_digits (tz : Z -> Z) (t : Z) :
  1000 <= Date.getFullYear tz t <= 9999 ->
  String.length (Cufe.fechaHora tz t) = 14%nat /\
  Spec.all_chars Cufe.is_digit (Cufe.fechaHora tz t) = true.
Proof.
  intros Hy. rewrite fechaHora_spec.
  destruct (timestamp14_shape tz t Hy) as [Hlen ->].
  split.
  - rewrite length_append. simpl. lia.
  - rewrite !all_chars_append, digits_all_digit.
    unfold Date.getMonth, Date.getDate, Date.getHours, Date.getMinutes, Date.getSeconds.
    rewrite (two_digits_all_digit _ (MonthFromTime_range _)).
    rewrite (two_digits_all_digit _ (DateFromTime_range _)).
    rewrite (two_digits_all_digit _ (HourFromTime_range _)).
    rewrite (two_digits_all_digit _ (MinFromTime_range _)).
    rewrite (two_digits_all_digit _ (SecFromTime_range _)).
    reflexivity.
Qed.

Lemma fechaHora_is_14_digits_witness :
  String.length (Cufe.fechaHora Examples.bogota Examples.new_year) = 14%nat /\
  Spec.all_chars Cufe.is_digit (Cufe.fechaHora Examples.bogota Examples.new_year) = true.
Proof.
  apply (fechaHora_is_14_digits Examples.bogota Examples.new_year).
  vm_compute. split; discriminate.
Defined.

(** X2.  An amount whose rounded value is between 0 and 10^15 - 1 fills its
    field of the hashed string with exactly fifteen decimal digits. *)
Theorem amount_field_is_15_digits (x : JS.number) (n : Z) :
  JS.Math_round x = JS.Integer n ->
  0 <= n < 10 ^ 15 ->
  let field := JS.padStart 15 "0" (JS.toString (JS.Math_round x)) in
  String.length field = 15%nat /\ Spec.all_chars Cufe.is_digit field = true.
Proof.
  intros -> Hn. cbv zeta. rewrite toString_safe by lia.
  destruct (digits_below_pow10 14 n ltac:(change (Z.of_nat 15) with 15; lia)) as [Hle Hall].
  split.
  - rewrite length_padStart by now apply length_digit_string. lia.
  - unfold JS.padStart. rewrite all_chars_append, Hall, all_chars_repeat_char; reflexivity.
Qed.

Lemma amount_field_is_15_digits_witness :
  String.length (JS.padStart 15 "0" (JS.toString (JS.Math_round (JS.Finite (1190004 # 10)))))
  = 15%nat /\
  Spec.all_chars Cufe.is_digit
    (JS.padStart 15 "0" (JS.toString (JS.Math_round (JS.Finite (1190004 # 10))))) = true.
Proof.
  apply (amount_field_is_15_digits (JS.Finite (1190004 # 10)) 119000).
  - reflexivity.
  - vm_compute. split; [discriminate | reflexivity].
Defined.

Section Shortest.

Lemma digits_length_pow10_aux (k : nat) (n : Z) :
  1 <= n < 10 ^ Z.of_nat (S k) ->
  10 ^ (Z.of_nat (String.length (JS.digits 10 n)) - 1) <= n.
Proof.
  revert n. induction k as [|k IH]; intros n Hn.
  - change (10 ^ Z.of_nat 1) with 10 in Hn.
    rewrite digits_small by lia. simpl. lia.
  - destruct (Z_lt_le_dec n 10) as [Hs|Hb].
    + rewrite digits_small by lia. simpl. lia.
    + rewrite digits_big by lia. rewrite length_append. simpl String.length.
      assert (Hq : 1 <= n / 10 < 10 ^ Z.of_nat (S k)).
      { split; [apply Z.div_le_lower_bound; lia |].
        apply Z.div_lt_upper_bound; [lia |].
        rewrite (Nat2Z.inj_succ (S k)), Z.pow_succ_r in Hn by lia. lia. }
      specialize (IH _ Hq).
      pose proof (digits_nonempty 10 (n / 10) ltac:(lia) ltac:(lia)) as Hlen.
      replace (Z.of_nat (String.length (JS.digits 10 (n / 10)) + 1) - 1)
        with (Z.succ (Z.of_nat (String.length (JS.digits 10 (n / 10))) - 1)) by lia.
      rewrite Z.pow_succ_r by lia.
      pose proof (Z.mul_div_le n 10 ltac:(lia)). lia.
Qed.

(** A positive number is at least the power of ten that has as many
    digits. *)
Lemma digits_length_pow10 (n : Z) :
  1 <= n -> 10 ^ (Z.of_nat (String.length (JS.digits 10 n)) - 1) <= n.
Proof.
  intros Hn. apply (digits_length_pow10_aux (Z.to_nat n)).
  split; [assumption |].
  rewrite Nat2Z.inj_succ, Z2Nat.id by lia.
  apply (Z.lt_le_trans _ (10 ^ n)).
  - apply Z.pow_gt_lin_r; lia.
  - apply Z.pow_le_mono_r; lia.
Qed.

Lemma nearest_double_1e21 : JS.nearest_double (10 ^ 21) = 10 ^ 21.
Proof. vm_compute. reflexivity. Qed.

(** The multiples of [10^p] on either side of a number between 10^15 and
    10^21 that is not below [10^p]: both are at least 10^15, the upper one
    is at most 10^21. *)
Lemma decimal_neighbours (p x : Z) :
  10 ^ 15 <= x < 10 ^ 21 -> 0 <= p <= 20 -> 10 ^ p <= x ->
  10 ^ 15 <= x / 10 ^ p * 10 ^ p <= x /\ x / 10 ^ p * 10 ^ p + 10 ^ p <= 10 ^ 21.
Proof.
  intros Hx Hp Hpx.
  assert (Hcases : p = 0 \/ p = 1 \/ p = 2 \/ p = 3 \/ p = 4 \/ p = 5 \/ p = 6 \/ p = 7 \/
                   p = 8 \/ p = 9 \/ p = 10 \/ p = 11 \/ p = 12 \/ p = 13 \/ p = 14 \/
                   p = 15 \/ p = 16 \/ p = 17 \/ p = 18 \/ p = 19 \/ p = 20) by lia.
  repeat (destruct Hcases as [->|Hcases]; [cbn in *; Z.div_mod_to_equations; lia |]).
  subst p. cbn in *. Z.div_mod_to_equations. lia.
Qed.

Lemma shortest_fuel_bounds (fuel : nat) (p x : Z) :
  10 ^ 15 <= x < 10 ^ 21 -> p <= 20 -> (0 <= p -> 10 ^ p <= x) ->
  10 ^ 15 <= JS.shortest_fuel fuel p x < 10 ^ 21.
Proof.
  revert p. induction fuel as [|fuel IH]; intros p Hx Hp Hpx; [exact Hx |].
  cbn [JS.shortest_fuel]. cbv zeta.
  assert (Hrec : 10 ^ 15 <= JS.shortest_fuel fuel (p - 1) x < 10 ^ 21).
  { apply IH; [assumption | lia |]. intros Hp1. specialize (Hpx ltac:(lia)).
    assert (10 ^ (p - 1) <= 10 ^ p) by (apply Z.pow_le_mono_r; lia). lia. }
  destruct (Z_lt_le_dec p 0) as [Hneg|Hnn].
  - rewrite (Z.pow_neg_r 10 p Hneg), Z.div_0_r.
    change (0 * 0 + 0) with 0. change (0 * 0) with 0.
    change (JS.nearest_double 0) with 0.
    destruct (Z.eqb_spec 0 x); [lia |]. cbn [andb]. exact Hrec.
  - destruct (decimal_neighbours p x Hx ltac:(lia) (Hpx Hnn)) as [[Hlo Hlox] Hhi].
    set (lo := x / 10 ^ p * 10 ^ p) in *.
    assert (Hhi' : JS.nearest_double (lo + 10 ^ p) = x -> lo + 10 ^ p < 10 ^ 21).
    { intros Hn. destruct (Z.eq_dec (lo + 10 ^ p) (10 ^ 21)) as [E|]; [|lia].
      rewrite E, nearest_double_1e21 in Hn. lia. }
    destruct (Z.eqb_spec (JS.nearest_double lo) x);
      destruct (Z.eqb_spec (JS.nearest_double (lo + 10 ^ p)) x); cbn [andb];
      repeat match goal with |- context [if ?b then _ else _] => destruct b end;
      first [exact Hrec | specialize (Hhi' ltac:(assumption)); lia | lia].
Qed.

(** The shortest decimal of a number between 10^15 and 10^21 lies there
    too. *)
Lemma shortest_bounds (x : Z) :
  10 ^ 15 <= x < 10 ^ 21 -> 10 ^ 15 <= JS.shortest x < 10 ^ 21.
Proof.
  intros Hx. unfold JS.shortest. cbv zeta.
  destruct (digits_below_pow10 20 x ltac:(change (Z.of_nat 21) with 21; lia)) as [Hlen _].
  apply shortest_fuel_bounds; [assumption | lia |].
  intros _. apply digits_length_pow10. lia.
Qed.

End Shortest.

(** X3.  [padStart] never truncates: an amount that rounds to 10^15 or more
    (and is printed in decimal notation, that is below 10^21) makes its
    field longer than fifteen characters, so the fields that follow it in
    the hashed string start later. *)
Theorem amount_field_overflows (x : JS.number) (n : Z) :
  JS.Math_round x = JS.Integer n ->
  10 ^ 15 <= n < 10 ^ 21 ->
  (15 < String.length (JS.padStart 15 "0" (JS.toString (JS.Math_round x))))%nat.
Proof.
  intros -> Hn. unfold JS.toString, JS.toString_magnitude.
  destruct (Z.ltb_spec n 0); [lia |].
  assert (Hlong : forall v, 10 ^ 15 <= v ->
            (15 < String.length (JS.padStart 15 "0" (JS.digits 10 v)))%nat).
  { intros v Hv. pose proof (digits_from_pow10 15 v Hv) as Hge.
    rewrite length_padStart by apply length_digit_string, digits_all_digit. lia. }
  destruct (Z.ltb_spec n (2 ^ 53)); [apply Hlong; lia |].
  cbv zeta. destruct (shortest_bounds n Hn) as [Hlo Hhi].
  destruct (Z.ltb_spec (JS.shortest n) (10 ^ 21)); [apply Hlong; assumption | lia].
Qed.

Lemma amount_field_overflows_witness :
  (15 < String.length
          (JS.padStart 15 "0"
             (JS.toString (JS.Math_round (JS.Finite 1152921504606846976)))))%nat.
Proof.
  apply (amount_field_overflows (JS.Finite 1152921504606846976) 1152921504606846976).
  - reflexivity.
  - vm_compute. split; [discriminate | reflexivity].
Defined.

(** ** What [generateCUFE] reads *)

(** X4.  The CUFE depends on the invoice and the template only through the
    invoice id, the rounded total, the rounded tax, the two NITs without
    their dots and hyphens, and the effective technical key: the subtotal,
    the cents that rounding drops, the punctuation of the NITs and every
    other field leave it unchanged. *)
Theorem generateCUFE_reads_only_hashed_fields
    (tz : Z -> Z) (invoice1 invoice2 : Invoice) (template1 template2 : PDFTemplate)
    (t : Date.date) :
  inv_id invoice1 = inv_id invoice2 ->
  JS.Math_round (inv_total invoice1) = JS.Math_round (inv_total invoice2) ->
  JS.Math_round (inv_taxAmount invoice1) = JS.Math_round (inv_taxAmount invoice2) ->
  Cufe.remove_dots_hyphens (inv_clientNit invoice1)
    = Cufe.remove_dots_hyphens (inv_clientNit invoice2) ->
  Cufe.remove_dots_hyphens (nit (companyInfo template1))
    = Cufe.remove_dots_hyphens (nit (companyInfo template2)) ->
  or_default (technicalKey template1) Cufe.default_technical_key
    = or_default (technicalKey template2) Cufe.default_technical_key ->
  Cufe.generateCUFE tz invoice1 template1 t = Cufe.generateCUFE tz invoice2 template2 t.
Proof.
  intros Hid Htotal Htax Hclient Hemitter Hkey.
  destruct t as [t|]; [|reflexivity].
  unfold Cufe.generateCUFE, Cufe.datosParaCUFE. cbv zeta.
  rewrite Hid, Htotal, Htax, Hclient, Hemitter, Hkey. reflexivity.
Qed.

Lemma generateCUFE_reads_only_hashed_fields_witness :
  Cufe.generateCUFE Examples.bogota Examples.draft Examples.corporate
                    (Date.Valid Examples.new_year)
  = Cufe.generateCUFE Examples.bogota Examples.draft_rewritten Examples.corporate_empty_key
                      (Date.Valid Examples.new_year).
Proof.
  apply (generateCUFE_reads_only_hashed_fields Examples.bogota Examples.draft
           Examples.draft_rewritten Examples.corporate Examples.corporate_empty_key
           (Date.Valid Examples.new_year)); reflexivity.
Defined.

(** X5.  The hashed string has no separators, so the boundary between the
    emitter NIT, the code 31 and the client NIT is not recoverable: moving
    a leading 31 of the client NIT to the end of the emitter NIT gives the
    same CUFE. *)
Theorem generateCUFE_nit_boundary_is_ambiguous
    (tz : Z -> Z) (invoice1 invoice2 : Invoice) (template1 template2 : PDFTemplate)
    (t : Date.date) (emitter client : string) :
  inv_id invoice1 = inv_id invoice2 ->
  inv_total invoice1 = inv_total invoice2 ->
  inv_taxAmount invoice1 = inv_taxAmount invoice2 ->
  technicalKey template1 = technicalKey template2 ->
  Cufe.remove_final_digit (Cufe.remove_dots_hyphens (nit (companyInfo template1))) = emitter ->
  Cufe.remove_final_digit (Cufe.remove_dots_hyphens (inv_clientNit invoice1))
    = "31" +:+ client ->
  Cufe.remove_final_digit (Cufe.remove_dots_hyphens (nit (companyInfo template2)))
    = emitter +:+ "31" ->
  Cufe.remove_final_digit (Cufe.remove_dots_hyphens (inv_clientNit invoice2)) = client ->
  Cufe.generateCUFE tz invoice1 template1 t = Cufe.generateCUFE tz invoice2 template2 t.
Proof.
  intros Hid Htotal Htax Hkey He1 Hc1 He2 Hc2.
  destruct t as [t|]; [|reflexivity].
  unfold Cufe.generateCUFE, Cufe.datosParaCUFE. cbv zeta.
  rewrite Hid, Htotal, Htax, Hkey, He1, Hc1, He2, Hc2.
  do 4 f_equal.
  rewrite !join_empty_cons. do 10 f_equal.
  rewrite <- !append_assoc. reflexivity.
Qed.

Lemma generateCUFE_nit_boundary_is_ambiguous_witness :
  Cufe.generateCUFE Examples.bogota Examples.client_3145 Examples.emitter_900123
                    (Date.Valid Examples.new_year)
  = Cufe.generateCUFE Examples.bogota Examples.client_456 Examples.emitter_90012331
                      (Date.Valid Examples.new_year).
Proof.
  apply (generateCUFE_nit_boundary_is_ambiguous Examples.bogota Examples.client_3145
           Examples.client_456 Examples.emitter_900123 Examples.emitter_90012331
           (Date.Valid Examples.new_year) "900123" "456"); reflexivity.
Defined.

(** X6.  [isCUFEUnique] answers true exactly when no invoice of the list
    carries that CUFE; invoices without a CUFE never count against it. *)
Theorem isCUFEUnique_iff_no_invoice_carries_it (cufe : string) (existingInvoices : list Invoice) :
  Cufe.isCUFEUnique cufe existingInvoices = true
  <-> forall inv, In inv existingInvoices -> inv_cufe inv <> Some cufe.
Proof.
  unfold Cufe.isCUFEUnique. rewrite negb_true_iff.
  induction existingInvoices as [|inv l IH]; simpl.
  - split; [intros _ ? [] | reflexivity].
  - rewrite orb_false_iff, IH. split.
    + intros [Hinv Hl] x [<-|Hx]; [|now apply Hl].
      destruct (inv_cufe inv) as [c|]; [|discriminate].
      intros [= ->]. now rewrite String.eqb_refl in Hinv.
    + intros H. split; [|intros x Hx; apply H; now right].
      specialize (H inv (or_introl eq_refl)).
      destruct (inv_cufe inv) as [c|]; [|reflexivity].
      apply String.eqb_neq. congruence.
Qed.

(** ** The QR functions: failures and the shape of the payload *)

(** X7.  Whatever the library does, [generateInvoiceQR] and
    [generateInvoiceQRBuffer] end in one of three ways: with the message
    about the missing CUFE, exactly when the invoice's [cufe] is missing or
    empty; with the fixed message about the QR code, exactly when the
    [cufe] is there and the library rejected; with what the library
    rendered from their content, exactly when the [cufe] is there and the
    library rendered it.  An error raised by the library never reaches the
    caller. *)
Theorem generateInvoiceQR_outcomes
    (toLocaleTimeString : string -> string)
    (QRCode_toDataURL : string -> QR.QROptions -> JS.exn + string)
    (QRCode_toBuffer : string -> QR.QROptions -> JS.exn + list Z)
    (invoice : Invoice) (template : PDFTemplate) :
  let content := QR.generateInvoiceQR_content toLocaleTimeString invoice template in
  let url := fst (QR.generateInvoiceQR toLocaleTimeString QRCode_toDataURL invoice template) in
  let buf :=
    fst (QR.generateInvoiceQRBuffer toLocaleTimeString QRCode_toBuffer invoice template) in
  let missing := "La factura debe tener un CUFE generado antes de crear el QR" in
  let failed := "No se pudo generar el código QR de la factura" in
  let cufe_missing := inv_cufe invoice = None \/ inv_cufe invoice = Some "" in
  (url = inl missing <-> cufe_missing) /\
  (url = inl failed <->
   ~ cufe_missing /\ exists error, QRCode_toDataURL content QR.toDataURL_options = inl error) /\
  (forall rendered,
      url = inr rendered <->
      ~ cufe_missing /\ QRCode_toDataURL content QR.toDataURL_options = inr rendered) /\
  (buf = inl missing <-> cufe_missing) /\
  (buf = inl failed <->
   ~ cufe_missing /\ exists error, QRCode_toBuffer content QR.toBuffer_options = inl error) /\
  (forall rendered,
      buf = inr rendered <->
      ~ cufe_missing /\ QRCode_toBuffer content QR.toBuffer_options = inr rendered).
Proof.
  cbv zeta. unfold QR.generateInvoiceQR, QR.generateInvoiceQRBuffer.
  change (QR.generateInvoiceQRBuffer_content toLocaleTimeString invoice template)
    with (QR.generateInvoiceQR_content toLocaleTimeString invoice template).
  pose proof (truthy_false (inv_cufe invoice)) as Ht.
  destruct (truthy (inv_cufe invoice)); cbn [negb]; cbv zeta.
  - assert (Hn : ~ (inv_cufe invoice = None \/ inv_cufe invoice = Some ""))
      by (intros H; apply Ht in H; discriminate H).
    destruct (QRCode_toDataURL _ _) as [e1|r1], (QRCode_toBuffer _ _) as [e2|r2];
      cbn [fst]; unfold QR.render_failed_message;
      repeat split; try assumption; try discriminate; try congruence; eauto;
      try (intros [_ [e [=]]]); try (intros [_ [=]]); try congruence;
      try (intros H; contradiction).
  - assert (Hm : inv_cufe invoice = None \/ inv_cufe invoice = Some "")
      by (apply Ht; reflexivity).
    cbn [fst]. unfold QR.missing_cufe_message.
    repeat split; try assumption; try discriminate; try congruence;
      intros [H _]; contradiction.
Qed.

Section Lines.

Lemma all_chars_impl (p q : ascii -> bool) (s : string) :
  (forall c, p c = true -> q c = true) ->
  Spec.all_chars p s = true -> Spec.all_chars q s = true.
Proof.
  intros Hpq. induction s as [|c s IH]; simpl; [reflexivity |].
  rewrite andb_true_iff. intros [Hc Hs]. now rewrite (Hpq _ Hc), IH.
Qed.

Lemma digit_is_no_newline (c : ascii) :
  Cufe.is_digit c = true -> negb (Ascii.eqb c "010") = true.
Proof. destruct (Ascii.eqb_spec c "010") as [->|]; [discriminate | reflexivity]. Qed.

Lemma no_newline_append (a b : string) :
  Spec.no_newline (a +:+ b) = Spec.no_newline a && Spec.no_newline b.
Proof. apply all_chars_append. Qed.

Lemma split_no_newline (s : string) :
  Spec.no_newline s = true -> JS.split "010" s = [s].
Proof.
  induction s as [|c s IH]; [reflexivity |].
  unfold Spec.no_newline. cbn [Spec.all_chars JS.split].
  rewrite andb_true_iff, negb_true_iff. intros [Hc Hs].
  rewrite Hc, (IH Hs). reflexivity.
Qed.

Lemma split_line (s rest : string) :
  Spec.no_newline s = true ->
  JS.split "010" (s +:+ Spec.newline +:+ rest) = s :: JS.split "010" rest.
Proof.
  induction s as [|c s IH].
  - reflexivity.
  - unfold Spec.no_newline. cbn [Spec.all_chars].
    rewrite andb_true_iff, negb_true_iff. intros [Hc Hs].
    change (String c s +:+ Spec.newline +:+ rest)
      with (String c (s +:+ Spec.newline +:+ rest)).
    cbn [JS.split]. rewrite Hc, (IH Hs). reflexivity.
Qed.

(** Splitting at the line breaks undoes the joining of lines that have
    none. *)
Lemma split_joined_by_newlines (l : list string) :
  l <> [] -> Forall (fun s => Spec.no_newline s = true) l ->
  JS.split "010" (Spec.joined_by_newlines l) = l.
Proof.
  intros Hne Hl. induction Hl as [|x l Hx Hl IH]; [congruence |].
  destruct l as [|y l].
  - now apply split_no_newline.
  - change (Spec.joined_by_newlines (x :: y :: l))
      with (x +:+ Spec.newline +:+ Spec.joined_by_newlines (y :: l)).
    rewrite split_line by assumption. f_equal. apply IH. discriminate.
Qed.

Lemma digits_no_newline (n : Z) : Spec.no_newline (JS.digits 10 n) = true.
Proof. exact (all_chars_impl _ _ _ digit_is_no_newline (digits_all_digit n)). Qed.

Lemma two_decimals_no_newline (x : Q) : Spec.no_newline (Spec.two_decimals x) = true.
Proof.
  unfold Spec.two_decimals. cbv zeta.
  rewrite !no_newline_append, digits_no_newline.
  unfold Spec.no_newline. cbn [Spec.all_chars].
  rewrite !(digit_is_no_newline (JS.digit_char _))
    by (apply digit_char_is_digit, Z.mod_pos_bound; lia).
  destruct (Qlt_le_dec x 0); reflexivity.
Qed.

Lemma strip_trailing_zeros_all_chars (p : ascii -> bool) (s : string) :
  Spec.all_chars p s = true -> Spec.all_chars p (JS.strip_trailing_zeros s) = true.
Proof.
  induction s as [|c s IH]; [reflexivity |].
  cbn [Spec.all_chars JS.strip_trailing_zeros]. rewrite andb_true_iff. intros [Hc Hs].
  specialize (IH Hs).
  destruct (JS.strip_trailing_zeros s) as [|c' s'].
  - destruct (Ascii.eqb c "0"); [reflexivity |]. cbn [Spec.all_chars]. now rewrite Hc.
  - cbn [Spec.all_chars] in *. now rewrite Hc, IH.
Qed.

Lemma exponential_no_newline (v : Z) : Spec.no_newline (JS.exponential v) = true.
Proof.
  unfold JS.exponential. cbv zeta.
  pose proof (strip_trailing_zeros_all_chars _ _ (digits_no_newline v)) as Hs.
  destruct (JS.strip_trailing_zeros (JS.digits 10 v)) as [|d [|d' s]]; [reflexivity | |].
  - rewrite !no_newline_append, digits_no_newline.
    unfold Spec.no_newline. now rewrite Hs.
  - rewrite !no_newline_append, digits_no_newline.
    unfold Spec.no_newline in *. cbn [Spec.all_chars] in *.
    apply andb_true_iff in Hs as [-> ->]. reflexivity.
Qed.

Lemma toString_no_newline (x : JS.integral) : Spec.no_newline (JS.toString x) = true.
Proof.
  assert (Hm : forall m, Spec.no_newline (JS.toString_magnitude m) = true).
  { intros m. unfold JS.toString_magnitude. cbv zeta.
    destruct (m <? 2 ^ 53); [apply digits_no_newline |].
    destruct (JS.shortest m <? 10 ^ 21);
      [apply digits_no_newline | apply exponential_no_newline]. }
  destruct x as [n| | |]; try reflexivity.
  unfold JS.toString. destruct (n <? 0); [|apply Hm].
  rewrite no_newline_append, Hm. reflexivity.
Qed.

(** Whatever the number, [toFixed(2)] prints no line break. *)
Lemma toFixed_2_no_newline (x : JS.number) : Spec.no_newline (JS.toFixed 2 x) = true.
Proof.
  destruct x as [q| | |]; try reflexivity.
  destruct (Qlt_le_dec (Qabs q) (inject_Z (10 ^ 21))) as [Hlt|Hge].
  - rewrite toFixed_2_spec by assumption. apply two_decimals_no_newline.
  - unfold JS.toFixed. cbv zeta.
    destruct (Qlt_le_dec (Qabs q) (inject_Z (10 ^ 21))) as [Hlt|_];
      [exfalso; exact (Qlt_not_le _ _ Hlt Hge) |].
    rewrite no_newline_append, toString_no_newline.
    destruct (Qlt_le_dec q 0); reflexivity.
Qed.

End Lines.

(** X8.  When the invoice id, the issue date, the hour, the two NITs and the
    CUFE contain no line break, splitting the QR content at the line breaks
    gives exactly ten pieces, the first being the NumFac line, the fourth
    and fifth the two NIT lines and the tenth the CUFE line. *)
Theorem generateInvoiceQR_content_splits_into_ten_lines
    (toLocaleTimeString : string -> string)
    (invoice : Invoice) (template : PDFTemplate) (c : string) :
  inv_cufe invoice = Some c ->
  Spec.no_newline (inv_id invoice) = true ->
  Spec.no_newline (inv_issueDate invoice) = true ->
  Spec.no_newline (Spec.hour_text toLocaleTimeString invoice) = true ->
  Spec.no_newline (nit (companyInfo template)) = true ->
  Spec.no_newline (inv_clientNit invoice) = true ->
  Spec.no_newline c = true ->
  let pieces :=
    JS.split "010" (QR.generateInvoiceQR_content toLocaleTimeString invoice template) in
  length pieces = 10%nat /\
  pieces !! 0%nat = Some ("NumFac: " +:+ inv_id invoice) /\
  pieces !! 3%nat = Some ("NitFac: " +:+ nit (companyInfo template)) /\
  pieces !! 4%nat = Some ("DocAdq: " +:+ inv_clientNit invoice) /\
  pieces !! 9%nat = Some ("CUFE: " +:+ c).
Proof.
  intros Hc Hid Hdate Hhour Hnit Hclient Hcufe. cbv zeta.
  unfold QR.generateInvoiceQR_content.
  rewrite join_newline_spec, hour_text_spec, Hc. cbn [QR.interpolate].
  rewrite split_joined_by_newlines.
  - repeat split.
  - discriminate.
  - repeat (apply Forall_cons; split);
      try apply Forall_nil;
      rewrite ?no_newline_append, ?toFixed_2_no_newline, ?Hid, ?Hdate, ?Hhour, ?Hnit,
        ?Hclient, ?Hcufe; reflexivity.
Qed.

Lemma generateInvoiceQR_content_splits_into_ten_lines_witness :
  let pieces :=
    JS.split "010"
      (QR.generateInvoiceQR_content (fun _ => "19:00:00") Examples.emitted Examples.corporate) in
  length pieces = 10%nat /\
  pieces !! 0%nat = Some "NumFac: FE-0001" /\
  pieces !! 3%nat = Some "NitFac: 900123456" /\
  pieces !! 4%nat = Some "DocAdq: 800.123.456-7" /\
  pieces !! 9%nat = Some "CUFE: 133C5AE8".
Proof.
  apply (generateInvoiceQR_content_splits_into_ten_lines (fun _ => "19:00:00")
           Examples.emitted Examples.corporate "133C5AE8"); reflexivity.
Defined.

(** ** [emitInvoice]: the other paths *)

Section EmitInvoicePaths.

Import Emission.

Variable I : Imports.

Hypothesis keys_differ : STORAGE_KEYS_INVOICES I <> STORAGE_KEYS_SHIPMENTS I.
Hypothesis log_keeps_invoices :
  forall e ls, logPDFAction I e ls !! STORAGE_KEYS_INVOICES I = ls !! STORAGE_KEYS_INVOICES I.
Hypothesis log_keeps_shipments :
  forall e ls, logPDFAction I e ls !! STORAGE_KEYS_SHIPMENTS I = ls !! STORAGE_KEYS_SHIPMENTS I.

Lemma forEach_toast_warning (l : list string) (w : World) :
  forEach (fun warning => toast_warning "Advertencia" warning) l w
  = (inr tt,
     {| localStorage := localStorage w;
        toasts := toasts w ++
                  map (fun warning => {| toast_kind := ToastWarning;
                                         toast_title := "Advertencia";
                                         toast_description := warning |}) l;
        isEmitting := isEmitting w;
        validationErrors := validationErrors w;
        validationWarnings := validationWarnings w |}).
Proof.
  revert w. induction l as [|x l IH]; intros w.
  - cbn [forEach map]. unfold ret. rewrite app_nil_r. now destruct w.
  - cbn [forEach map]. unfold bind, toast_warning, modify at 1.
    rewrite IH. unfold add_toast.
    cbn [localStorage toasts isEmitting validationErrors validationWarnings].
    rewrite <- app_assoc. reflexivity.
Qed.

#[local] Opaque Cufe.generateCUFE.

Ltac world_simpl :=
  cbn [localStorage toasts isEmitting validationErrors validationWarnings
       setValidationWarnings setValidationErrors setIsEmitting set_localStorage add_toast
       success res_invoice res_errors res_warnings
       fmap option_fmap option_map map app].

Lemma length_zero_nil {A} (l : list A) : (0 <? length l)%nat = false -> l = [].
Proof. destruct l; [reflexivity | discriminate]. Qed.

(** The run of a draft that passes every check; the shipments are
    rewritten when a text that is not empty is stored for them. *)
Lemma emitInvoice_success_run (invoiceId : string) (now : Z) (w : World)
    (saved : string) (invoices : list Invoice) (invoice : Invoice) (template : PDFTemplate)
    (cufeData : Cufe.CUFEData) :
  localStorage w !! STORAGE_KEYS_INVOICES I = Some saved ->
  saved <> "" ->
  JSON_parse_invoices I saved = inr invoices ->
  find (fun inv => String.eqb (inv_id inv) invoiceId) invoices = Some invoice ->
  inv_status invoice = "Borrador" ->
  isValid (validateInvoiceForEmission I invoice) = true ->
  template_for (defaultTemplates I) invoice = Some template ->
  Cufe.generateCUFE (tz I) invoice template (Date.Valid now) = inr cufeData ->
  (forall savedShipments,
      localStorage w !! STORAGE_KEYS_SHIPMENTS I = Some savedShipments ->
      savedShipments <> "" ->
      exists shipments, JSON_parse_shipments I savedShipments = inr shipments) ->
  let fiscalFolio := generateFiscalFolio I invoices in
  let updated := updatedInvoice fiscalFolio cufeData invoice in
  let warnings := warnings (validateInvoiceForEmission I invoice) in
  exists w',
    emitInvoice I invoiceId now w
    = (inr {| success := true; res_invoice := Some updated;
              res_errors := None; res_warnings := Some warnings |}, w') /\
    localStorage w' !! STORAGE_KEYS_INVOICES I
    = Some (JSON_stringify_invoices I (updatedInvoices invoiceId updated invoices)) /\
    localStorage w' !! STORAGE_KEYS_SHIPMENTS I
    = (fun savedShipments =>
         if String.eqb savedShipments "" then ""
         else JSON_stringify_shipments I
                (updatedShipments invoice (Spec.parsed_shipments I savedShipments)))
      <$> localStorage w !! STORAGE_KEYS_SHIPMENTS I /\
    toasts w' = toasts w ++ Spec.success_toasts fiscalFolio warnings /\
    isEmitting w' = false /\
    validationErrors w' = [] /\
    validationWarnings w' = warnings.
Proof.
  intros Hsaved Hne Hparse Hfind Hstatus Hvalid Htemplate Hcufe Hshipments. cbv zeta.
  unfold emitInvoice. cbv zeta.
  unfold emitInvoice_try, bind, getItem, setItem, gets, lift, log, modify, throw, ret,
    toast_success.
  cbn [localStorage toasts isEmitting validationErrors validationWarnings
       setValidationWarnings setValidationErrors setIsEmitting set_localStorage add_toast].
  rewrite Hsaved. destruct saved as [|c0 saved0]; [congruence |].
  rewrite Hparse, Hfind, Hstatus. cbn [negb String.eqb Ascii.eqb Bool.eqb].
  rewrite Hvalid. cbn [negb].
  fold (template_for (defaultTemplates I) invoice). rewrite Htemplate, Hcufe.
  rewrite lookup_insert_ne by exact keys_differ.
  cbn [localStorage set_localStorage setValidationWarnings setValidationErrors setIsEmitting].
  rewrite log_keeps_shipments.
  unfold Spec.success_toasts, Spec.parsed_shipments.
  destruct (localStorage w !! STORAGE_KEYS_SHIPMENTS I) as [[|c1 savedShipments]|] eqn:Hshp.
  - destruct (0 <? length _)%nat eqn:Hw.
    + rewrite forEach_toast_warning.
      world_simpl.
      eexists. split; [reflexivity |].
      world_simpl.
      rewrite !log_keeps_invoices, !log_keeps_shipments.
      rewrite lookup_insert_eq, lookup_insert_ne by exact keys_differ.
      rewrite log_keeps_shipments, Hshp, <- app_assoc. repeat split.
    + apply length_zero_nil in Hw. rewrite Hw.
      eexists. split; [reflexivity |].
      world_simpl.
      rewrite !log_keeps_invoices, !log_keeps_shipments.
      rewrite lookup_insert_eq, lookup_insert_ne by exact keys_differ.
      rewrite log_keeps_shipments, Hshp. repeat split.
  - destruct (Hshipments _ eq_refl ltac:(discriminate)) as [shipments Hps].
    rewrite Hps.
    destruct (0 <? length _)%nat eqn:Hw.
    + rewrite forEach_toast_warning.
      world_simpl.
      eexists. split; [reflexivity |].
      world_simpl.
      rewrite !log_keeps_invoices, !log_keeps_shipments.
      rewrite lookup_insert_ne by (intros E; apply keys_differ; now symmetry).
      rewrite !lookup_insert_eq, <- app_assoc, Hps. repeat split.
    + apply length_zero_nil in Hw. rewrite Hw.
      eexists. split; [reflexivity |].
      world_simpl.
      rewrite !log_keeps_invoices, !log_keeps_shipments.
      rewrite lookup_insert_ne by (intros E; apply keys_differ; now symmetry).
      rewrite !lookup_insert_eq, Hps. repeat split.
  - destruct (0 <? length _)%nat eqn:Hw.
    + rewrite forEach_toast_warning.
      world_simpl.
      eexists. split; [reflexivity |].
      world_simpl.
      rewrite !log_keeps_invoices, !log_keeps_shipments.
      rewrite lookup_insert_eq, lookup_insert_ne by exact keys_differ.
      rewrite log_keeps_shipments, Hshp, <- app_assoc. repeat split.
    + apply length_zero_nil in Hw. rewrite Hw.
      eexists. split; [reflexivity |].
      world_simpl.
      rewrite !log_keeps_invoices, !log_keeps_shipments.
      rewrite lookup_insert_eq, lookup_insert_ne by exact keys_differ.
      rewrite log_keeps_shipments, Hshp. repeat split.
Qed.

(** With shipments that are stored as a text that is not empty, or not
    stored, the shipments key ends as the rewritten shipments. *)
Lemma rewritten_shipments (invoice : Invoice) (stored : option string) :
  (forall savedShipments, stored = Some savedShipments -> savedShipments <> "") ->
  (fun savedShipments =>
     if String.eqb savedShipments "" then ""
     else JSON_stringify_shipments I
            (updatedShipments invoice (Spec.parsed_shipments I savedShipments)))
  <$> stored
  = (fun savedShipments =>
       JSON_stringify_shipments I
         (updatedShipments invoice (Spec.parsed_shipments I savedShipments)))
    <$> stored.
Proof.
  intros Hne. destruct stored as [[|c s]|]; [|reflexivity..].
  now contradiction (Hne "" eq_refl).
Qed.

(** The run in which the stored shipments cannot be read back: the
    exception comes after the invoices were written. *)
Lemma emitInvoice_shipments_failure_run (invoiceId : string) (now : Z) (w : World)
    (saved : string) (invoices : list Invoice) (invoice : Invoice) (template : PDFTemplate)
    (cufeData : Cufe.CUFEData) (savedShipments : string) (message : JS.exn) :
  localStorage w !! STORAGE_KEYS_INVOICES I = Some saved ->
  saved <> "" ->
  JSON_parse_invoices I saved = inr invoices ->
  find (fun inv => String.eqb (inv_id inv) invoiceId) invoices = Some invoice ->
  inv_status invoice = "Borrador" ->
  isValid (validateInvoiceForEmission I invoice) = true ->
  template_for (defaultTemplates I) invoice = Some template ->
  Cufe.generateCUFE (tz I) invoice template (Date.Valid now) = inr cufeData ->
  localStorage w !! STORAGE_KEYS_SHIPMENTS I = Some savedShipments ->
  savedShipments <> "" ->
  JSON_parse_shipments I savedShipments = inl message ->
  let updated := updatedInvoice (generateFiscalFolio I invoices) cufeData invoice in
  exists w',
    emitInvoice I invoiceId now w
    = (inr {| success := false; res_invoice := None;
              res_errors := Some [message]; res_warnings := None |}, w') /\
    localStorage w' !! STORAGE_KEYS_INVOICES I
    = Some (JSON_stringify_invoices I (updatedInvoices invoiceId updated invoices)) /\
    localStorage w' !! STORAGE_KEYS_SHIPMENTS I = Some savedShipments /\
    toasts w' = toasts w ++ [ {| toast_kind := ToastError;
                                 toast_title := "Error al emitir factura";
                                 toast_description := message |} ] /\
    isEmitting w' = false.
Proof.
  intros Hsaved Hne Hparse Hfind Hstatus Hvalid Htemplate Hcufe Hshp Hnes Hps. cbv zeta.
  unfold emitInvoice. cbv zeta.
  unfold emitInvoice_try, bind, getItem, setItem, gets, lift, log, modify, throw, ret.
  world_simpl.
  rewrite Hsaved. destruct saved as [|c0 saved0]; [congruence |].
  rewrite Hparse, Hfind, Hstatus. cbn [negb String.eqb Ascii.eqb Bool.eqb].
  rewrite Hvalid. cbn [negb].
  fold (template_for (defaultTemplates I) invoice). rewrite Htemplate, Hcufe.
  rewrite lookup_insert_ne by exact keys_differ.
  world_simpl.
  rewrite log_keeps_shipments, Hshp.
  destruct savedShipments as [|c1 savedShipments0]; [congruence |].
  rewrite Hps.
  unfold emitInvoice_catch, bind, toast_error, log, modify, ret.
  eexists. split; [reflexivity |].
  world_simpl.
  rewrite !log_keeps_invoices, !log_keeps_shipments.
  rewrite lookup_insert_eq, lookup_insert_ne by exact keys_differ.
  rewrite log_keeps_shipments, Hshp. repeat split.
Qed.

(** The run that finds no readable list of invoices. *)
Lemma emitInvoice_unreadable_run (invoiceId : string) (now : Z) (w : World) (message : JS.exn) :
  (truthy (localStorage w !! STORAGE_KEYS_INVOICES I) = false /\
   message = "No se encontraron facturas") \/
  (exists saved, localStorage w !! STORAGE_KEYS_INVOICES I = Some saved /\
                 saved <> "" /\
                 JSON_parse_invoices I saved = inl message) ->
  exists w',
    emitInvoice I invoiceId now w
    = (inr {| success := false; res_invoice := None;
              res_errors := Some [message]; res_warnings := None |}, w') /\
    localStorage w' !! STORAGE_KEYS_INVOICES I = localStorage w !! STORAGE_KEYS_INVOICES I /\
    localStorage w' !! STORAGE_KEYS_SHIPMENTS I = localStorage w !! STORAGE_KEYS_SHIPMENTS I /\
    toasts w' = toasts w ++ [ {| toast_kind := ToastError;
                                 toast_title := "Error al emitir factura";
                                 toast_description := message |} ] /\
    isEmitting w' = false.
Proof.
  intros H.
  assert (Htry : forall w0, localStorage w0 = localStorage w ->
                            emitInvoice_try I invoiceId now w0 = (inl message, w0)).
  { intros w0 Hw0.
    unfold emitInvoice_try, bind, getItem, gets, lift, throw. rewrite Hw0.
    destruct H as [[Hfalsy ->]|[saved (-> & Hne & Hparse)]].
    - destruct (localStorage w !! STORAGE_KEYS_INVOICES I) as [[|c s]|];
        [reflexivity | discriminate Hfalsy | reflexivity].
    - destruct saved as [|c s]; [congruence |]. now rewrite Hparse. }
  unfold emitInvoice. cbv zeta. rewrite Htry by reflexivity.
  unfold emitInvoice_catch, bind, toast_error, log, modify, ret.
  eexists. split; [reflexivity |].
  world_simpl. rewrite log_keeps_invoices, log_keeps_shipments. repeat split.
Qed.

(** The run on an invoice that must not be emitted. *)
Lemma emitInvoice_blocked_run (invoiceId : string) (now : Z) (w : World)
    (saved : string) (invoices : list Invoice) :
  localStorage w !! STORAGE_KEYS_INVOICES I = Some saved ->
  JSON_parse_invoices I saved = inr invoices ->
  Spec.blocked I invoiceId invoices ->
  exists result w',
    emitInvoice I invoiceId now w = (inr result, w') /\
    success result = false /\
    res_errors result = Some (Spec.failure_messages I invoiceId invoices).
Proof.
  intros Hsaved Hparse Hblocked.
  unfold emitInvoice. cbv zeta.
  unfold emitInvoice_try, bind at 1 2, getItem, gets, lift.
  world_simpl. rewrite Hsaved.
  destruct saved as [|c0 saved0];
    [now contradiction (JSON_parse_invoices_empty I invoices) |].
  rewrite Hparse.
  unfold Spec.blocked in Hblocked. unfold Spec.failure_messages.
  destruct (find _ invoices) as [invoice|].
  - destruct (String.eqb_spec (inv_status invoice) "Borrador") as [Hs|Hs]; cbn [negb].
    + destruct Hblocked as [Hb|Hv]; [contradiction |].
      rewrite Hv, decide_True by assumption. cbn [negb].
      unfold bind, modify, toast_error, ret.
      eexists _, _. split; [reflexivity |]. split; reflexivity.
    + rewrite decide_False by assumption.
      unfold throw, emitInvoice_catch, bind, toast_error, log, modify, ret.
      eexists _, _. split; [reflexivity |]. split; reflexivity.
  - unfold throw, emitInvoice_catch, bind, toast_error, log, modify, ret.
    eexists _, _. split; [reflexivity |]. split; reflexivity.
Qed.

(** How the [try] block ends when it ends with a result: on a draft that
    failed the validation, with the errors and an error toast; or on a
    draft that passed it, after the CUFE was computed, with the emitted
    invoice and the success toast. *)
Lemma emitInvoice_try_inv (invoiceId : string) (now : Z) (w0 w1 : World)
    (result : EmissionResult) :
  emitInvoice_try I invoiceId now w0 = (inr result, w1) ->
  exists saved invoices invoice,
    localStorage w0 !! STORAGE_KEYS_INVOICES I = Some saved /\
    saved <> "" /\
    JSON_parse_invoices I saved = inr invoices /\
    find (fun inv => String.eqb (inv_id inv) invoiceId) invoices = Some invoice /\
    inv_status invoice = "Borrador" /\
    ((isValid (validateInvoiceForEmission I invoice) = false /\
      success result = false /\
      exists t, last (toasts w1) = Some t /\ toast_kind t = ToastError /\
                toast_title t = "Validación fallida")
     \/
     (isValid (validateInvoiceForEmission I invoice) = true /\
      success result = true /\
      (exists template cufeData,
          template_for (defaultTemplates I) invoice = Some template /\
          Cufe.generateCUFE (tz I) invoice template (Date.Valid now) = inr cufeData /\
          res_invoice result
          = Some (updatedInvoice (generateFiscalFolio I invoices) cufeData invoice)) /\
      exists t, last (toasts w1) = Some t /\ toast_kind t = ToastSuccess /\
                toast_title t = "Factura emitida exitosamente")).
Proof.
  intros Htry.
  unfold emitInvoice_try, bind, getItem, gets, lift, throw in Htry.
  destruct (localStorage w0 !! STORAGE_KEYS_INVOICES I) as [[|c0 saved0]|] eqn:Hsaved;
    [discriminate | | discriminate].
  destruct (JSON_parse_invoices I _) as [e|invoices] eqn:Hparse; [discriminate |].
  destruct (find _ invoices) as [invoice|] eqn:Hfind; [|discriminate].
  destruct (String.eqb_spec (inv_status invoice) "Borrador") as [Hstatus|];
    [|discriminate].
  cbn [negb] in Htry.
  exists (String c0 saved0), invoices, invoice.
  do 5 (split; [first [reflexivity | assumption | discriminate] |]).
  destruct (isValid (validateInvoiceForEmission I invoice)) eqn:Hvalid; cbn [negb] in Htry.
  2:{ left. unfold modify, toast_error, ret, modify in Htry.
      injection Htry as <- <-. split; [reflexivity |]. split; [reflexivity |].
      eexists. split; [apply last_snoc | split; reflexivity]. }
  right. split; [reflexivity |].
  unfold log, modify in Htry.
  fold (template_for (defaultTemplates I) invoice) in Htry.
  destruct (template_for (defaultTemplates I) invoice) as [template|] eqn:Htemplate;
    [|discriminate].
  destruct (Cufe.generateCUFE (tz I) invoice template (Date.Valid now))
    as [e|cufeData] eqn:Hcufe; [discriminate |].
  unfold setItem, modify, toast_success, ret in Htry.
  cbn [localStorage set_localStorage] in Htry.
  match type of Htry with
  | context [match ?x with Some _ => _ | None => _ end] =>
      destruct x as [[|c1 shipments]|]
  end;
    [ | destruct (JSON_parse_shipments I _); [discriminate |] | ];
    (destruct (0 <? _)%nat;
     [ unfold bind in Htry; rewrite forEach_toast_warning in Htry | ]);
    injection Htry as <- <-;
    (split; [reflexivity |]);
    (split; [exists template, cufeData; repeat split; assumption |]);
    eexists; (split; [apply last_snoc | split; reflexivity]).
Qed.

#[local] Transparent Cufe.generateCUFE.

(** What a successful result says about the run that produced it. *)
Lemma emitInvoice_success_inv (invoiceId : string) (now : Z) (w w' : World)
    (result : EmissionResult) :
  emitInvoice I invoiceId now w = (inr result, w') ->
  success result = true ->
  exists saved invoices invoice template cufeData,
    localStorage w !! STORAGE_KEYS_INVOICES I = Some saved /\
    saved <> "" /\
    JSON_parse_invoices I saved = inr invoices /\
    find (fun inv => String.eqb (inv_id inv) invoiceId) invoices = Some invoice /\
    inv_status invoice = "Borrador" /\
    isValid (validateInvoiceForEmission I invoice) = true /\
    template_for (defaultTemplates I) invoice = Some template /\
    Cufe.generateCUFE (tz I) invoice template (Date.Valid now) = inr cufeData /\
    res_invoice result
    = Some (updatedInvoice (generateFiscalFolio I invoices) cufeData invoice).
Proof.
  unfold emitInvoice. cbv zeta.
  set (w0 := setValidationWarnings [] _).
  assert (Hw0 : localStorage w0 = localStorage w) by reflexivity.
  destruct (emitInvoice_try I invoiceId now w0) as [[message|r] w1] eqn:Htry.
  - unfold emitInvoice_catch, bind, toast_error, log, modify, ret.
    intros [= <- _] Hs. discriminate Hs.
  - intros [= -> _] Hs.
    destruct (emitInvoice_try_inv _ _ _ _ _ Htry)
      as (saved & invoices & invoice & Hsaved & Hne & Hparse & Hfind & Hstatus & Hend).
    rewrite Hw0 in Hsaved.
    destruct Hend as [(_ & Hfail & _)|(Hvalid & _ & (template & cufeData & Ht & Hc & Hres) & _)];
      [congruence |].
    exists saved, invoices, invoice, template, cufeData. repeat split; assumption.
Qed.

(** A successful emission returns the stored draft under the id of the
    folio that [generateFiscalFolio] made from the stored list; every
    other outcome has [success = false]. *)
Lemma emitInvoice_emitted_id (invoiceId : string) (now : Z) (w w' : World)
    (result : EmissionResult) :
  emitInvoice I invoiceId now w = (inr result, w') ->
  success result = true ->
  exists saved invoices emitted,
    localStorage w !! STORAGE_KEYS_INVOICES I = Some saved /\
    JSON_parse_invoices I saved = inr invoices /\
    res_invoice result = Some emitted /\
    inv_id emitted = folio_id (generateFiscalFolio I invoices) /\
    inv_status emitted = "Emitida".
Proof.
  intros Hrun Hs.
  destruct (emitInvoice_success_inv _ _ _ _ _ Hrun Hs)
    as (saved & invoices & invoice & template & cufeData & Hsaved & _ & Hparse & _ & _ & _
        & _ & _ & Hres).
  exists saved, invoices. eexists.
  split; [exact Hsaved |]. split; [exact Hparse |]. split; [exact Hres |].
  split; reflexivity.
Qed.

End EmitInvoicePaths.

(** The CUFE of the sample draft at [new_year] on a host in Bogota. *)
Lemma draft_cufe_spec :
  Cufe.generateCUFE Examples.bogota Examples.draft Examples.corporate
                    (Date.Valid Examples.new_year)
  = inr Examples.draft_cufe.
Proof. vm_compute. reflexivity. Qed.

(** X9.  A stored draft that passes the validation, with a template to use
    and shipments that can be read (or none stored), is emitted (the stored
    texts are not empty: the code takes an empty text for none): the result
    carries the invoice with the folio's id, status Emitida, the CUFE and
    its timestamp; the stored list is rewritten with that invoice in the
    place of the draft, the stored shipments are rewritten, and the toasts
    are one warning per validation warning followed by the success. *)
Theorem emitInvoice_emits_valid_draft
    (I : Emission.Imports) (invoiceId : string) (now : Z) (w : Emission.World)
    (saved : string) (invoices : list Invoice) (invoice : Invoice) (template : PDFTemplate) :
  Emission.STORAGE_KEYS_INVOICES I <> Emission.STORAGE_KEYS_SHIPMENTS I ->
  (forall e ls, Emission.logPDFAction I e ls !! Emission.STORAGE_KEYS_INVOICES I
                = ls !! Emission.STORAGE_KEYS_INVOICES I) ->
  (forall e ls, Emission.logPDFAction I e ls !! Emission.STORAGE_KEYS_SHIPMENTS I
                = ls !! Emission.STORAGE_KEYS_SHIPMENTS I) ->
  Emission.localStorage w !! Emission.STORAGE_KEYS_INVOICES I = Some saved ->
  saved <> "" ->
  Emission.JSON_parse_invoices I saved = inr invoices ->
  find (fun inv => String.eqb (inv_id inv) invoiceId) invoices = Some invoice ->
  inv_status invoice = "Borrador" ->
  Emission.isValid (Emission.validateInvoiceForEmission I invoice) = true ->
  Emission.template_for (Emission.defaultTemplates I) invoice = Some template ->
  (forall savedShipments,
      Emission.localStorage w !! Emission.STORAGE_KEYS_SHIPMENTS I = Some savedShipments ->
      savedShipments <> "" /\
      exists shipments, Emission.JSON_parse_shipments I savedShipments = inr shipments) ->
  let fiscalFolio := Emission.generateFiscalFolio I invoices in
  let warnings := Emission.warnings (Emission.validateInvoiceForEmission I invoice) in
  exists cufeData w',
    Cufe.generateCUFE (Emission.tz I) invoice template (Date.Valid now) = inr cufeData /\
    let updated := Emission.updatedInvoice fiscalFolio cufeData invoice in
    Emission.emitInvoice I invoiceId now w
    = (inr {| Emission.success := true; Emission.res_invoice := Some updated;
              Emission.res_errors := None; Emission.res_warnings := Some warnings |}, w') /\
    Emission.localStorage w' !! Emission.STORAGE_KEYS_INVOICES I
    = Some (Emission.JSON_stringify_invoices I
              (Emission.updatedInvoices invoiceId updated invoices)) /\
    Emission.localStorage w' !! Emission.STORAGE_KEYS_SHIPMENTS I
    = (fun savedShipments =>
         Emission.JSON_stringify_shipments I
           (Emission.updatedShipments invoice (Spec.parsed_shipments I savedShipments)))
      <$> Emission.localStorage w !! Emission.STORAGE_KEYS_SHIPMENTS I /\
    Emission.toasts w' = Emission.toasts w ++ Spec.success_toasts fiscalFolio warnings /\
    Emission.isEmitting w' = false /\
    Emission.validationErrors w' = [] /\
    Emission.validationWarnings w' = warnings.
Proof.
  intros Hkeys Hli Hls Hsaved Hne Hparse Hfind Hstatus Hvalid Htemplate Hshipments.
  destruct (generateCUFE_returns (Emission.tz I) invoice template now) as [cufeData Hcufe].
  destruct (emitInvoice_success_run I Hkeys Hli Hls invoiceId now w saved invoices invoice
              template cufeData Hsaved Hne Hparse Hfind Hstatus Hvalid Htemplate Hcufe
              (fun s Hs _ => proj2 (Hshipments s Hs)))
    as (w' & Hrun & Hinvoices & Hshp & Hrest).
  rewrite rewritten_shipments in Hshp by (intros s Hs; exact (proj1 (Hshipments s Hs))).
  exists cufeData, w'. repeat split; solve [assumption | apply Hrest].
Qed.

Lemma emitInvoice_emits_valid_draft_witness :
  exists cufeData w',
    Cufe.generateCUFE Examples.bogota Examples.draft Examples.corporate
                      (Date.Valid Examples.new_year) = inr cufeData /\
    let updated :=
      Emission.updatedInvoice {| Emission.folio_id := "FE-3" |} cufeData Examples.draft in
    Emission.emitInvoice Examples.imports_with_shipments "FAC-2025-0001" Examples.new_year
                         Examples.world_with_shipments
    = (inr {| Emission.success := true; Emission.res_invoice := Some updated;
              Emission.res_errors := None; Emission.res_warnings := Some [] |}, w') /\
    Emission.localStorage w' !! "invoices" = Some "updated" /\
    Emission.localStorage w' !! "shipments" = Some "fleet, updated" /\
    Emission.toasts w'
    = [] ++ Spec.success_toasts {| Emission.folio_id := "FE-3" |} [] /\
    Emission.isEmitting w' = false /\
    Emission.validationErrors w' = [] /\
    Emission.validationWarnings w' = [].
Proof.
  apply (emitInvoice_emits_valid_draft Examples.imports_with_shipments "FAC-2025-0001"
           Examples.new_year Examples.world_with_shipments "stored" Examples.stored
           Examples.draft Examples.corporate).
  - discriminate.
  - intros e ls. apply lookup_insert_ne. discriminate.
  - intros e ls. apply lookup_insert_ne. discriminate.
  - reflexivity.
  - discriminate.
  - reflexivity.
  - reflexivity.
  - reflexivity.
  - reflexivity.
  - reflexivity.
  - intros savedShipments [= <-]. split; [discriminate |].
    exists Examples.fleet. reflexivity.
Defined.

Lemma prefix_append (a b : string) : String.prefix a (a +:+ b) = true.
Proof.
  induction a as [|c a IH]; simpl; [now destruct b |].
  destruct (ascii_dec c c) as [_|Hne]; [exact IH | congruence].
Qed.

(** X10.  Whenever [emitInvoice] reports success, the CUFE of the emitted
    invoice is the one computed on the stored draft: it is the digest of a
    string that starts with the id under which the emission was asked,
    while the emitted invoice carries the folio's id. *)
Theorem emitInvoice_cufe_is_hashed_from_the_draft
    (I : Emission.Imports) (invoiceId : string) (now : Z) (w w' : Emission.World)
    (result : Emission.EmissionResult) :
  Emission.emitInvoice I invoiceId now w = (inr result, w') ->
  Emission.success result = true ->
  exists saved invoices draft template emitted,
    Emission.localStorage w !! Emission.STORAGE_KEYS_INVOICES I = Some saved /\
    Emission.JSON_parse_invoices I saved = inr invoices /\
    find (fun inv => String.eqb (inv_id inv) invoiceId) invoices = Some draft /\
    Emission.res_invoice result = Some emitted /\
    inv_id draft = invoiceId /\
    inv_id emitted = Emission.folio_id (Emission.generateFiscalFolio I invoices) /\
    inv_cufe emitted
    = Some (Spec.hex (SHA384.digest
                        (JS.encode (Cufe.datosParaCUFE (Emission.tz I) draft template now)))) /\
    String.prefix invoiceId (Cufe.datosParaCUFE (Emission.tz I) draft template now) = true /\
    inv_emissionTimestamp emitted = Some (Date.toISOString now) /\
    inv_status emitted = "Emitida" /\
    inv_pdfGeneratedAt emitted = None.
Proof.
  intros Hrun Hs.
  destruct (emitInvoice_success_inv I _ _ _ _ _ Hrun Hs)
    as (saved & invoices & draft & template & cufeData & Hsaved & _ & Hparse & Hfind & _ & _
        & _ & Hcufe & Hres).
  rewrite generateCUFE_Valid in Hcufe. injection Hcufe as <-.
  exists saved, invoices, draft, template. eexists.
  split; [exact Hsaved |]. split; [exact Hparse |]. split; [exact Hfind |].
  split; [exact Hres |].
  apply find_some in Hfind as [_ Hid]. apply String.eqb_eq in Hid.
  repeat split; try assumption.
  unfold Cufe.datosParaCUFE. cbv zeta. rewrite join_empty_cons, Hid. apply prefix_append.
Qed.

Lemma emitInvoice_cufe_is_hashed_from_the_draft_witness :
  exists saved invoices draft template emitted,
    Emission.localStorage Examples.world_with_empty_shipments !! "invoices" = Some saved /\
    Emission.JSON_parse_invoices Examples.imports_with_shipments saved = inr invoices /\
    find (fun inv => String.eqb (inv_id inv) "FAC-2025-0001") invoices = Some draft /\
    Some Examples.draft_emitted = Some emitted /\
    inv_id draft = "FAC-2025-0001" /\
    inv_id emitted
    = Emission.folio_id (Emission.generateFiscalFolio Examples.imports_with_shipments invoices) /\
    inv_cufe emitted
    = Some (Spec.hex (SHA384.digest
                        (JS.encode (Cufe.datosParaCUFE Examples.bogota draft template
                                      Examples.new_year)))) /\
    String.prefix "FAC-2025-0001"
      (Cufe.datosParaCUFE Examples.bogota draft template Examples.new_year) = true /\
    inv_emissionTimestamp emitted = Some (Date.toISOString Examples.new_year) /\
    inv_status emitted = "Emitida" /\
    inv_pdfGeneratedAt emitted = None.
Proof.
  apply (emitInvoice_cufe_is_hashed_from_the_draft Examples.imports_with_shipments
           "FAC-2025-0001" Examples.new_year Examples.world_with_empty_shipments
           (snd (Emission.emitInvoice Examples.imports_with_shipments "FAC-2025-0001"
                   Examples.new_year Examples.world_with_empty_shipments))
           {| Emission.success := true; Emission.res_invoice := Some Examples.draft_emitted;
              Emission.res_errors := None; Emission.res_warnings := Some [] |}).
  - vm_compute. reflexivity.
  - reflexivity.
Defined.

(** X11.  The invoices are written before the shipments are read: when the
    stored shipments (a text that is not empty) cannot be parsed, the
    emission is reported as failed
    with the parser's message, yet the stored list already holds the
    invoice as emitted; the stored shipments are untouched. *)
Theorem emitInvoice_keeps_the_emitted_invoice_when_shipments_fail
    (I : Emission.Imports) (invoiceId : string) (now : Z) (w : Emission.World)
    (saved : string) (invoices : list Invoice) (invoice : Invoice) (template : PDFTemplate)
    (savedShipments : string) (message : JS.exn) :
  Emission.STORAGE_KEYS_INVOICES I <> Emission.STORAGE_KEYS_SHIPMENTS I ->
  (forall e ls, Emission.logPDFAction I e ls !! Emission.STORAGE_KEYS_INVOICES I
                = ls !! Emission.STORAGE_KEYS_INVOICES I) ->
  (forall e ls, Emission.logPDFAction I e ls !! Emission.STORAGE_KEYS_SHIPMENTS I
                = ls !! Emission.STORAGE_KEYS_SHIPMENTS I) ->
  Emission.localStorage w !! Emission.STORAGE_KEYS_INVOICES I = Some saved ->
  saved <> "" ->
  Emission.JSON_parse_invoices I saved = inr invoices ->
  find (fun inv => String.eqb (inv_id inv) invoiceId) invoices = Some invoice ->
  inv_status invoice = "Borrador" ->
  Emission.isValid (Emission.validateInvoiceForEmission I invoice) = true ->
  Emission.template_for (Emission.defaultTemplates I) invoice = Some template ->
  Emission.localStorage w !! Emission.STORAGE_KEYS_SHIPMENTS I = Some savedShipments ->
  savedShipments <> "" ->
  Emission.JSON_parse_shipments I savedShipments = inl message ->
  exists cufeData w',
    Cufe.generateCUFE (Emission.tz I) invoice template (Date.Valid now) = inr cufeData /\
    let updated :=
      Emission.updatedInvoice (Emission.generateFiscalFolio I invoices) cufeData invoice in
    Emission.emitInvoice I invoiceId now w
    = (inr {| Emission.success := false; Emission.res_invoice := None;
              Emission.res_errors := Some [message]; Emission.res_warnings := None |}, w') /\
    Emission.localStorage w' !! Emission.STORAGE_KEYS_INVOICES I
    = Some (Emission.JSON_stringify_invoices I
              (Emission.updatedInvoices invoiceId updated invoices)) /\
    Emission.localStorage w' !! Emission.STORAGE_KEYS_SHIPMENTS I = Some savedShipments /\
    Emission.toasts w'
    = Emission.toasts w ++ [ {| Emission.toast_kind := Emission.ToastError;
                                Emission.toast_title := "Error al emitir factura";
                                Emission.toast_description := message |} ] /\
    Emission.isEmitting w' = false.
Proof.
  intros Hkeys Hli Hls Hsaved Hne Hparse Hfind Hstatus Hvalid Htemplate Hshp Hnes Hps.
  destruct (generateCUFE_returns (Emission.tz I) invoice template now) as [cufeData Hcufe].
  destruct (emitInvoice_shipments_failure_run I Hkeys Hli Hls invoiceId now w saved invoices
              invoice template cufeData savedShipments message Hsaved Hne Hparse Hfind
              Hstatus Hvalid Htemplate Hcufe Hshp Hnes Hps) as [w' Hrun].
  exists cufeData, w'. split; [exact Hcufe | exact Hrun].
Qed.

Lemma emitInvoice_keeps_the_emitted_invoice_when_shipments_fail_witness :
  exists cufeData w',
    Cufe.generateCUFE Examples.bogota Examples.draft Examples.corporate
                      (Date.Valid Examples.new_year) = inr cufeData /\
    let updated :=
      Emission.updatedInvoice
        (Emission.generateFiscalFolio Examples.imports_with_shipments Examples.stored)
        cufeData Examples.draft in
    Emission.emitInvoice Examples.imports_with_shipments "FAC-2025-0001" Examples.new_year
                         Examples.world_with_broken_shipments
    = (inr {| Emission.success := false; Emission.res_invoice := None;
              Emission.res_errors := Some ["Unexpected end of JSON input"];
              Emission.res_warnings := None |}, w') /\
    Emission.localStorage w' !! "invoices" = Some "updated" /\
    Emission.localStorage w' !! "shipments" = Some "[{" /\
    Emission.toasts w'
    = [] ++ [ {| Emission.toast_kind := Emission.ToastError;
                 Emission.toast_title := "Error al emitir factura";
                 Emission.toast_description := "Unexpected end of JSON input" |} ] /\
    Emission.isEmitting w' = false.
Proof.
  apply (emitInvoice_keeps_the_emitted_invoice_when_shipments_fail
           Examples.imports_with_shipments "FAC-2025-0001" Examples.new_year
           Examples.world_with_broken_shipments "stored" Examples.stored
           Examples.draft Examples.corporate "[{" "Unexpected end of JSON input").
  - discriminate.
  - intros e ls. apply lookup_insert_ne. discriminate.
  - intros e ls. apply lookup_insert_ne. discriminate.
  - reflexivity.
  - discriminate.
  - reflexivity.
  - reflexivity.
  - reflexivity.
  - reflexivity.
  - reflexivity.
  - reflexivity.
  - discriminate.
  - reflexivity.
Defined.

(** X12.  Without a stored list of invoices, or with a stored text (not
    empty) that cannot be parsed, the emission fails with the message of that error ('No se
    encontraron facturas', or the parser's), shows it in an error toast and
    leaves the stored invoices and shipments as they were. *)
Theorem emitInvoice_without_readable_invoices
    (I : Emission.Imports) (invoiceId : string) (now : Z) (w : Emission.World)
    (message : JS.exn) :
  (forall e ls, Emission.logPDFAction I e ls !! Emission.STORAGE_KEYS_INVOICES I
                = ls !! Emission.STORAGE_KEYS_INVOICES I) ->
  (forall e ls, Emission.logPDFAction I e ls !! Emission.STORAGE_KEYS_SHIPMENTS I
                = ls !! Emission.STORAGE_KEYS_SHIPMENTS I) ->
  (Emission.localStorage w !! Emission.STORAGE_KEYS_INVOICES I = None /\
   message = "No se encontraron facturas") \/
  (exists saved,
      Emission.localStorage w !! Emission.STORAGE_KEYS_INVOICES I = Some saved /\
      saved <> "" /\
      Emission.JSON_parse_invoices I saved = inl message) ->
  exists w',
    Emission.emitInvoice I invoiceId now w
    = (inr {| Emission.success := false; Emission.res_invoice := None;
              Emission.res_errors := Some [message]; Emission.res_warnings := None |}, w') /\
    Emission.localStorage w' !! Emission.STORAGE_KEYS_INVOICES I
    = Emission.localStorage w !! Emission.STORAGE_KEYS_INVOICES I /\
    Emission.localStorage w' !! Emission.STORAGE_KEYS_SHIPMENTS I
    = Emission.localStorage w !! Emission.STORAGE_KEYS_SHIPMENTS I /\
    Emission.toasts w'
    = Emission.toasts w ++ [ {| Emission.toast_kind := Emission.ToastError;
                                Emission.toast_title := "Error al emitir factura";
                                Emission.toast_description := message |} ] /\
    Emission.isEmitting w' = false.
Proof.
  intros Hli Hls H. apply emitInvoice_unreadable_run; try assumption.
  destruct H as [[Hnone ->]|H]; [left | now right].
  split; [now rewrite Hnone | reflexivity].
Qed.

Lemma emitInvoice_without_readable_invoices_witness :
  exists w',
    Emission.emitInvoice Examples.imports_with_shipments "FAC-2025-0001" Examples.new_year
                         Examples.world_without_invoices
    = (inr {| Emission.success := false; Emission.res_invoice := None;
              Emission.res_errors := Some ["No se encontraron facturas"];
              Emission.res_warnings := None |}, w') /\
    Emission.localStorage w' !! "invoices" = None /\
    Emission.localStorage w' !! "shipments" = Some "fleet" /\
    Emission.toasts w'
    = [] ++ [ {| Emission.toast_kind := Emission.ToastError;
                 Emission.toast_title := "Error al emitir factura";
                 Emission.toast_description := "No se encontraron facturas" |} ] /\
    Emission.isEmitting w' = false.
Proof.
  apply (emitInvoice_without_readable_invoices Examples.imports_with_shipments
           "FAC-2025-0001" Examples.new_year Examples.world_without_invoices
           "No se encontraron facturas").
  - intros e ls. apply lookup_insert_ne. discriminate.
  - intros e ls. apply lookup_insert_ne. discriminate.
  - left. split; reflexivity.
Defined.

(** X13.  Whenever [emitInvoice] returns a result, [isEmitting] is back to
    false, at least one toast has been shown, and the last toast tells the
    outcome: the toast 'Factura emitida exitosamente' when the result says
    success, an error toast ('Validación fallida' or 'Error al emitir
    factura') when it does not. *)
Theorem emitInvoice_reports_its_outcome
    (I : Emission.Imports) (invoiceId : string) (now : Z) (w w' : Emission.World)
    (result : Emission.EmissionResult) :
  Emission.emitInvoice I invoiceId now w = (inr result, w') ->
  Emission.isEmitting w' = false /\
  exists t,
    last (Emission.toasts w') = Some t /\
    if Emission.success result
    then Emission.toast_kind t = Emission.ToastSuccess /\
         Emission.toast_title t = "Factura emitida exitosamente"
    else Emission.toast_kind t = Emission.ToastError /\
         (Emission.toast_title t = "Validación fallida" \/
          Emission.toast_title t = "Error al emitir factura").
Proof.
  unfold Emission.emitInvoice. cbv zeta.
  destruct (Emission.emitInvoice_try I invoiceId now _) as [[message|r] w1] eqn:Htry.
  - unfold Emission.emitInvoice_catch, Emission.bind, Emission.toast_error, Emission.log,
      Emission.modify, Emission.ret.
    intros [= <- <-]. split; [reflexivity |].
    eexists. split; [apply last_snoc |]. cbn. auto.
  - intros [= -> <-]. split; [reflexivity |].
    destruct (emitInvoice_try_inv I _ _ _ _ _ Htry)
      as (_ & _ & _ & _ & _ & _ & _ & _
          & [(_ & -> & t & Ht & Hk & Htitle)|(_ & -> & _ & t & Ht & Hk & Htitle)]);
      exists t; auto.
Qed.

Lemma emitInvoice_reports_its_outcome_witness :
  Emission.isEmitting
    (snd (Emission.emitInvoice Examples.imports_with_shipments "FAC-2025-0001"
            Examples.new_year Examples.world_with_shipments)) = false /\
  exists t,
    last (Emission.toasts
            (snd (Emission.emitInvoice Examples.imports_with_shipments "FAC-2025-0001"
                    Examples.new_year Examples.world_with_shipments))) = Some t /\
    Emission.toast_kind t = Emission.ToastSuccess /\
    Emission.toast_title t = "Factura emitida exitosamente".
Proof.
  apply (emitInvoice_reports_its_outcome Examples.imports_with_shipments "FAC-2025-0001"
           Examples.new_year Examples.world_with_shipments
           (snd (Emission.emitInvoice Examples.imports_with_shipments "FAC-2025-0001"
                   Examples.new_year Examples.world_with_shipments))
           {| Emission.success := true; Emission.res_invoice := Some Examples.draft_emitted;
              Emission.res_errors := None; Emission.res_warnings := Some [] |}).
  vm_compute. reflexivity.
Defined.

Lemma find_updatedInvoices (invoiceId : string) (updated : Invoice)
    (invoices : list Invoice) (found : Invoice) :
  find (fun inv => String.eqb (inv_id inv) invoiceId)
       (Emission.updatedInvoices invoiceId updated invoices) = Some found ->
  found = updated.
Proof.
  unfold Emission.updatedInvoices.
  induction invoices as [|x l IH]; [discriminate |].
  cbn [map find].
  destruct (String.eqb (inv_id x) invoiceId) eqn:Hx.
  - destruct (String.eqb (inv_id updated) invoiceId); [congruence | exact IH].
  - rewrite Hx. exact IH.
Qed.

(** X14.  An invoice is emitted once: when the list written by a successful
    emission (a text that is not empty) is read back as it was written,
    asking again for the same id
    fails, with 'Factura no encontrada' or with the message about the
    status, whatever the folio generator answers. *)
Theorem emitInvoice_cannot_emit_twice
    (I : Emission.Imports) (invoiceId : string) (now later : Z) (w : Emission.World)
    (saved : string) (invoices : list Invoice) (invoice : Invoice) (template : PDFTemplate) :
  Emission.STORAGE_KEYS_INVOICES I <> Emission.STORAGE_KEYS_SHIPMENTS I ->
  (forall e ls, Emission.logPDFAction I e ls !! Emission.STORAGE_KEYS_INVOICES I
                = ls !! Emission.STORAGE_KEYS_INVOICES I) ->
  (forall e ls, Emission.logPDFAction I e ls !! Emission.STORAGE_KEYS_SHIPMENTS I
                = ls !! Emission.STORAGE_KEYS_SHIPMENTS I) ->
  Emission.localStorage w !! Emission.STORAGE_KEYS_INVOICES I = Some saved ->
  saved <> "" ->
  Emission.JSON_parse_invoices I saved = inr invoices ->
  find (fun inv => String.eqb (inv_id inv) invoiceId) invoices = Some invoice ->
  inv_status invoice = "Borrador" ->
  Emission.isValid (Emission.validateInvoiceForEmission I invoice) = true ->
  Emission.template_for (Emission.defaultTemplates I) invoice = Some template ->
  (forall savedShipments,
      Emission.localStorage w !! Emission.STORAGE_KEYS_SHIPMENTS I = Some savedShipments ->
      savedShipments <> "" /\
      exists shipments, Emission.JSON_parse_shipments I savedShipments = inr shipments) ->
  (forall cufeData,
      Cufe.generateCUFE (Emission.tz I) invoice template (Date.Valid now) = inr cufeData ->
      let written :=
        Emission.updatedInvoices invoiceId
          (Emission.updatedInvoice (Emission.generateFiscalFolio I invoices) cufeData invoice)
          invoices in
      Emission.JSON_stringify_invoices I written <> "" /\
      Emission.JSON_parse_invoices I (Emission.JSON_stringify_invoices I written)
      = inr written) ->
  exists first again w2,
    fst (Emission.emitInvoice I invoiceId now w) = inr first /\
    Emission.success first = true /\
    Emission.emitInvoice I invoiceId later (snd (Emission.emitInvoice I invoiceId now w))
    = (inr again, w2) /\
    Emission.success again = false /\
    (Emission.res_errors again = Some ["Factura no encontrada"] \/
     Emission.res_errors again = Some [Emission.status_message]).
Proof.
  intros Hkeys Hli Hls Hsaved Hne Hparse Hfind Hstatus Hvalid Htemplate Hshipments Hread.
  destruct (generateCUFE_returns (Emission.tz I) invoice template now) as [cufeData Hcufe].
  destruct (Hread cufeData Hcufe) as [_ Hback].
  destruct (emitInvoice_success_run I Hkeys Hli Hls invoiceId now w saved invoices invoice
              template cufeData Hsaved Hne Hparse Hfind Hstatus Hvalid Htemplate Hcufe
              (fun s Hs _ => proj2 (Hshipments s Hs)))
    as (w1 & Hrun & Hwritten & _).
  rewrite Hrun. cbn [fst snd].
  assert (Hblocked : Spec.blocked I invoiceId
            (Emission.updatedInvoices invoiceId
               (Emission.updatedInvoice (Emission.generateFiscalFolio I invoices)
                  cufeData invoice)
               invoices)).
  { unfold Spec.blocked.
    destruct (find _ (Emission.updatedInvoices _ _ _)) as [found|] eqn:Hf; [|exact Logic.I].
    apply find_updatedInvoices in Hf. subst found. left. discriminate. }
  destruct (emitInvoice_blocked_run I invoiceId later w1 _ _ Hwritten Hback Hblocked)
    as (again & w2 & Hagain & Hfail & Herrors).
  eexists _, again, w2. split; [reflexivity |]. split; [reflexivity |].
  split; [exact Hagain |]. split; [exact Hfail |].
  rewrite Herrors. unfold Spec.failure_messages.
  destruct (find _ (Emission.updatedInvoices _ _ _)) as [found|] eqn:Hf; [|now left].
  apply find_updatedInvoices in Hf. subst found.
  right. reflexivity.
Qed.

Lemma emitInvoice_cannot_emit_twice_witness :
  exists first again w2,
    fst (Emission.emitInvoice Examples.imports_with_shipments "FAC-2025-0001"
           Examples.new_year Examples.world_with_shipments) = inr first /\
    Emission.success first = true /\
    Emission.emitInvoice Examples.imports_with_shipments "FAC-2025-0001"
      (Examples.new_year + 60000)
      (snd (Emission.emitInvoice Examples.imports_with_shipments "FAC-2025-0001"
              Examples.new_year Examples.world_with_shipments))
    = (inr again, w2) /\
    Emission.success again = false /\
    (Emission.res_errors again = Some ["Factura no encontrada"] \/
     Emission.res_errors again = Some [Emission.status_message]).
Proof.
  apply (emitInvoice_cannot_emit_twice Examples.imports_with_shipments "FAC-2025-0001"
           Examples.new_year (Examples.new_year + 60000) Examples.world_with_shipments
           "stored" Examples.stored Examples.draft Examples.corporate).
  - discriminate.
  - intros e ls. apply lookup_insert_ne. discriminate.
  - intros e ls. apply lookup_insert_ne. discriminate.
  - reflexivity.
  - discriminate.
  - reflexivity.
  - reflexivity.
  - reflexivity.
  - reflexivity.
  - reflexivity.
  - intros savedShipments [= <-]. split; [discriminate |].
    exists Examples.fleet. reflexivity.
  - intros cufeData Hcufe.
    change (Emission.tz Examples.imports_with_shipments) with Examples.bogota in Hcufe.
    rewrite draft_cufe_spec in Hcufe. injection Hcufe as <-.
    split; [discriminate | reflexivity].
Defined.

(** X21.  An empty stored text counts as no stored text.  With the empty
    text under the invoices key the emission fails with 'No se encontraron
    facturas', whatever the parser would say, and the text stays as it was.
    With the empty text under the shipments key a valid draft is emitted as
    if no shipments were stored: the parser is not asked, the success is
    reported and the empty text stays as it was. *)
Theorem emitInvoice_takes_empty_text_for_none
    (I : Emission.Imports) (invoiceId : string) (now : Z) :
  Emission.STORAGE_KEYS_INVOICES I <> Emission.STORAGE_KEYS_SHIPMENTS I ->
  (forall e ls, Emission.logPDFAction I e ls !! Emission.STORAGE_KEYS_INVOICES I
                = ls !! Emission.STORAGE_KEYS_INVOICES I) ->
  (forall e ls, Emission.logPDFAction I e ls !! Emission.STORAGE_KEYS_SHIPMENTS I
                = ls !! Emission.STORAGE_KEYS_SHIPMENTS I) ->
  (forall w,
      Emission.localStorage w !! Emission.STORAGE_KEYS_INVOICES I = Some "" ->
      exists w',
        Emission.emitInvoice I invoiceId now w
        = (inr {| Emission.success := false; Emission.res_invoice := None;
                  Emission.res_errors := Some ["No se encontraron facturas"];
                  Emission.res_warnings := None |}, w') /\
        Emission.localStorage w' !! Emission.STORAGE_KEYS_INVOICES I = Some "" /\
        Emission.toasts w'
        = Emission.toasts w
          ++ [ {| Emission.toast_kind := Emission.ToastError;
                  Emission.toast_title := "Error al emitir factura";
                  Emission.toast_description := "No se encontraron facturas" |} ])
  /\
  (forall w saved invoices invoice template,
      Emission.localStorage w !! Emission.STORAGE_KEYS_INVOICES I = Some saved ->
      saved <> "" ->
      Emission.JSON_parse_invoices I saved = inr invoices ->
      find (fun inv => String.eqb (inv_id inv) invoiceId) invoices = Some invoice ->
      inv_status invoice = "Borrador" ->
      Emission.isValid (Emission.validateInvoiceForEmission I invoice) = true ->
      Emission.template_for (Emission.defaultTemplates I) invoice = Some template ->
      Emission.localStorage w !! Emission.STORAGE_KEYS_SHIPMENTS I = Some "" ->
      exists result w',
        Emission.emitInvoice I invoiceId now w = (inr result, w') /\
        Emission.success result = true /\
        Emission.localStorage w' !! Emission.STORAGE_KEYS_SHIPMENTS I = Some "" /\
        Emission.toasts w'
        = Emission.toasts w
          ++ Spec.success_toasts (Emission.generateFiscalFolio I invoices)
               (Emission.warnings (Emission.validateInvoiceForEmission I invoice))).
Proof.
  intros Hkeys Hli Hls. split.
  - intros w Hempty.
    destruct (emitInvoice_unreadable_run I Hli Hls invoiceId now w
                "No se encontraron facturas") as (w' & Hrun & Hinv & _ & Htoasts & _).
    { left. rewrite Hempty. split; reflexivity. }
    exists w'. rewrite Hinv, Hempty. repeat split; assumption.
  - intros w saved invoices invoice template Hsaved Hne Hparse Hfind Hstatus Hvalid
      Htemplate Hshp.
    destruct (generateCUFE_returns (Emission.tz I) invoice template now) as [cufeData Hcufe].
    destruct (emitInvoice_success_run I Hkeys Hli Hls invoiceId now w saved invoices invoice
                template cufeData Hsaved Hne Hparse Hfind Hstatus Hvalid Htemplate Hcufe)
      as (w' & Hrun & _ & Hshp' & Htoasts & _).
    { intros s Hs Hnes. rewrite Hshp in Hs. congruence. }
    rewrite Hshp in Hshp'.
    eexists _, w'. split; [exact Hrun |]. repeat split; assumption.
Qed.

Lemma emitInvoice_takes_empty_text_for_none_witness :
  (exists w',
     Emission.emitInvoice Examples.imports_with_shipments "FAC-2025-0001" Examples.new_year
                          Examples.world_with_empty_invoices
     = (inr {| Emission.success := false; Emission.res_invoice := None;
               Emission.res_errors := Some ["No se encontraron facturas"];
               Emission.res_warnings := None |}, w') /\
     Emission.localStorage w' !! "invoices" = Some "" /\
     Emission.toasts w'
     = [] ++ [ {| Emission.toast_kind := Emission.ToastError;
                  Emission.toast_title := "Error al emitir factura";
                  Emission.toast_description := "No se encontraron facturas" |} ])
  /\
  exists result w',
    Emission.emitInvoice Examples.imports_with_shipments "FAC-2025-0001" Examples.new_year
                         Examples.world_with_empty_shipments = (inr result, w') /\
    Emission.success result = true /\
    Emission.localStorage w' !! "shipments" = Some "" /\
    Emission.toasts w' = [] ++ Spec.success_toasts {| Emission.folio_id := "FE-3" |} [].
Proof.
  destruct (emitInvoice_takes_empty_text_for_none Examples.imports_with_shipments
              "FAC-2025-0001" Examples.new_year)
    as [Hinvoices Hshipments].
  - discriminate.
  - intros e ls. apply lookup_insert_ne. discriminate.
  - intros e ls. apply lookup_insert_ne. discriminate.
  - split.
    + apply (Hinvoices Examples.world_with_empty_invoices). reflexivity.
    + apply (Hshipments Examples.world_with_empty_shipments "stored" Examples.stored
               Examples.draft Examples.corporate);
        solve [reflexivity | discriminate].
Defined.

(** ** Shipment references in item descriptions *)

Section References.

Import Emission.

Lemma take_drop (n : nat) (s : string) : JS.take n s +:+ JS.drop n s = s.
Proof.
  unfold JS.take, JS.drop. revert n.
  induction s as [|c s IH]; intros n.
  - destruct n; reflexivity.
  - destruct n as [|n].
    + simpl. now rewrite substring_all.
    + simpl. now rewrite IH.
Qed.

Lemma prefix_split (p s : string) :
  String.prefix p s = true -> s = p +:+ JS.drop (String.length p) s.
Proof.
  intros H. apply prefix_correct in H.
  rewrite <- (take_drop (String.length p) s) at 1.
  unfold JS.take. now rewrite H.
Qed.

Lemma drop_0 (s : string) : JS.drop 0 s = s.
Proof. unfold JS.drop. rewrite Nat.sub_0_r. apply substring_all. Qed.

Lemma drop_cons (n : nat) (c : ascii) (s : string) :
  JS.drop (S n) (String c s) = JS.drop n s.
Proof. reflexivity. Qed.

(** [match_ENV] looks for a reference at the start and, finding none,
    moves one character on. *)
Lemma match_ENV_cons (c : ascii) (s : string) :
  match_ENV (String c s)
  = match Spec.reference_at_start (String c s) with
    | Some m => Some m
    | None => match_ENV s
    end.
Proof.
  unfold Spec.reference_at_start.
  destruct c as [[] [] [] [] [] [] [] []]; try reflexivity.
  destruct s as [|c1 s1]; [reflexivity |].
  destruct c1 as [[] [] [] [] [] [] [] []]; try reflexivity.
  destruct s1 as [|c2 s2]; [reflexivity |].
  destruct c2 as [[] [] [] [] [] [] [] []]; try reflexivity.
  destruct s2 as [|c3 s3]; [reflexivity |].
  destruct c3 as [[] [] [] [] [] [] [] []]; try reflexivity.
  cbn [match_ENV].
  rewrite (prefix_append "ENV-" s3
             : String.prefix "ENV-" (String "E" (String "N" (String "V" (String "-" s3))))
               = true).
  rewrite !drop_cons, drop_0.
  destruct (leading_digits s3); reflexivity.
Qed.

Lemma leading_digits_split (s : string) :
  exists rest,
    s = leading_digits s +:+ rest /\
    Spec.all_chars Cufe.is_digit (leading_digits s) = true /\
    Spec.starts_with_digit rest = false.
Proof.
  induction s as [|c s (rest & Hs & Hd & Hr)].
  - exists "". repeat split.
  - cbn [leading_digits]. destruct (Cufe.is_digit c) eqn:Hc.
    + exists rest. cbn [String.append Spec.all_chars]. rewrite Hc, Hd, <- Hs. repeat split.
      exact Hr.
    + exists (String c s). repeat split. exact Hc.
Qed.

Lemma leading_digits_append (ds rest : string) :
  Spec.all_chars Cufe.is_digit ds = true ->
  Spec.starts_with_digit rest = false ->
  leading_digits (ds +:+ rest) = ds.
Proof.
  intros Hd Hr. induction ds as [|c ds IH].
  - destruct rest as [|c rest]; [reflexivity |].
    cbn in Hr. cbn [String.append leading_digits]. now rewrite Hr.
  - cbn [Spec.all_chars] in Hd. apply andb_true_iff in Hd as [Hc Hd].
    cbn [String.append leading_digits]. now rewrite Hc, IH.
Qed.

Lemma reference_at_start_sound (s m : string) :
  Spec.reference_at_start s = Some m ->
  exists ds rest,
    s = "ENV-" +:+ ds +:+ rest /\ m = "ENV-" +:+ ds /\ ds <> "" /\
    Spec.all_chars Cufe.is_digit ds = true /\ Spec.starts_with_digit rest = false.
Proof.
  unfold Spec.reference_at_start.
  destruct (String.prefix "ENV-" s) eqn:Hp; [|discriminate].
  apply prefix_split in Hp. change (String.length "ENV-") with 4%nat in Hp.
  destruct (leading_digits_split (JS.drop 4 s)) as (rest & Hs & Hd & Hr).
  destruct (leading_digits (JS.drop 4 s)) as [|c ds] eqn:Hl; [discriminate |].
  intros [= <-]. exists (String c ds), rest.
  split; [now rewrite <- Hs | ]. repeat split; try assumption. discriminate.
Qed.

End References.

(** X15.  A reference found by [match(/ENV-\d+/)] in a description is the
    text ENV- followed by one or more digits, all those that stand there,
    and it occurs in the description. *)
Theorem match_ENV_finds_a_reference (s m : string) :
  Emission.match_ENV s = Some m ->
  exists before ds after,
    s = before +:+ "ENV-" +:+ ds +:+ after /\
    m = "ENV-" +:+ ds /\
    ds <> "" /\
    Spec.all_chars Cufe.is_digit ds = true /\
    Spec.starts_with_digit after = false.
Proof.
  induction s as [|c s IH]; [discriminate |].
  rewrite match_ENV_cons.
  destruct (Spec.reference_at_start (String c s)) as [m'|] eqn:Hr.
  - intros [= ->].
    destruct (reference_at_start_sound _ _ Hr) as (ds & rest & Hs & Hm & Hne & Hd & Hrest).
    exists "", ds, rest. repeat split; assumption.
  - intros Hm. destruct (IH Hm) as (before & ds & after & Hs & Hm' & Hne & Hd & Hafter).
    exists (String c before), ds, after. rewrite Hs. repeat split; assumption.
Qed.

Lemma match_ENV_finds_a_reference_witness :
  exists before ds after,
    "Flete ENV-1001 Bogota-Cali" = before +:+ "ENV-" +:+ ds +:+ after /\
    "ENV-1001" = "ENV-" +:+ ds /\
    ds <> "" /\
    Spec.all_chars Cufe.is_digit ds = true /\
    Spec.starts_with_digit after = false.
Proof.
  apply (match_ENV_finds_a_reference "Flete ENV-1001 Bogota-Cali" "ENV-1001").
  reflexivity.
Defined.

(** X16.  Only the first reference of a description is taken: a description
    that starts with ENV-, digits and a character that is no digit gives
    that reference, whatever references follow. *)
Theorem match_ENV_takes_the_first_reference (ds after : string) :
  ds <> "" ->
  Spec.all_chars Cufe.is_digit ds = true ->
  Spec.starts_with_digit after = false ->
  Emission.match_ENV ("ENV-" +:+ ds +:+ after) = Some ("ENV-" +:+ ds).
Proof.
  intros Hne Hd Hafter.
  change ("ENV-" +:+ ds +:+ after)
    with (String "E" (String "N" (String "V" (String "-" (ds +:+ after))))).
  cbn [Emission.match_ENV].
  rewrite (leading_digits_append _ _ Hd Hafter).
  destruct ds; [congruence | reflexivity].
Qed.

Lemma match_ENV_takes_the_first_reference_witness :
  Emission.match_ENV ("ENV-" +:+ "1001" +:+ " y ENV-2002") = Some ("ENV-" +:+ "1001").
Proof.
  apply (match_ENV_takes_the_first_reference "1001" " y ENV-2002");
    [discriminate | reflexivity | reflexivity].
Defined.

(** X17.  Marking the shipments keeps their number, their order and their
    ids; a shipment is either left as it was or set to Facturado, and it is
    set to Facturado exactly when its id is the first reference of one of
    the invoice's item descriptions. *)
Theorem updatedShipments_marks_only_referenced
    (invoice : Invoice) (shipments : list Shipment) (i : nat) (shipment : Shipment) :
  shipments !! i = Some shipment ->
  length (Emission.updatedShipments invoice shipments) = length shipments /\
  exists marked,
    Emission.updatedShipments invoice shipments !! i = Some marked /\
    shp_id marked = shp_id shipment /\
    ((exists item, In item (inv_items invoice) /\
                   Emission.match_ENV (descripcion item) = Some (shp_id shipment)) /\
     shp_estado marked = "Facturado"
     \/
     (forall item, In item (inv_items invoice) ->
                   Emission.match_ENV (descripcion item) <> Some (shp_id shipment)) /\
     marked = shipment).
Proof.
  intros Hi. unfold Emission.updatedShipments.
  split; [apply length_map |].
  rewrite list_lookup_fmap, Hi. cbn [fmap option_fmap option_map].
  eexists. split; [reflexivity |].
  unfold Emission.includes, Emission.shipmentIds.
  destruct (existsb _ _) eqn:He.
  - split; [reflexivity |]. left. split; [|reflexivity].
    apply existsb_exists in He as (x & Hx & Heq).
    apply String.eqb_eq in Heq. subst x.
    apply list_elem_of_In, list_elem_of_omap in Hx as (item & Hitem & Hm).
    exists item. split; [now apply list_elem_of_In | exact Hm].
  - split; [reflexivity |]. right. split; [|reflexivity].
    intros item Hitem Hm.
    assert (Hex : existsb (String.eqb (shp_id shipment))
                    (omap (fun item => Emission.match_ENV (descripcion item))
                          (inv_items invoice)) = true).
    { apply existsb_exists. exists (shp_id shipment). split; [|apply String.eqb_refl].
      apply list_elem_of_In, list_elem_of_omap. exists item.
      split; [now apply list_elem_of_In | exact Hm]. }
    congruence.
Qed.

Lemma updatedShipments_marks_only_referenced_witness :
  length (Emission.updatedShipments Examples.draft Examples.fleet) = length Examples.fleet /\
  exists marked,
    Emission.updatedShipments Examples.draft Examples.fleet !! 0%nat = Some marked /\
    shp_id marked = "ENV-1001" /\
    ((exists item, In item (inv_items Examples.draft) /\
                   Emission.match_ENV (descripcion item) = Some "ENV-1001") /\
     shp_estado marked = "Facturado"
     \/
     (forall item, In item (inv_items Examples.draft) ->
                   Emission.match_ENV (descripcion item) <> Some "ENV-1001") /\
     marked = {| shp_id := "ENV-1001"; shp_estado := "Entregado" |}).
Proof.
  apply (updatedShipments_marks_only_referenced Examples.draft Examples.fleet 0
           {| shp_id := "ENV-1001"; shp_estado := "Entregado" |}).
  reflexivity.
Defined.

(** ** Password recovery: retries and the code field *)

Section RecoveryFlows.

Import Recovery.

Lemma onSubmitCode_wrong (data : string) (st : State) :
  data <> "123456" ->
  onSubmitCode data st
  = ({| step := step st; isSending := isSending st; isVerifying := false;
        email := email st; emailForm := emailForm st; codeForm := codeForm st |},
     [SetTimeout 1000; rejected_toast]).
Proof.
  intros Hne. unfold onSubmitCode.
  destruct (String.eqb_spec data "123456"); [contradiction | reflexivity].
Qed.

Lemma onSubmitCode_right (st : State) :
  onSubmitCode "123456" st
  = ({| step := StepEmail; isSending := isSending st; isVerifying := false;
        email := ""; emailForm := ""; codeForm := "" |},
     [SetTimeout 1000; verified_toast; OnOpenChange false]).
Proof. reflexivity. Qed.

Lemma submit_wrong_codes (codes : list string) (st : State) :
  Forall (fun code => code <> "123456") codes ->
  codes <> [] ->
  Spec.submit_codes codes st
  = ({| step := step st; isSending := isSending st; isVerifying := false;
        email := email st; emailForm := emailForm st; codeForm := codeForm st |},
     flat_map (fun _ => [SetTimeout 1000; rejected_toast]) codes).
Proof.
  intros Hall. revert st. induction Hall as [|code codes Hcode Hall IH]; intros st Hne.
  - congruence.
  - cbn [Spec.submit_codes flat_map]. rewrite (onSubmitCode_wrong _ _ Hcode).
    destruct codes as [|code' codes'].
    + reflexivity.
    + rewrite IH by discriminate. reflexivity.
Qed.

Lemma submit_codes_app (codes1 codes2 : list string) (st : State) :
  Spec.submit_codes (codes1 ++ codes2) st
  = let '(st1, effects1) := Spec.submit_codes codes1 st in
    let '(st2, effects2) := Spec.submit_codes codes2 st1 in
    (st2, effects1 ++ effects2).
Proof.
  revert st. induction codes1 as [|code codes1 IH]; intros st.
  - cbn [app Spec.submit_codes]. destruct (Spec.submit_codes codes2 st). reflexivity.
  - cbn [app Spec.submit_codes].
    destruct (onSubmitCode code st) as [st1 e1]. rewrite IH.
    destruct (Spec.submit_codes codes1 st1) as [st2 e2].
    destruct (Spec.submit_codes codes2 st2) as [st3 e3].
    now rewrite app_assoc.
Qed.

Lemma length_take (n : nat) (s : string) :
  String.length (JS.take n s) = Nat.min n (String.length s).
Proof.
  unfold JS.take. revert n. induction s as [|c s IH]; intros [|n]; simpl; auto.
Qed.

Lemma all_chars_take (p : ascii -> bool) (n : nat) (s : string) :
  Spec.all_chars p s = true -> Spec.all_chars p (JS.take n s) = true.
Proof.
  unfold JS.take. revert n. induction s as [|c s IH]; intros [|n]; simpl; auto.
  rewrite !andb_true_iff. intros [Hc Hs]. split; [exact Hc | now apply IH].
Qed.

Lemma remove_non_digits_all_digit (s : string) :
  Spec.all_chars Cufe.is_digit (remove_non_digits s) = true.
Proof.
  induction s as [|c s IH]; [reflexivity |].
  cbn [remove_non_digits]. destruct (Cufe.is_digit c) eqn:Hc; [|exact IH].
  cbn [Spec.all_chars]. now rewrite Hc, IH.
Qed.

Lemma remove_non_digits_of_digits (s : string) :
  Spec.all_chars Cufe.is_digit s = true -> remove_non_digits s = s.
Proof.
  induction s as [|c s IH]; [reflexivity |].
  cbn [Spec.all_chars remove_non_digits]. rewrite andb_true_iff. intros [Hc Hs].
  now rewrite Hc, IH.
Qed.

Lemma take_take (n : nat) (s : string) : JS.take n (JS.take n s) = JS.take n s.
Proof.
  unfold JS.take. revert n. induction s as [|c s IH]; intros [|n]; simpl; auto.
  now rewrite IH.
Qed.

Lemma codeSchema_after_typing (val : string) :
  codeSchema (JS.take 6 (remove_non_digits val))
  = (6 <=? String.length (remove_non_digits val))%nat.
Proof.
  unfold codeSchema.
  rewrite length_digit_string by apply all_chars_take, remove_non_digits_all_digit.
  rewrite length_take.
  destruct (Nat.leb_spec 6 (String.length (remove_non_digits val))).
  - rewrite Nat.min_l by assumption. reflexivity.
  - rewrite Nat.min_r by lia.
    destruct (Nat.leb_spec 6 (String.length (remove_non_digits val))); [lia | reflexivity].
Qed.

End RecoveryFlows.

(** X18.  There is no limit on attempts: after any number of wrong codes,
    each answered by the error toast, the dialog is still on the same step
    for the same email, and the code 123456 then verifies and closes it. *)
Theorem wrong_codes_do_not_lock_the_dialog (codes : list string) (st : Recovery.State) :
  Forall (fun code => code <> "123456") codes ->
  let after_wrong := Spec.submit_codes codes st in
  let after_right := Spec.submit_codes (codes ++ ["123456"]) st in
  Recovery.step (fst after_wrong) = Recovery.step st /\
  Recovery.email (fst after_wrong) = Recovery.email st /\
  snd after_wrong
  = flat_map (fun _ => [Recovery.SetTimeout 1000; Recovery.rejected_toast]) codes /\
  snd after_right
  = snd after_wrong ++
    [Recovery.SetTimeout 1000; Recovery.verified_toast; Recovery.OnOpenChange false] /\
  Recovery.step (fst after_right) = Recovery.StepEmail /\
  Recovery.email (fst after_right) = "".
Proof.
  intros Hall. cbv zeta. rewrite submit_codes_app.
  destruct codes as [|code codes].
  - repeat split.
  - rewrite (submit_wrong_codes _ st Hall) by discriminate.
    cbn [Spec.submit_codes fst snd]. rewrite onSubmitCode_right.
    cbn [fst snd Recovery.step Recovery.email]. rewrite app_nil_r. repeat split.
Qed.

Lemma wrong_codes_do_not_lock_the_dialog_witness :
  let st := fst (Recovery.onSubmitEmail "ana@example.co"
                   {| Recovery.step := Recovery.StepEmail; Recovery.isSending := false;
                      Recovery.isVerifying := false; Recovery.email := "";
                      Recovery.emailForm := "ana@example.co"; Recovery.codeForm := "" |}) in
  let after_wrong := Spec.submit_codes ["000000"; "654321"] st in
  let after_right := Spec.submit_codes (["000000"; "654321"] ++ ["123456"]) st in
  Recovery.step (fst after_wrong) = Recovery.StepCode /\
  Recovery.email (fst after_wrong) = "ana@example.co" /\
  snd after_wrong
  = flat_map (fun _ => [Recovery.SetTimeout 1000; Recovery.rejected_toast])
             ["000000"; "654321"] /\
  snd after_right
  = snd after_wrong ++
    [Recovery.SetTimeout 1000; Recovery.verified_toast; Recovery.OnOpenChange false] /\
  Recovery.step (fst after_right) = Recovery.StepEmail /\
  Recovery.email (fst after_right) = "".
Proof.
  apply (wrong_codes_do_not_lock_the_dialog ["000000"; "654321"]).
  repeat constructor; discriminate.
Defined.

(** X19.  Whatever is typed or pasted in the code field, the form keeps at
    most six characters, all decimal digits: the digits of the text in
    their order, cut after the sixth.  Typing the kept value again changes
    nothing, and the other fields of the state are untouched. *)
Theorem otp_onChange_keeps_at_most_six_digits (val : string) (st : Recovery.State) :
  let st' := Recovery.otp_onChange val st in
  let code := Recovery.codeForm st' in
  (String.length code <= 6)%nat /\
  String.length code = Nat.min 6 (String.length (Recovery.remove_non_digits val)) /\
  Spec.all_chars Cufe.is_digit code = true /\
  Recovery.codeSchema code = (6 <=? String.length (Recovery.remove_non_digits val))%nat /\
  Recovery.otp_onChange code st' = st' /\
  Recovery.step st' = Recovery.step st /\ Recovery.email st' = Recovery.email st.
Proof.
  cbv zeta. unfold Recovery.otp_onChange. cbn [Recovery.codeForm].
  pose proof (length_take 6 (Recovery.remove_non_digits val)) as Hlen.
  pose proof (all_chars_take _ 6 _ (remove_non_digits_all_digit val)) as Hdig.
  split; [lia |]. split; [exact Hlen |]. split; [exact Hdig |].
  split; [apply codeSchema_after_typing |].
  split; [|split; reflexivity].
  cbn [Recovery.step Recovery.isSending Recovery.isVerifying Recovery.email
       Recovery.emailForm].
  now rewrite (remove_non_digits_of_digits _ Hdig), take_take.
Qed.

(** X20.  Submitting what the code field holds after typing [val]: with
    fewer than six digits typed the handler does not run; otherwise the
    first six digits decide, and the dialog closes exactly when they are
    123456. *)
Theorem submitCode_after_typing (val : string) (st : Recovery.State) :
  let digits := Recovery.remove_non_digits val in
  snd (Recovery.submitCode (Recovery.otp_onChange val st))
  = if (String.length digits <? 6)%nat then []
    else if String.eqb (JS.take 6 digits) "123456"
         then [Recovery.SetTimeout 1000; Recovery.verified_toast; Recovery.OnOpenChange false]
         else [Recovery.SetTimeout 1000; Recovery.rejected_toast].
Proof.
  cbv zeta. unfold Recovery.submitCode.
  cbn [Recovery.otp_onChange Recovery.codeForm]. rewrite codeSchema_after_typing.
  destruct (Nat.leb_spec 6 (String.length (Recovery.remove_non_digits val))) as [Hge|Hlt].
  - destruct (Nat.ltb_spec (String.length (Recovery.remove_non_digits val)) 6); [lia |].
    rewrite onSubmitCode_effects. reflexivity.
  - destruct (Nat.ltb_spec (String.length (Recovery.remove_non_digits val)) 6); [|lia].
    reflexivity.
Qed.
